(** * The KISS-ICP registration viewers (python/kiss_icp/tools/visualizer.py)

    A shallow embedding of the three viewer classes of the module,
    [StubVisualizer], [Kissualizer] (polyscope backend) and
    [RegistrationVisualizer] (open3d backend), followed by the properties of
    the playback and view-state controller.

    The rendering libraries and numpy are external to the module.  What the
    code needs from numpy is kept abstract in the class [NumPy]; each backend
    is represented by the part of its state that the module reads or writes.
    User interaction is an explicit script: one entry per poll of the
    renderer's event loop. *)

From Stdlib Require Import ZArith QArith String List.
From stdpp Require Import base option list strings gmap.

Set Default Proof Using "Type".

(** ** Arrays *)

Definition Vec3 (A : Type) : Type := (A * A * A)%type.
Definition Row4 (A : Type) : Type := (A * A * A * A)%type.
Definition Mat4 (A : Type) : Type := (Row4 A * Row4 A * Row4 A * Row4 A)%type.

(** The array element type with the two constants the module writes itself
    ([np.eye(4)], [np.asarray([[0, 0, 0]])]) and [np.linalg.inv].  The poses
    the pipeline hands to a viewer are rigid transforms, which are
    invertible: [linalg_inv] is [np.linalg.inv] on those, and the model says
    nothing of a call on a singular matrix, where numpy raises
    [LinAlgError]. *)
Class NumPy := {
  scalar : Type;
  zero : scalar;
  one : scalar;
  linalg_inv : Mat4 scalar -> Mat4 scalar
}.

Section Arrays.
Context `{NumPy}.

(** [np.eye(4)] *)
Definition eye4 : Mat4 scalar :=
  ((one, zero, zero, zero),
   (zero, one, zero, zero),
   (zero, zero, one, zero),
   (zero, zero, zero, one)).

(** [pose[:3, 3]] *)
Definition translation (pose : Mat4 scalar) : Vec3 scalar :=
  let '((_, _, _, tx), (_, _, _, ty), (_, _, _, tz), _) := pose in (tx, ty, tz).

(** [np.asarray([[0, 0, 0]])] *)
Definition origin_cloud : list (Vec3 scalar) := [(zero, zero, zero)].

(** The local map handed to [update]: an object with a [point_cloud()]
    method. *)
Record LocalMap := { point_cloud : list (Vec3 scalar) }.

(** The four arguments of one [update] call. *)
Record Frame := {
  frame_source : list (Vec3 scalar);
  frame_keypoints : list (Vec3 scalar);
  frame_target_map : LocalMap;
  frame_pose : Mat4 scalar
}.

End Arrays.

(** ** Module constants *)

Definition CYAN : list Q := [0.24; 0.898; 1]%Q.
Definition RED : list Q := [128 / 255; 0 / 255; 0 / 255]%Q.
Definition BLACK : list Q := [0 / 255; 0 / 255; 0 / 255]%Q.
Definition BLUE : list Q := [0.4; 0.5; 0.9]%Q.
Definition GRAY : list Q := [0.4; 0.4; 0.4]%Q.
Definition SPHERE_SIZE : Q := 0.20%Q.

Definition BACKGROUND_COLOR : list Q := [0.0; 0.0; 0.0]%Q.
Definition FRAME_COLOR : list Q := [0.1412; 0.4823; 0.6274]%Q.
Definition KEYPOINTS_COLOR : list Q := [0.8470; 0.0667; 0.3490]%Q.
Definition LOCAL_MAP_COLOR : list Q := [0.7647; 0.6981; 0.6000]%Q.
Definition TRAJECTORY_COLOR : list Q := [0.9647; 0.9372; 0.6509]%Q.

(** ** Processes

    A method runs on a world [W] and either returns, ends the process
    ([exit], [os._exit]), raises, or is still inside its polling loop when
    the script of user actions is used up ([Waiting]). *)

Inductive exn : Type :=
| AttributeError (msg : string)
| ValueError (msg : string)
| ModuleNotFoundError (name : string)
| ImportError (msg : string).

Inductive result (W A : Type) : Type :=
| Ok (a : A) (w : W)
| Exit (code : Z) (w : W)
| Raise (e : exn) (w : W)
| Waiting (w : W).
Arguments Ok {W A} a w.
Arguments Exit {W A} code w.
Arguments Raise {W A} e w.
Arguments Waiting {W A} w.

Definition M (W A : Type) : Type := W -> result W A.

Definition ret {W A} (a : A) : M W A := fun w => Ok a w.

Definition bind {W A B} (m : M W A) (k : A -> M W B) : M W B :=
  fun w =>
    match m w with
    | Ok a w' => k a w'
    | Exit code w' => Exit code w'
    | Raise e w' => Raise e w'
    | Waiting w' => Waiting w'
    end.

Declare Scope proc_scope.
Delimit Scope proc_scope with proc.
Notation "x <~ c1 ;; c2" := (bind c1 (fun x => c2))
  (at level 100, c1 at next level, c2 at level 200, right associativity)
  : proc_scope.
Notation "c1 ;; c2" := (bind c1 (fun _ => c2))
  (at level 100, c2 at level 200, right associativity) : proc_scope.

Definition gets {W A} (f : W -> A) : M W A := fun w => Ok (f w) w.
Definition modify {W} (f : W -> W) : M W unit := fun w => Ok tt (f w).
(** [os._exit(code)], and the builtin [exit(code)], which raises
    [SystemExit]: nothing in the module intercepts it, so it ends the process
    with that status. *)
Definition os_exit {W A} (code : Z) : M W A := fun w => Exit code w.
Definition builtin_exit {W A} (code : Z) : M W A := fun w => Exit code w.
Definition raise {W A} (e : exn) : M W A := fun w => Raise e w.
Definition when {W} (b : bool) (m : M W unit) : M W unit :=
  if b then m else ret tt.

(** The world a result leaves behind, whatever the way the method ended. *)
Definition world_of {W A} (r : result W A) : W :=
  match r with
  | Ok _ w | Exit _ w | Raise _ w | Waiting w => w
  end.

(** The value a method returned, and the status the process ended with. *)
Definition returned {W A} (r : result W A) : option A :=
  match r with
  | Ok a _ => Some a
  | _ => None
  end.

Definition exit_status {W A} (r : result W A) : option Z :=
  match r with
  | Exit code _ => Some code
  | _ => None
  end.

(** The exception a method raised. *)
Definition raised {W A} (r : result W A) : option exn :=
  match r with
  | Raise e _ => Some e
  | _ => None
  end.

(** How a method can end without returning. *)
Inductive ending : Type :=
| Exits (code : Z)
| Raises (e : exn)
| Waits.

(** [triple P m Q E]: from a world in [P], [m] either returns a value and a
    world in [Q], or ends otherwise, in a way and a world in [E]. *)
Definition triple {W A} (P : W -> Prop) (m : M W A) (Q : A -> W -> Prop)
    (E : ending -> W -> Prop) : Prop :=
  forall w, P w ->
    match m w with
    | Ok a w' => Q a w'
    | Exit code w' => E (Exits code) w'
    | Raise e w' => E (Raises e) w'
    | Waiting w' => E Waits w'
    end.

(** [I] holds again however [m] ends. *)
Definition keeps {W A} (I : W -> Prop) (m : M W A) : Prop :=
  triple I m (fun _ => I) (fun _ => I).

(** [m] returns, and [I] holds again. *)
Definition runs {W A} (I : W -> Prop) (m : M W A) : Prop :=
  triple I m (fun _ => I) (fun _ _ => False).

(** The text printed when a backend is missing:
    [f'<module> is not installed on your system, run "pip install <module>"']. *)
Definition dquote : string := String (Ascii.ascii_of_nat 34) EmptyString.
Definition newline : string := String (Ascii.ascii_of_nat 10) EmptyString.
Definition tab : string := String (Ascii.ascii_of_nat 9) EmptyString.
Definition install_hint (module : string) : string :=
  module +:+ " is not installed on your system, run " +:+
  dquote +:+ "pip install " +:+ module +:+ dquote.

(** What [importlib.import_module("open3d")] does in a process: the module
    is imported, or the import raises.  A [bool] reads as whether open3d is
    installed: [true] is [imported], and [false] is an import that raises
    [ModuleNotFoundError]. *)
Inductive Import : Type :=
| imported
| import_raises (e : exn).

Definition installed (found : bool) : Import :=
  if found then imported else import_raises (ModuleNotFoundError "open3d").
Coercion installed : bool >-> Import.

(** ** The viewer interface

    The three classes answer the same call,
    [update(self, source, keypoints, target_map, pose)].  In the model the
    call also receives the script of what the user does at the coming polls
    of the event loop (events of type [Ev]) and returns the part of the
    script it did not consume. *)
Class Viewer `{NumPy} (Self W Ev : Type) := {
  viewer_update :
    Self -> list (Vec3 scalar) -> list (Vec3 scalar) -> LocalMap ->
    Mat4 scalar -> list Ev -> M W (list Ev)
}.

(** The pipeline's use of a viewer: one [update] per frame, in order. *)
Fixpoint session `{Viewer Self W Ev} (self : Self) (frames : list Frame)
    (script : list Ev) : M W (list Ev) :=
  match frames with
  | [] => ret script
  | f :: frames' =>
      (rest <~ viewer_update self (frame_source f) (frame_keypoints f)
                 (frame_target_map f) (frame_pose f) script ;;
       session self frames' rest)%proc
  end.

(** ** StubVisualizer *)

Module StubVisualizer.
Section Model.
Context `{NumPy} {W Ev : Type}.

(** [__init__(self): pass] *)
Definition __init__ (self : unit) : M W unit := ret tt.

(** [update(self, source, keypoints, target_map, pose): pass] *)
Definition update (self : unit) (source keypoints : list (Vec3 scalar))
    (target_map : LocalMap) (pose : Mat4 scalar) (script : list Ev)
  : M W (list Ev) :=
  ret script.

#[export] Instance viewer : Viewer unit W Ev := {| viewer_update := update |}.

(** The pipeline running on the stub. *)
Definition run (self : unit) (frames : list Frame) (script : list Ev)
  : M W (list Ev) :=
  session self frames script.

End Model.
End StubVisualizer.

(** ** Kissualizer: the polyscope backend *)

Module Kissualizer.
Section Model.
Context `{NumPy}.

(** *** polyscope, as far as the class drives it *)

(** A registered point cloud.  [radius] is the absolute radius
    ([set_radius(r, relative=False)]). *)
Record PointCloud := {
  points : list (Vec3 scalar);
  color : list Q;
  point_render_mode : string;
  radius : Q;
  transform : Mat4 scalar;
  enabled : bool
}.

Inductive Camera : Type :=
| StartView
| HomeView
| LookAt (camera_location target : Q * Q * Q).

(** The module-level state of polyscope. [frame_ticks] counts the calls of
    [frame_tick]; [unshown] records a call of [unshow]. *)
Record Polyscope := {
  program_name : string;
  initialized : bool;
  ground_plane_mode : string;
  view_background_color : list Q;
  user_callback : bool;
  build_gui : bool;
  structures : gmap string PointCloud;
  camera : Camera;
  frame_ticks : nat;
  unshown : bool
}.

(** What a newly registered structure starts with, given the structure of
    the same name it replaces (if any), is polyscope's business; the model
    leaves it open. *)
Class Registration := {
  inherited_radius : option PointCloud -> Q;
  inherited_transform : option PointCloud -> Mat4 scalar;
  inherited_enabled : option PointCloud -> bool
}.
Context `{Registration}.

(** *** The class attributes (lines 55-65)

    [polyscope] is [false] for [None] and [true] once it refers to the
    imported module. *)
Record Attrs := {
  polyscope : bool;
  background_color : list Q;
  block_execution : bool;
  play_mode : bool;
  toggle_frame : bool;
  toggle_keypoints : bool;
  toggle_map : bool;
  global_view : bool;
  trajectory : list (Vec3 scalar);
  last_pose : Mat4 scalar
}.

(** The process: the polyscope module that
    [importlib.import_module("polyscope")] yields ([None] when the import
    raises), the attributes of the class [Kissualizer], what was printed (the
    argument of each [print]), and the exception the import raises when it
    yields no module.  Instances of [Kissualizer] have no attributes of their
    own. *)
Record World := {
  site_polyscope : option Polyscope;
  cls : Attrs;
  stdout : list string;
  import_error : exn
}.

Inductive Instance : Type := instance_at (address : nat).

(** The class body. *)
Definition class_attrs : Attrs :=
  {| polyscope := false;
     background_color := BACKGROUND_COLOR;
     block_execution := true;
     play_mode := false;
     toggle_frame := true;
     toggle_keypoints := true;
     toggle_map := true;
     global_view := false;
     trajectory := [];
     last_pose := eye4 |}.

(** A new process, in which polyscope is installed ([Some]) or is not
    ([None]: the import raises [ModuleNotFoundError]). *)
Definition boot (site : option Polyscope) : World :=
  {| site_polyscope := site; cls := class_attrs; stdout := [];
     import_error := ModuleNotFoundError "polyscope" |}.

(** *** Field updates *)

Definition with_points (x : list (Vec3 scalar)) (r : PointCloud) : PointCloud :=
  {| points := x; color := color r; point_render_mode := point_render_mode r;
     radius := radius r; transform := transform r; enabled := enabled r |}.
Definition with_color (x : list Q) (r : PointCloud) : PointCloud :=
  {| points := points r; color := x;
     point_render_mode := point_render_mode r; radius := radius r;
     transform := transform r; enabled := enabled r |}.
Definition with_point_render_mode (x : string) (r : PointCloud) : PointCloud :=
  {| points := points r; color := color r; point_render_mode := x;
     radius := radius r; transform := transform r; enabled := enabled r |}.
Definition with_radius (x : Q) (r : PointCloud) : PointCloud :=
  {| points := points r; color := color r;
     point_render_mode := point_render_mode r; radius := x;
     transform := transform r; enabled := enabled r |}.
Definition with_transform (x : Mat4 scalar) (r : PointCloud) : PointCloud :=
  {| points := points r; color := color r;
     point_render_mode := point_render_mode r; radius := radius r;
     transform := x; enabled := enabled r |}.
Definition with_enabled (x : bool) (r : PointCloud) : PointCloud :=
  {| points := points r; color := color r;
     point_render_mode := point_render_mode r; radius := radius r;
     transform := transform r; enabled := x |}.
Definition with_program_name (x : string) (r : Polyscope) : Polyscope :=
  {| program_name := x; initialized := initialized r;
     ground_plane_mode := ground_plane_mode r;
     view_background_color := view_background_color r;
     user_callback := user_callback r; build_gui := build_gui r;
     structures := structures r; camera := camera r;
     frame_ticks := frame_ticks r; unshown := unshown r |}.
Definition with_initialized (x : bool) (r : Polyscope) : Polyscope :=
  {| program_name := program_name r; initialized := x;
     ground_plane_mode := ground_plane_mode r;
     view_background_color := view_background_color r;
     user_callback := user_callback r; build_gui := build_gui r;
     structures := structures r; camera := camera r;
     frame_ticks := frame_ticks r; unshown := unshown r |}.
Definition with_ground_plane_mode (x : string) (r : Polyscope) : Polyscope :=
  {| program_name := program_name r; initialized := initialized r;
     ground_plane_mode := x;
     view_background_color := view_background_color r;
     user_callback := user_callback r; build_gui := build_gui r;
     structures := structures r; camera := camera r;
     frame_ticks := frame_ticks r; unshown := unshown r |}.
Definition with_view_background_color (x : list Q) (r : Polyscope) : Polyscope :=
  {| program_name := program_name r; initialized := initialized r;
     ground_plane_mode := ground_plane_mode r; view_background_color := x;
     user_callback := user_callback r; build_gui := build_gui r;
     structures := structures r; camera := camera r;
     frame_ticks := frame_ticks r; unshown := unshown r |}.
Definition with_user_callback (x : bool) (r : Polyscope) : Polyscope :=
  {| program_name := program_name r; initialized := initialized r;
     ground_plane_mode := ground_plane_mode r;
     view_background_color := view_background_color r; user_callback := x;
     build_gui := build_gui r; structures := structures r;
     camera := camera r; frame_ticks := frame_ticks r;
     unshown := unshown r |}.
Definition with_build_gui (x : bool) (r : Polyscope) : Polyscope :=
  {| program_name := program_name r; initialized := initialized r;
     ground_plane_mode := ground_plane_mode r;
     view_background_color := view_background_color r;
     user_callback := user_callback r; build_gui := x;
     structures := structures r; camera := camera r;
     frame_ticks := frame_ticks r; unshown := unshown r |}.
Definition with_structures (x : gmap string PointCloud) (r : Polyscope) : Polyscope :=
  {| program_name := program_name r; initialized := initialized r;
     ground_plane_mode := ground_plane_mode r;
     view_background_color := view_background_color r;
     user_callback := user_callback r; build_gui := build_gui r;
     structures := x; camera := camera r; frame_ticks := frame_ticks r;
     unshown := unshown r |}.
Definition with_camera (x : Camera) (r : Polyscope) : Polyscope :=
  {| program_name := program_name r; initialized := initialized r;
     ground_plane_mode := ground_plane_mode r;
     view_background_color := view_background_color r;
     user_callback := user_callback r; build_gui := build_gui r;
     structures := structures r; camera := x; frame_ticks := frame_ticks r;
     unshown := unshown r |}.
Definition with_frame_ticks (x : nat) (r : Polyscope) : Polyscope :=
  {| program_name := program_name r; initialized := initialized r;
     ground_plane_mode := ground_plane_mode r;
     view_background_color := view_background_color r;
     user_callback := user_callback r; build_gui := build_gui r;
     structures := structures r; camera := camera r; frame_ticks := x;
     unshown := unshown r |}.
Definition with_unshown (x : bool) (r : Polyscope) : Polyscope :=
  {| program_name := program_name r; initialized := initialized r;
     ground_plane_mode := ground_plane_mode r;
     view_background_color := view_background_color r;
     user_callback := user_callback r; build_gui := build_gui r;
     structures := structures r; camera := camera r;
     frame_ticks := frame_ticks r; unshown := x |}.
Definition with_polyscope (x : bool) (r : Attrs) : Attrs :=
  {| polyscope := x; background_color := background_color r;
     block_execution := block_execution r; play_mode := play_mode r;
     toggle_frame := toggle_frame r; toggle_keypoints := toggle_keypoints r;
     toggle_map := toggle_map r; global_view := global_view r;
     trajectory := trajectory r; last_pose := last_pose r |}.
Definition with_background_color (x : list Q) (r : Attrs) : Attrs :=
  {| polyscope := polyscope r; background_color := x;
     block_execution := block_execution r; play_mode := play_mode r;
     toggle_frame := toggle_frame r; toggle_keypoints := toggle_keypoints r;
     toggle_map := toggle_map r; global_view := global_view r;
     trajectory := trajectory r; last_pose := last_pose r |}.
Definition with_block_execution (x : bool) (r : Attrs) : Attrs :=
  {| polyscope := polyscope r; background_color := background_color r;
     block_execution := x; play_mode := play_mode r;
     toggle_frame := toggle_frame r; toggle_keypoints := toggle_keypoints r;
     toggle_map := toggle_map r; global_view := global_view r;
     trajectory := trajectory r; last_pose := last_pose r |}.
Definition with_play_mode (x : bool) (r : Attrs) : Attrs :=
  {| polyscope := polyscope r; background_color := background_color r;
     block_execution := block_execution r; play_mode := x;
     toggle_frame := toggle_frame r; toggle_keypoints := toggle_keypoints r;
     toggle_map := toggle_map r; global_view := global_view r;
     trajectory := trajectory r; last_pose := last_pose r |}.
Definition with_toggle_frame (x : bool) (r : Attrs) : Attrs :=
  {| polyscope := polyscope r; background_color := background_color r;
     block_execution := block_execution r; play_mode := play_mode r;
     toggle_frame := x; toggle_keypoints := toggle_keypoints r;
     toggle_map := toggle_map r; global_view := global_view r;
     trajectory := trajectory r; last_pose := last_pose r |}.
Definition with_toggle_keypoints (x : bool) (r : Attrs) : Attrs :=
  {| polyscope := polyscope r; background_color := background_color r;
     block_execution := block_execution r; play_mode := play_mode r;
     toggle_frame := toggle_frame r; toggle_keypoints := x;
     toggle_map := toggle_map r; global_view := global_view r;
     trajectory := trajectory r; last_pose := last_pose r |}.
Definition with_toggle_map (x : bool) (r : Attrs) : Attrs :=
  {| polyscope := polyscope r; background_color := background_color r;
     block_execution := block_execution r; play_mode := play_mode r;
     toggle_frame := toggle_frame r; toggle_keypoints := toggle_keypoints r;
     toggle_map := x; global_view := global_view r;
     trajectory := trajectory r; last_pose := last_pose r |}.
Definition with_global_view (x : bool) (r : Attrs) : Attrs :=
  {| polyscope := polyscope r; background_color := background_color r;
     block_execution := block_execution r; play_mode := play_mode r;
     toggle_frame := toggle_frame r; toggle_keypoints := toggle_keypoints r;
     toggle_map := toggle_map r; global_view := x;
     trajectory := trajectory r; last_pose := last_pose r |}.
Definition with_trajectory (x : list (Vec3 scalar)) (r : Attrs) : Attrs :=
  {| polyscope := polyscope r; background_color := background_color r;
     block_execution := block_execution r; play_mode := play_mode r;
     toggle_frame := toggle_frame r; toggle_keypoints := toggle_keypoints r;
     toggle_map := toggle_map r; global_view := global_view r;
     trajectory := x; last_pose := last_pose r |}.
Definition with_last_pose (x : Mat4 scalar) (r : Attrs) : Attrs :=
  {| polyscope := polyscope r; background_color := background_color r;
     block_execution := block_execution r; play_mode := play_mode r;
     toggle_frame := toggle_frame r; toggle_keypoints := toggle_keypoints r;
     toggle_map := toggle_map r; global_view := global_view r;
     trajectory := trajectory r; last_pose := x |}.

Definition set_cls (f : Attrs -> Attrs) (w : World) : World :=
  {| site_polyscope := site_polyscope w; cls := f (cls w); stdout := stdout w;
     import_error := import_error w |}.
Definition set_site (f : Polyscope -> Polyscope) (w : World) : World :=
  {| site_polyscope := f <$> site_polyscope w; cls := cls w; stdout := stdout w;
     import_error := import_error w |}.
Definition print (line : string) : M World unit :=
  modify (fun w =>
    {| site_polyscope := site_polyscope w; cls := cls w;
       stdout := stdout w ++ [line]; import_error := import_error w |}).

(** *** Calls into polyscope

    Every call goes through the class attribute [Kissualizer.polyscope]; on
    [None] the attribute access raises. *)
Definition the_polyscope : M World Polyscope :=
  fun w =>
    if polyscope (cls w) then
      match site_polyscope w with
      | Some p => Ok p w
      | None => Raise (AttributeError "polyscope") w
      end
    else Raise (AttributeError "'NoneType' object has no attribute") w.

Definition call (f : Polyscope -> Polyscope) : M World unit :=
  (_ <~ the_polyscope ;; modify (set_site f))%proc.

Definition set_program_name (name : string) : M World unit :=
  call (with_program_name name).
Definition init : M World unit := call (with_initialized true).
Definition set_ground_plane_mode (mode : string) : M World unit :=
  call (with_ground_plane_mode mode).
Definition set_background_color (c : list Q) : M World unit :=
  call (with_view_background_color c).
Definition set_user_callback : M World unit := call (with_user_callback true).
Definition set_build_gui (b : bool) : M World unit := call (with_build_gui b).
Definition reset_camera_to_home_view : M World unit :=
  call (with_camera HomeView).
Definition look_at (camera_location target : Q * Q * Q) : M World unit :=
  call (with_camera (LookAt camera_location target)).
Definition unshow : M World unit := call (with_unshown true).
Definition tick_once (p : Polyscope) : Polyscope :=
  with_frame_ticks (S (frame_ticks p)) p.
Definition count_frame_tick : M World unit := call tick_once.

(** [register_point_cloud(name, points, color=..., point_render_mode=...)]:
    the structure of that name is created or replaced; the handle returned
    is the name. *)
Definition register_point_cloud (name : string) (pts : list (Vec3 scalar))
    (col : list Q) (mode : string) : M World string :=
  (call (fun p =>
     let old := structures p !! name in
     with_structures
       (<[name := {| points := pts; color := col; point_render_mode := mode;
                     radius := inherited_radius old;
                     transform := inherited_transform old;
                     enabled := inherited_enabled old |}]> (structures p)) p) ;;
   ret name)%proc.

(** [get_point_cloud(name)] raises when no such structure is registered. *)
Definition get_point_cloud (name : string) : M World string :=
  (p <~ the_polyscope ;;
   match structures p !! name with
   | Some _ => ret name
   | None => raise (ValueError name)
   end)%proc.

Definition on_cloud (handle : string) (f : PointCloud -> PointCloud)
  : M World unit :=
  (p <~ the_polyscope ;;
   match structures p !! handle with
   | Some c => modify (set_site (with_structures (<[handle := f c]> (structures p))))
   | None => raise (ValueError handle)
   end)%proc.

Definition set_radius (handle : string) (r : Q) : M World unit :=
  on_cloud handle (with_radius r).
Definition set_transform (handle : string) (t : Mat4 scalar) : M World unit :=
  on_cloud handle (with_transform t).
Definition set_enabled (handle : string) (b : bool) : M World unit :=
  on_cloud handle (with_enabled b).

(** *** The panel

    What the user does to the widgets while one frame is drawn. A button or
    a checkbox is clicked or not; the colour editor yields a new colour or
    nothing. *)
Record GuiInput := {
  click_start_pause : bool;
  click_next_frame : bool;
  click_center_viewpoint : bool;
  click_frame_cloud : bool;
  click_keypoints : bool;
  click_local_map : bool;
  edit_background_color : option (list Q);
  click_global_view : bool;
  click_quit : bool
}.

(** [imgui.Checkbox(label, value)]: [(changed, value')]. *)
Definition Checkbox (clicked value : bool) : bool * bool :=
  (clicked, if clicked then negb value else value).

(** [imgui.ColorEdit3(label, value)]: [(changed, value')]. *)
Definition ColorEdit3 (edited : option (list Q)) (value : list Q)
  : bool * list Q :=
  match edited with
  | Some c => (true, c)
  | None => (false, value)
  end.

(** *** Private interface *)

(** [_initialize_visualizer] (lines 138-142) *)
Definition _initialize_visualizer (self : Instance) : M World unit :=
  (set_ground_plane_mode "none" ;;
   set_background_color BACKGROUND_COLOR ;;
   set_user_callback ;;
   set_build_gui false)%proc.

(** [_gui_callback] (lines 151-222), run by polyscope once per frame: the
    blocks of the source, in order. *)

(** [# START/PAUSE] *)
Definition start_pause_button (i : GuiInput) : M World unit :=
  when (click_start_pause i)
    (modify (set_cls (fun a => with_play_mode (negb (play_mode a)) a))).

(** [# NEXT FRAME] *)
Definition next_frame_button (i : GuiInput) : M World unit :=
  (playing <~ gets (fun w => play_mode (cls w)) ;;
   when (negb playing)
     (when (click_next_frame i)
        (modify (set_cls (fun a =>
           with_block_execution (negb (block_execution a)) a)))))%proc.

(** [# CENTER VIEWPOINT] *)
Definition center_viewpoint_button (i : GuiInput) : M World unit :=
  when (click_center_viewpoint i) reset_camera_to_home_view.

(** [# TOGGLE BUTTONS] *)
Definition toggle_buttons (i : GuiInput) : M World unit :=
  (frame <~ gets (fun w => Checkbox (click_frame_cloud i) (toggle_frame (cls w))) ;;
   modify (set_cls (with_toggle_frame (snd frame))) ;;
   when (fst frame)
     (h <~ get_point_cloud "current_frame" ;; set_enabled h (snd frame)) ;;
   kps <~ gets (fun w => Checkbox (click_keypoints i) (toggle_keypoints (cls w))) ;;
   modify (set_cls (with_toggle_keypoints (snd kps))) ;;
   when (fst kps)
     (h <~ get_point_cloud "keypoints" ;; set_enabled h (snd kps)) ;;
   lmap <~ gets (fun w => Checkbox (click_local_map i) (toggle_map (cls w))) ;;
   modify (set_cls (with_toggle_map (snd lmap))) ;;
   when (fst lmap)
     (h <~ get_point_cloud "local_map" ;; set_enabled h (snd lmap)))%proc.

(** [# BACKGROUND COLOR] *)
Definition background_color_edit (i : GuiInput) : M World unit :=
  (bg <~ gets (fun w =>
           ColorEdit3 (edit_background_color i) (background_color (cls w))) ;;
   modify (set_cls (with_background_color (snd bg))) ;;
   when (fst bg) (set_background_color (snd bg)))%proc.

(** [# GLOBAL_VIEW] *)
Definition global_view_button (i : GuiInput) : M World unit :=
  when (click_global_view i)
    (modify (set_cls (fun a => with_global_view (negb (global_view a)) a)) ;;
     a <~ gets cls ;;
     t <~ get_point_cloud "trajectory" ;;
     set_enabled t (global_view a) ;;
     if global_view a then
       (f <~ get_point_cloud "current_frame" ;;
        set_transform f (last_pose a) ;;
        k <~ get_point_cloud "keypoints" ;;
        set_transform k (last_pose a) ;;
        m <~ get_point_cloud "local_map" ;;
        set_transform m eye4 ;;
        reset_camera_to_home_view)
     else
       (f <~ get_point_cloud "current_frame" ;;
        set_transform f eye4 ;;
        k <~ get_point_cloud "keypoints" ;;
        set_transform k eye4 ;;
        m <~ get_point_cloud "local_map" ;;
        set_transform m (linalg_inv (last_pose a)) ;;
        look_at (0.0, 0.0, 300.0)%Q (1.0, 1.0, 1.0)%Q))%proc.

(** [# QUIT] *)
Definition quit_button (i : GuiInput) : M World unit :=
  when (click_quit i)
    (print "Destroying Visualizer" ;;
     unshow ;;
     os_exit 0)%proc.

Definition _gui_callback (i : GuiInput) : M World unit :=
  (start_pause_button i ;;
   next_frame_button i ;;
   center_viewpoint_button i ;;
   toggle_buttons i ;;
   background_color_edit i ;;
   global_view_button i ;;
   quit_button i)%proc.

(** [polyscope.frame_tick()]: one pass of the event loop; it draws the panel,
    which runs the user callback on what the user did. *)
Definition frame_tick (i : GuiInput) : M World unit :=
  (count_frame_tick ;;
   p <~ the_polyscope ;;
   when (user_callback p) (_gui_callback i))%proc.

(** [_update_visualizer] (lines 144-149).  The loop takes one entry of the
    script per [frame_tick]. *)
Fixpoint poll_loop (script : list GuiInput) : M World (list GuiInput) :=
  (blocked <~ gets (fun w => block_execution (cls w)) ;;
   if blocked then
     match script with
     | [] => fun w => Waiting w
     | i :: rest =>
         frame_tick i ;;
         playing <~ gets (fun w => play_mode (cls w)) ;;
         if playing then ret rest else poll_loop rest
     end
   else ret script)%proc.

Definition _update_visualizer (self : Instance) (script : list GuiInput)
  : M World (list GuiInput) :=
  (rest <~ poll_loop script ;;
   modify (set_cls (fun a => with_block_execution (negb (block_execution a)) a)) ;;
   ret rest)%proc.

(** *** Public interface *)

(** [__init__] (lines 68-78).  Only [ModuleNotFoundError] is caught: any
    other exception of the import leaves the constructor as it is. *)
Definition __init__ (self : Instance) : M World unit :=
  (found <~ gets site_polyscope ;;
   match found with
   | Some _ => modify (set_cls (with_polyscope true))
   | None =>
       err <~ gets import_error ;;
       match err with
       | ModuleNotFoundError _ =>
           print (install_hint "polyscope") ;;
           builtin_exit 1
       | _ => raise err
       end
   end ;;
   set_program_name "KissICP Visualizer" ;;
   init ;;
   _initialize_visualizer self)%proc.

(** Lines 81-132 of [update]: the scene of this frame. *)
Definition update_scene (source keypoints : list (Vec3 scalar))
    (target_map : LocalMap) (pose : Mat4 scalar) : M World unit :=
  (frame_cloud <~ register_point_cloud "current_frame" source FRAME_COLOR "quad" ;;
   set_radius frame_cloud 0.2 ;;
   a <~ gets cls ;;
   (if global_view a then set_transform frame_cloud pose
    else set_transform frame_cloud eye4) ;;
   set_enabled frame_cloud (toggle_frame a) ;;
   keypoints_cloud <~
     register_point_cloud "keypoints" keypoints KEYPOINTS_COLOR "quad" ;;
   set_radius keypoints_cloud 0.3 ;;
   (if global_view a then set_transform keypoints_cloud pose
    else set_transform keypoints_cloud eye4) ;;
   set_enabled keypoints_cloud (toggle_keypoints a) ;;
   map_cloud <~
     register_point_cloud "local_map" (point_cloud target_map)
       LOCAL_MAP_COLOR "quad" ;;
   set_radius map_cloud 0.1 ;;
   (if global_view a then set_transform map_cloud eye4
    else set_transform map_cloud (linalg_inv pose)) ;;
   set_enabled map_cloud (toggle_map a) ;;

   modify (set_cls (fun a => with_trajectory (trajectory a ++ [translation pose]) a)) ;;
   traj <~ gets (fun w => trajectory (cls w)) ;;
   trajectory_cloud <~
     (if global_view a then
        register_point_cloud "trajectory" traj TRAJECTORY_COLOR "sphere"
      else
        register_point_cloud "trajectory" origin_cloud TRAJECTORY_COLOR "sphere") ;;
   set_radius trajectory_cloud 0.5 ;;

   modify (set_cls (with_last_pose pose)))%proc.

(** [update] (lines 80-135) *)
Definition update (self : Instance) (source keypoints : list (Vec3 scalar))
    (target_map : LocalMap) (pose : Mat4 scalar) (script : list GuiInput)
  : M World (list GuiInput) :=
  (update_scene source keypoints target_map pose ;;
   (* Visualization loop *)
   _update_visualizer self script)%proc.

#[export] Instance viewer : Viewer Instance World GuiInput :=
  {| viewer_update := update |}.

(** The pipeline running on this viewer. *)
Definition run (self : Instance) (frames : list Frame)
    (script : list GuiInput) : M World (list GuiInput) :=
  session self frames script.

(** *** Observations *)

(** The viewer was constructed: the class attribute refers to the imported
    module and the panel callback is installed. *)
Definition ready (w : World) : bool :=
  polyscope (cls w) &&
  match site_polyscope w with
  | Some p => user_callback p
  | None => false
  end.

(** The structure registered under a name, if any. *)
Definition cloud (name : string) (w : World) : option PointCloud :=
  match site_polyscope w with
  | Some p => structures p !! name
  | None => None
  end.

(** The transform and the visibility given to a structure. *)
Definition transform_of (name : string) (w : World) : option (Mat4 scalar) :=
  transform <$> cloud name w.
Definition enabled_of (name : string) (w : World) : option bool :=
  enabled <$> cloud name w.

Definition registered (name : string) (w : World) : bool :=
  match cloud name w with
  | Some _ => true
  | None => false
  end.

(** The four structures of a frame are registered, as after any [update]. *)
Definition scene_ready (w : World) : bool :=
  ready w && registered "current_frame" w && registered "keypoints" w &&
  registered "local_map" w && registered "trajectory" w.

(** The world in which the structure [handle] has become [c]. *)
Definition put_cloud (handle : string) (c : PointCloud) (w : World) : World :=
  set_site (fun p => with_structures (<[handle := c]> (structures p)) p) w.

(** Number of polls of the event loop so far. *)
Definition ticks (w : World) : nat :=
  match site_polyscope w with
  | Some p => frame_ticks p
  | None => 0
  end.

(** [unshow] was called. *)
Definition torn_down (w : World) : bool :=
  match site_polyscope w with
  | Some p => unshown p
  | None => false
  end.

(** Between two calls of [update] the blocking flag is set unless the
    viewer free-runs. *)
Definition armed (w : World) : bool :=
  block_execution (cls w) || play_mode (cls w).

(** The user does nothing during a frame. *)
Definition idle : GuiInput :=
  {| click_start_pause := false; click_next_frame := false;
     click_center_viewpoint := false; click_frame_cloud := false;
     click_keypoints := false; click_local_map := false;
     edit_background_color := None; click_global_view := false;
     click_quit := false |}.

(** A Play or a Step signal: START/PAUSE or NEXT FRAME is clicked. *)
Definition advance (i : GuiInput) : bool :=
  click_start_pause i || click_next_frame i.

(** The user neither advances nor quits during a frame. *)
Definition quiet (i : GuiInput) : bool :=
  negb (advance i) && negb (click_quit i).

(** The scene is laid out for the view mode [g] (global when [true]) with
    the pose [l]: visibility of the trajectory, transforms of the frame
    cloud, the keypoints and the map. *)
Definition view_is (g : bool) (l : Mat4 scalar) (w : World) : Prop :=
  global_view (cls w) = g /\
  enabled_of "trajectory" w = Some g /\
  transform_of "current_frame" w = Some (if g then l else eye4) /\
  transform_of "keypoints" w = Some (if g then l else eye4) /\
  transform_of "local_map" w = Some (if g then eye4 else linalg_inv l).

(** Attribute lookup on an instance: an instance has no attribute of its
    own, so [v.trajectory] and [v.last_pose] are the class attributes. *)
Definition trajectory_seen_by (v : Instance) (w : World) : list (Vec3 scalar) :=
  trajectory (cls w).
Definition last_pose_seen_by (v : Instance) (w : World) : Mat4 scalar :=
  last_pose (cls w).

End Model.
End Kissualizer.

(** ** RegistrationVisualizer: the open3d backend *)

Module RegistrationVisualizer.
Section Model.
Context `{NumPy}.

(** *** open3d, as far as the class drives it *)

(** A point cloud: its points and the colour last painted on it. *)
Record PointCloud := {
  points : list (Vec3 scalar);
  uniform_color : option (list Q)
}.

Record TriangleMesh := {
  vertices : list (Vec3 scalar);
  mesh_color : option (list Q);
  vertex_normals : bool
}.

(** [geometry.transform(T)] on the points of a geometry, and the vertices of
    [TriangleMesh.create_sphere(radius)]: open3d's own computations. *)
Class Open3D := {
  transform_points : Mat4 scalar -> list (Vec3 scalar) -> list (Vec3 scalar);
  sphere_vertices : Q -> list (Vec3 scalar)
}.
Context `{Open3D}.

(** [o3d.geometry.PointCloud()] *)
Definition new_PointCloud : PointCloud :=
  {| points := []; uniform_color := None |}.

(** [pc.points = o3d.utility.Vector3dVector(pts)] *)
Definition set_points (pts : list (Vec3 scalar)) (pc : PointCloud) : PointCloud :=
  {| points := pts; uniform_color := uniform_color pc |}.
Definition paint_uniform_color (c : list Q) (pc : PointCloud) : PointCloud :=
  {| points := points pc; uniform_color := Some c |}.
Definition transform (t : Mat4 scalar) (pc : PointCloud) : PointCloud :=
  {| points := transform_points t (points pc);
     uniform_color := uniform_color pc |}.

Definition create_sphere (r : Q) : TriangleMesh :=
  {| vertices := sphere_vertices r; mesh_color := None;
     vertex_normals := false |}.
Definition mesh_paint_uniform_color (c : list Q) (m : TriangleMesh)
  : TriangleMesh :=
  {| vertices := vertices m; mesh_color := Some c;
     vertex_normals := vertex_normals m |}.
Definition compute_vertex_normals (m : TriangleMesh) : TriangleMesh :=
  {| vertices := vertices m; mesh_color := mesh_color m;
     vertex_normals := true |}.
Definition mesh_transform (t : Mat4 scalar) (m : TriangleMesh) : TriangleMesh :=
  {| vertices := transform_points t (vertices m); mesh_color := mesh_color m;
     vertex_normals := vertex_normals m |}.

(** The methods registered as key callbacks. *)
Inductive Callback : Type :=
| quit_cb
| start_stop_cb
| next_frame_cb
| toggle_view_cb
| center_viewpoint_cb
| toggle_source_cb
| toggle_keypoints_cb
| toggle_map_cb
| toggle_trajectory_cb
| set_black_background_cb
| set_white_background_cb.

Inductive Window : Type :=
| NoWindow
| Opened (window_name : string) (width height : Z)
| Destroyed.

(** [VisualizerWithKeyCallback]: the window, the key dispatch table, what it
    draws, and counters of the calls that leave no other trace.  The three
    point clouds are drawn as they were at the last [add_geometry] or
    [update_geometry]; a frame marker is known by its index in
    [self.frames], and [markers] lists the markers in the scene. *)
Record Visualizer := {
  window : Window;
  key_callbacks : gmap Z Callback;
  drawn_source : option PointCloud;
  drawn_keypoints : option PointCloud;
  drawn_target : option PointCloud;
  markers : list nat;
  background_color : option (list Q);
  point_size : option Z;
  view_resets : nat;
  polls : nat;
  renders : nat
}.

Definition new_Visualizer : Visualizer :=
  {| window := NoWindow; key_callbacks := ∅; drawn_source := None;
     drawn_keypoints := None; drawn_target := None; markers := [];
     background_color := None; point_size := None; view_resets := 0;
     polls := 0; renders := 0 |}.

(** *** The instance attributes (lines 234-261) *)
Record Self := {
  block_vis : bool;
  play_crun : bool;
  reset_bounding_box : bool;
  source : PointCloud;
  keypoints : PointCloud;
  target : PointCloud;
  frames : list TriangleMesh;
  vis : Visualizer;
  render_map : bool;
  render_source : bool;
  render_keypoints : bool;
  global_view : bool;
  render_trajectory : bool;
  state : bool * bool * bool
}.

(** The process around one viewer: its attributes and what was printed. *)
Record World := {
  this : Self;
  stdout : list string
}.

(** *** Field updates *)

Definition vis_with_window (x : Window) (r : Visualizer) : Visualizer :=
  {| window := x; key_callbacks := key_callbacks r;
     drawn_source := drawn_source r; drawn_keypoints := drawn_keypoints r;
     drawn_target := drawn_target r; markers := markers r;
     background_color := background_color r; point_size := point_size r;
     view_resets := view_resets r; polls := polls r; renders := renders r |}.
Definition vis_with_key_callbacks (x : gmap Z Callback) (r : Visualizer) : Visualizer :=
  {| window := window r; key_callbacks := x; drawn_source := drawn_source r;
     drawn_keypoints := drawn_keypoints r; drawn_target := drawn_target r;
     markers := markers r; background_color := background_color r;
     point_size := point_size r; view_resets := view_resets r;
     polls := polls r; renders := renders r |}.
Definition vis_with_drawn_source (x : option PointCloud) (r : Visualizer) : Visualizer :=
  {| window := window r; key_callbacks := key_callbacks r; drawn_source := x;
     drawn_keypoints := drawn_keypoints r; drawn_target := drawn_target r;
     markers := markers r; background_color := background_color r;
     point_size := point_size r; view_resets := view_resets r;
     polls := polls r; renders := renders r |}.
Definition vis_with_drawn_keypoints (x : option PointCloud) (r : Visualizer) : Visualizer :=
  {| window := window r; key_callbacks := key_callbacks r;
     drawn_source := drawn_source r; drawn_keypoints := x;
     drawn_target := drawn_target r; markers := markers r;
     background_color := background_color r; point_size := point_size r;
     view_resets := view_resets r; polls := polls r; renders := renders r |}.
Definition vis_with_drawn_target (x : option PointCloud) (r : Visualizer) : Visualizer :=
  {| window := window r; key_callbacks := key_callbacks r;
     drawn_source := drawn_source r; drawn_keypoints := drawn_keypoints r;
     drawn_target := x; markers := markers r;
     background_color := background_color r; point_size := point_size r;
     view_resets := view_resets r; polls := polls r; renders := renders r |}.
Definition vis_with_markers (x : list nat) (r : Visualizer) : Visualizer :=
  {| window := window r; key_callbacks := key_callbacks r;
     drawn_source := drawn_source r; drawn_keypoints := drawn_keypoints r;
     drawn_target := drawn_target r; markers := x;
     background_color := background_color r; point_size := point_size r;
     view_resets := view_resets r; polls := polls r; renders := renders r |}.
Definition vis_with_background_color (x : option (list Q)) (r : Visualizer) : Visualizer :=
  {| window := window r; key_callbacks := key_callbacks r;
     drawn_source := drawn_source r; drawn_keypoints := drawn_keypoints r;
     drawn_target := drawn_target r; markers := markers r;
     background_color := x; point_size := point_size r;
     view_resets := view_resets r; polls := polls r; renders := renders r |}.
Definition vis_with_point_size (x : option Z) (r : Visualizer) : Visualizer :=
  {| window := window r; key_callbacks := key_callbacks r;
     drawn_source := drawn_source r; drawn_keypoints := drawn_keypoints r;
     drawn_target := drawn_target r; markers := markers r;
     background_color := background_color r; point_size := x;
     view_resets := view_resets r; polls := polls r; renders := renders r |}.
Definition vis_with_view_resets (x : nat) (r : Visualizer) : Visualizer :=
  {| window := window r; key_callbacks := key_callbacks r;
     drawn_source := drawn_source r; drawn_keypoints := drawn_keypoints r;
     drawn_target := drawn_target r; markers := markers r;
     background_color := background_color r; point_size := point_size r;
     view_resets := x; polls := polls r; renders := renders r |}.
Definition vis_with_polls (x : nat) (r : Visualizer) : Visualizer :=
  {| window := window r; key_callbacks := key_callbacks r;
     drawn_source := drawn_source r; drawn_keypoints := drawn_keypoints r;
     drawn_target := drawn_target r; markers := markers r;
     background_color := background_color r; point_size := point_size r;
     view_resets := view_resets r; polls := x; renders := renders r |}.
Definition vis_with_renders (x : nat) (r : Visualizer) : Visualizer :=
  {| window := window r; key_callbacks := key_callbacks r;
     drawn_source := drawn_source r; drawn_keypoints := drawn_keypoints r;
     drawn_target := drawn_target r; markers := markers r;
     background_color := background_color r; point_size := point_size r;
     view_resets := view_resets r; polls := polls r; renders := x |}.
Definition with_block_vis (x : bool) (r : Self) : Self :=
  {| block_vis := x; play_crun := play_crun r;
     reset_bounding_box := reset_bounding_box r; source := source r;
     keypoints := keypoints r; target := target r; frames := frames r;
     vis := vis r; render_map := render_map r;
     render_source := render_source r;
     render_keypoints := render_keypoints r; global_view := global_view r;
     render_trajectory := render_trajectory r; state := state r |}.
Definition with_play_crun (x : bool) (r : Self) : Self :=
  {| block_vis := block_vis r; play_crun := x;
     reset_bounding_box := reset_bounding_box r; source := source r;
     keypoints := keypoints r; target := target r; frames := frames r;
     vis := vis r; render_map := render_map r;
     render_source := render_source r;
     render_keypoints := render_keypoints r; global_view := global_view r;
     render_trajectory := render_trajectory r; state := state r |}.
Definition with_reset_bounding_box (x : bool) (r : Self) : Self :=
  {| block_vis := block_vis r; play_crun := play_crun r;
     reset_bounding_box := x; source := source r; keypoints := keypoints r;
     target := target r; frames := frames r; vis := vis r;
     render_map := render_map r; render_source := render_source r;
     render_keypoints := render_keypoints r; global_view := global_view r;
     render_trajectory := render_trajectory r; state := state r |}.
Definition with_source (x : PointCloud) (r : Self) : Self :=
  {| block_vis := block_vis r; play_crun := play_crun r;
     reset_bounding_box := reset_bounding_box r; source := x;
     keypoints := keypoints r; target := target r; frames := frames r;
     vis := vis r; render_map := render_map r;
     render_source := render_source r;
     render_keypoints := render_keypoints r; global_view := global_view r;
     render_trajectory := render_trajectory r; state := state r |}.
Definition with_keypoints (x : PointCloud) (r : Self) : Self :=
  {| block_vis := block_vis r; play_crun := play_crun r;
     reset_bounding_box := reset_bounding_box r; source := source r;
     keypoints := x; target := target r; frames := frames r; vis := vis r;
     render_map := render_map r; render_source := render_source r;
     render_keypoints := render_keypoints r; global_view := global_view r;
     render_trajectory := render_trajectory r; state := state r |}.
Definition with_target (x : PointCloud) (r : Self) : Self :=
  {| block_vis := block_vis r; play_crun := play_crun r;
     reset_bounding_box := reset_bounding_box r; source := source r;
     keypoints := keypoints r; target := x; frames := frames r; vis := vis r;
     render_map := render_map r; render_source := render_source r;
     render_keypoints := render_keypoints r; global_view := global_view r;
     render_trajectory := render_trajectory r; state := state r |}.
Definition with_frames (x : list TriangleMesh) (r : Self) : Self :=
  {| block_vis := block_vis r; play_crun := play_crun r;
     reset_bounding_box := reset_bounding_box r; source := source r;
     keypoints := keypoints r; target := target r; frames := x; vis := vis r;
     render_map := render_map r; render_source := render_source r;
     render_keypoints := render_keypoints r; global_view := global_view r;
     render_trajectory := render_trajectory r; state := state r |}.
Definition with_vis (x : Visualizer) (r : Self) : Self :=
  {| block_vis := block_vis r; play_crun := play_crun r;
     reset_bounding_box := reset_bounding_box r; source := source r;
     keypoints := keypoints r; target := target r; frames := frames r;
     vis := x; render_map := render_map r; render_source := render_source r;
     render_keypoints := render_keypoints r; global_view := global_view r;
     render_trajectory := render_trajectory r; state := state r |}.
Definition with_render_map (x : bool) (r : Self) : Self :=
  {| block_vis := block_vis r; play_crun := play_crun r;
     reset_bounding_box := reset_bounding_box r; source := source r;
     keypoints := keypoints r; target := target r; frames := frames r;
     vis := vis r; render_map := x; render_source := render_source r;
     render_keypoints := render_keypoints r; global_view := global_view r;
     render_trajectory := render_trajectory r; state := state r |}.
Definition with_render_source (x : bool) (r : Self) : Self :=
  {| block_vis := block_vis r; play_crun := play_crun r;
     reset_bounding_box := reset_bounding_box r; source := source r;
     keypoints := keypoints r; target := target r; frames := frames r;
     vis := vis r; render_map := render_map r; render_source := x;
     render_keypoints := render_keypoints r; global_view := global_view r;
     render_trajectory := render_trajectory r; state := state r |}.
Definition with_render_keypoints (x : bool) (r : Self) : Self :=
  {| block_vis := block_vis r; play_crun := play_crun r;
     reset_bounding_box := reset_bounding_box r; source := source r;
     keypoints := keypoints r; target := target r; frames := frames r;
     vis := vis r; render_map := render_map r;
     render_source := render_source r; render_keypoints := x;
     global_view := global_view r; render_trajectory := render_trajectory r;
     state := state r |}.
Definition with_global_view (x : bool) (r : Self) : Self :=
  {| block_vis := block_vis r; play_crun := play_crun r;
     reset_bounding_box := reset_bounding_box r; source := source r;
     keypoints := keypoints r; target := target r; frames := frames r;
     vis := vis r; render_map := render_map r;
     render_source := render_source r;
     render_keypoints := render_keypoints r; global_view := x;
     render_trajectory := render_trajectory r; state := state r |}.
Definition with_render_trajectory (x : bool) (r : Self) : Self :=
  {| block_vis := block_vis r; play_crun := play_crun r;
     reset_bounding_box := reset_bounding_box r; source := source r;
     keypoints := keypoints r; target := target r; frames := frames r;
     vis := vis r; render_map := render_map r;
     render_source := render_source r;
     render_keypoints := render_keypoints r; global_view := global_view r;
     render_trajectory := x; state := state r |}.
Definition with_state (x : bool * bool * bool) (r : Self) : Self :=
  {| block_vis := block_vis r; play_crun := play_crun r;
     reset_bounding_box := reset_bounding_box r; source := source r;
     keypoints := keypoints r; target := target r; frames := frames r;
     vis := vis r; render_map := render_map r;
     render_source := render_source r;
     render_keypoints := render_keypoints r; global_view := global_view r;
     render_trajectory := render_trajectory r; state := x |}.

Definition set_this (f : Self -> Self) (w : World) : World :=
  {| this := f (this w); stdout := stdout w |}.
Definition set_vis (f : Visualizer -> Visualizer) (w : World) : World :=
  set_this (fun s => with_vis (f (vis s)) s) w.
Definition print (line : string) : M World unit :=
  modify (fun w => {| this := this w; stdout := stdout w ++ [line] |}).

(** *** Calls on [self.vis] *)

Definition create_window (name : string) (width height : Z) : M World unit :=
  modify (set_vis (vis_with_window (Opened name width height))).
Definition destroy_window : M World unit :=
  modify (set_vis (vis_with_window Destroyed)).
Definition register_key_callback (key : Z) (cb : Callback) : M World unit :=
  modify (set_vis (fun v => vis_with_key_callbacks (<[key := cb]> (key_callbacks v)) v)).
Definition reset_view_point : M World unit :=
  modify (set_vis (fun v => vis_with_view_resets (S (view_resets v)) v)).
Definition update_renderer : M World unit :=
  modify (set_vis (fun v => vis_with_renders (S (renders v)) v)).

(** [add_geometry] / [update_geometry] on the three point clouds: the
    visualizer draws the geometry as it is now; [update_geometry] does
    nothing for a geometry that was never added. *)
Definition add_source : M World unit :=
  modify (set_this (fun s => with_vis (vis_with_drawn_source (Some (source s)) (vis s)) s)).
Definition add_keypoints : M World unit :=
  modify (set_this (fun s => with_vis (vis_with_drawn_keypoints (Some (keypoints s)) (vis s)) s)).
Definition add_target : M World unit :=
  modify (set_this (fun s => with_vis (vis_with_drawn_target (Some (target s)) (vis s)) s)).
Definition update_source : M World unit :=
  modify (set_this (fun s =>
    with_vis (vis_with_drawn_source ((fun _ => source s) <$> drawn_source (vis s)) (vis s)) s)).
Definition update_keypoints : M World unit :=
  modify (set_this (fun s =>
    with_vis (vis_with_drawn_keypoints ((fun _ => keypoints s) <$> drawn_keypoints (vis s)) (vis s)) s)).
Definition update_target : M World unit :=
  modify (set_this (fun s =>
    with_vis (vis_with_drawn_target ((fun _ => target s) <$> drawn_target (vis s)) (vis s)) s)).

(** [add_geometry(frame)] / [remove_geometry(frame)] for the marker
    [self.frames[i]]: adding draws it once more, removing takes one drawing
    of it away. *)
Fixpoint remove_one (i : nat) (l : list nat) : list nat :=
  match l with
  | [] => []
  | j :: l' => if Nat.eqb i j then l' else j :: remove_one i l'
  end.
Definition add_marker (i : nat) : M World unit :=
  modify (set_vis (fun v => vis_with_markers (markers v ++ [i]) v)).
Definition remove_marker (i : nat) : M World unit :=
  modify (set_vis (fun v => vis_with_markers (remove_one i (markers v)) v)).

(** [for x in xs: body(x)] *)
Fixpoint for_each {A} (xs : list A) (body : A -> M World unit) : M World unit :=
  match xs with
  | [] => ret tt
  | x :: xs' => (body x ;; for_each xs' body)%proc
  end.

(** *** Private interface *)

(** [_set_black_background], [_set_white_background] (lines 314-318) *)
Definition _set_black_background : M World unit :=
  modify (set_vis (vis_with_background_color (Some [0.0; 0.0; 0.0]%Q))).
Definition _set_white_background : M World unit :=
  modify (set_vis (vis_with_background_color (Some [1.0; 1.0; 1.0]%Q))).

(** [_quit] (lines 320-323) *)
Definition _quit : M World unit :=
  (print "Destroying Visualizer" ;;
   destroy_window ;;
   os_exit 0)%proc.

(** [_next_frame], [_start_stop] (lines 325-329) *)
Definition _next_frame : M World unit :=
  modify (set_this (fun s => with_block_vis (negb (block_vis s)) s)).
Definition _start_stop : M World unit :=
  modify (set_this (fun s => with_play_crun (negb (play_crun s)) s)).

(** [_toggle_source] (lines 331-337) *)
Definition _toggle_source : M World unit :=
  modify (set_this (fun s =>
    if render_keypoints s then
      with_render_source true (with_render_keypoints false s)
    else with_render_source (negb (render_source s)) s)).

(** [_toggle_keypoints] (lines 339-346) *)
Definition _toggle_keypoints : M World unit :=
  modify (set_this (fun s =>
    if render_source s then
      with_render_keypoints true (with_render_source false s)
    else with_render_keypoints (negb (render_keypoints s)) s)).

(** [_toggle_map] (lines 348-350) *)
Definition _toggle_map : M World unit :=
  modify (set_this (fun s => with_render_map (negb (render_map s)) s)).

(** [_trajectory_handle] (lines 366-372) *)
Definition _trajectory_handle : M World unit :=
  (s <~ gets this ;;
   if render_trajectory s && global_view s then
     for_each (seq 0 (length (frames s))) add_marker
   else
     for_each (seq 0 (length (frames s))) remove_marker)%proc.

(** [_toggle_view] (lines 352-354) *)
Definition _toggle_view : M World unit :=
  (modify (set_this (fun s => with_global_view (negb (global_view s)) s)) ;;
   _trajectory_handle)%proc.

(** [_center_viewpoint] (lines 356-357) *)
Definition _center_viewpoint : M World unit := reset_view_point.

(** [_toggle_trajectory] (lines 359-364) *)
Definition _toggle_trajectory : M World unit :=
  (s <~ gets this ;;
   if negb (global_view s) then ret tt
   else
     (modify (set_this (fun s => with_render_trajectory (negb (render_trajectory s)) s)) ;;
      _trajectory_handle))%proc.

(** [_register_key_callback] (lines 297-299); a key is its code,
    [ord(str(key))]. *)
Definition _register_key_callback (keys : list Z) (callback : Callback)
  : M World unit :=
  for_each keys (fun key => register_key_callback key callback).

(** [_register_key_callbacks] (lines 301-312): the codes of
    ["Ā"], ["Q"], ["\x1b"], [" "], ["N"], ["V"], ["C"], ["F"], ["K"],
    ["M"], ["T"], ["B"], ["W"]. *)
Definition _register_key_callbacks : M World unit :=
  (_register_key_callback [256; 81; 27]%Z quit_cb ;;
   _register_key_callback [32]%Z start_stop_cb ;;
   _register_key_callback [78]%Z next_frame_cb ;;
   _register_key_callback [86]%Z toggle_view_cb ;;
   _register_key_callback [67]%Z center_viewpoint_cb ;;
   _register_key_callback [70]%Z toggle_source_cb ;;
   _register_key_callback [75]%Z toggle_keypoints_cb ;;
   _register_key_callback [77]%Z toggle_map_cb ;;
   _register_key_callback [84]%Z toggle_trajectory_cb ;;
   _register_key_callback [66]%Z set_black_background_cb ;;
   _register_key_callback [87]%Z set_white_background_cb)%proc.

(** Running a registered callback. *)
Definition run_callback (cb : Callback) : M World unit :=
  match cb with
  | quit_cb => _quit
  | start_stop_cb => _start_stop
  | next_frame_cb => _next_frame
  | toggle_view_cb => _toggle_view
  | center_viewpoint_cb => _center_viewpoint
  | toggle_source_cb => _toggle_source
  | toggle_keypoints_cb => _toggle_keypoints
  | toggle_map_cb => _toggle_map
  | toggle_trajectory_cb => _toggle_trajectory
  | set_black_background_cb => _set_black_background
  | set_white_background_cb => _set_white_background
  end.

(** [vis.poll_events()]: the keys pressed since the last poll are dispatched
    in order. *)
Definition press (key : Z) : M World unit :=
  (table <~ gets (fun w => key_callbacks (vis (this w))) ;;
   match table !! key with
   | Some cb => run_callback cb
   | None => ret tt
   end)%proc.
Definition poll_events (keys : list Z) : M World unit :=
  (modify (set_vis (fun v => vis_with_polls (S (polls v)) v)) ;;
   for_each keys press)%proc.

(** [_initialize_visualizer] (lines 274-295); the help text is the argument
    of one [print]. *)
Definition _initialize_visualizer : M World unit :=
  (let w_name := "RegistrationVisualizer" in
   create_window w_name 1920 1080 ;;
   add_source ;;
   add_keypoints ;;
   add_target ;;
   _set_black_background ;;
   modify (set_vis (vis_with_point_size (Some 1%Z))) ;;
   print
     (w_name +:+ " initialized. Press:" +:+ newline +:+
      tab +:+ "[SPACE] to pause/start" +:+ newline +:+
      tab +:+ "  [ESC] to exit" +:+ newline +:+
      tab +:+ "    [N] to step" +:+ newline +:+
      tab +:+ "    [F] to toggle on/off the input cloud to the pipeline" +:+ newline +:+
      tab +:+ "    [K] to toggle on/off the subsbampled frame" +:+ newline +:+
      tab +:+ "    [M] to toggle on/off the local map" +:+ newline +:+
      tab +:+ "    [V] to toggle ego/global viewpoint" +:+ newline +:+
      tab +:+ "    [T] to toggle the trajectory view(only available in global view)" +:+ newline +:+
      tab +:+ "    [C] to center the viewpoint" +:+ newline +:+
      tab +:+ "    [W] to toggle a white background" +:+ newline +:+
      tab +:+ "    [B] to toggle a black background" +:+ newline))%proc.

(** [_update_geometries] (lines 374-419) *)
Definition _update_geometries (source_points keypoint_points target_points
    : list (Vec3 scalar)) (pose : Mat4 scalar) : M World unit :=
  (s <~ gets this ;;
   (* Source hot frame *)
   (if render_source s then
      modify (set_this (fun s =>
        with_source (paint_uniform_color CYAN (set_points source_points (source s))) s)) ;;
      when (global_view s)
        (modify (set_this (fun s => with_source (transform pose (source s)) s)))
    else
      modify (set_this (fun s => with_source (set_points [] (source s)) s))) ;;
   (* Keypoints *)
   (if render_keypoints s then
      modify (set_this (fun s =>
        with_keypoints
          (paint_uniform_color CYAN (set_points keypoint_points (keypoints s))) s)) ;;
      when (global_view s)
        (modify (set_this (fun s => with_keypoints (transform pose (keypoints s)) s)))
    else
      modify (set_this (fun s => with_keypoints (set_points [] (keypoints s)) s))) ;;
   (* Target Map *)
   (if render_map s then
      modify (set_this (fun s => with_target (set_points target_points (target s)) s)) ;;
      if global_view s then
        modify (set_this (fun s => with_target (paint_uniform_color GRAY (target s)) s))
      else
        modify (set_this (fun s =>
          with_target (transform (linalg_inv pose) (target s)) s))
    else
      modify (set_this (fun s => with_target (set_points [] (target s)) s))) ;;
   (* Update always a list with all the trajectories *)
   (let new_frame :=
      mesh_transform pose
        (compute_vertex_normals
           (mesh_paint_uniform_color BLUE (create_sphere SPHERE_SIZE))) in
    modify (set_this (fun s => with_frames (frames s ++ [new_frame]) s))) ;;
   (* Render trajectory, only if it make sense (global view) *)
   when (render_trajectory s && global_view s)
     (n <~ gets (fun w => length (frames (this w))) ;; add_marker (n - 1)) ;;
   update_keypoints ;;
   update_source ;;
   update_target ;;
   when (reset_bounding_box s)
     (reset_view_point ;;
      modify (set_this (with_reset_bounding_box false))))%proc.

(** *** Public interface *)

(** The attributes assigned by [__init__] (lines 234-261), with a new
    visualizer and empty geometries. *)
Definition new_self : Self :=
  {| block_vis := true; play_crun := false; reset_bounding_box := true;
     source := new_PointCloud; keypoints := new_PointCloud;
     target := new_PointCloud; frames := [];
     vis := new_Visualizer;
     render_map := true; render_source := true;
     render_keypoints := false; global_view := false;
     render_trajectory := true;
     state := (true, false, true) |}.

(** [__init__] (lines 227-261).  [site_open3d] is what
    [importlib.import_module("open3d")] does in this process; only
    [ModuleNotFoundError] is caught, any other exception of the import
    leaves the constructor as it is.  The key callbacks and the window are
    set up on the new attributes (neither reads the visualization options,
    which the source assigns last). *)
Definition __init__ (site_open3d : Import) : M (list string) World :=
  fun out =>
    match site_open3d with
    | imported =>
        match (_register_key_callbacks ;; _initialize_visualizer)%proc
                {| this := new_self; stdout := out |} with
        | Ok _ w => Ok w (stdout w)
        | Exit code w => Exit code (stdout w)
        | Raise e w => Raise e (stdout w)
        | Waiting w => Waiting (stdout w)
        end
    | import_raises (ModuleNotFoundError _) =>
        Exit 1 (out ++ [install_hint "open3d"])
    | import_raises e => Raise e out
    end.

(** The polling loop of [update] (lines 266-270); one entry of the script,
    the keys pressed, per [poll_events]. *)
Fixpoint poll_loop (script : list (list Z)) : M World (list (list Z)) :=
  (blocked <~ gets (fun w => block_vis (this w)) ;;
   if blocked then
     match script with
     | [] => fun w => Waiting w
     | keys :: rest =>
         poll_events keys ;;
         update_renderer ;;
         playing <~ gets (fun w => play_crun (this w)) ;;
         if playing then ret rest else poll_loop rest
     end
   else ret script)%proc.

(** [update] (lines 263-271) *)
Definition update (self : unit) (source_points keypoint_points
    : list (Vec3 scalar)) (target_map : LocalMap) (pose : Mat4 scalar)
    (script : list (list Z)) : M World (list (list Z)) :=
  (let target_points := point_cloud target_map in
   _update_geometries source_points keypoint_points target_points pose ;;
   rest <~ poll_loop script ;;
   modify (set_this (fun s => with_block_vis (negb (block_vis s)) s)) ;;
   ret rest)%proc.

#[export] Instance viewer : Viewer unit World (list Z) :=
  {| viewer_update := update |}.

(** The pipeline running on this viewer. *)
Definition run (self : unit) (frames : list Frame) (script : list (list Z))
  : M World (list (list Z)) :=
  session self frames script.

(** *** Observations *)

(** The callback a key is bound to. *)
Definition bound_to (key : Z) (w : World) : option Callback :=
  key_callbacks (vis (this w)) !! key.

(** A key that has a Play or a Step callback. *)
Definition advance (w : World) (key : Z) : bool :=
  match bound_to key w with
  | Some start_stop_cb | Some next_frame_cb => true
  | _ => false
  end.

Definition quits (w : World) (key : Z) : bool :=
  match bound_to key w with
  | Some quit_cb => true
  | _ => false
  end.

Definition pauses (w : World) (key : Z) : bool :=
  match bound_to key w with
  | Some start_stop_cb => true
  | _ => false
  end.

(** The frame markers are in the scene, each once and in order. *)
Definition all_markers (w : World) : list nat :=
  seq 0 (length (frames (this w))).

(** The markers in the scene are all of them when the trajectory is to be
    rendered and the view is global, and none otherwise. *)
Definition markers_shown (w : World) : Prop :=
  markers (vis (this w)) =
  if render_trajectory (this w) && global_view (this w) then all_markers w
  else [].

(** Visibility of the frame cloud and of the keypoints. *)
Definition visibility (w : World) : bool * bool :=
  (render_source (this w), render_keypoints (this w)).

(** The marker appended for a pose (lines 405-408). *)
Definition marker (pose : Mat4 scalar) : TriangleMesh :=
  mesh_transform pose
    (compute_vertex_normals
       (mesh_paint_uniform_color BLUE (create_sphere SPHERE_SIZE))).

Definition armed (w : World) : bool :=
  block_vis (this w) || play_crun (this w).

End Model.
End RegistrationVisualizer.

(** ** A concrete setting

    Integer arrays, with the inverse of a rigid transform
    [[R t; 0 0 0 1]] computed as [[R^T  -R^T t; 0 0 0 1]]. *)

Definition rigid_inverse (m : Mat4 Z) : Mat4 Z :=
  let '((a, b, c, tx), (d, e, f, ty), (g, h, i, tz), _) := m in
  ((a, d, g, - (a * tx + d * ty + g * tz)),
   (b, e, h, - (b * tx + e * ty + h * tz)),
   (c, f, i, - (c * tx + f * ty + i * tz)),
   (0, 0, 0, 1))%Z.

Definition numpy_Z : NumPy :=
  {| scalar := Z; zero := 0%Z; one := 1%Z; linalg_inv := rigid_inverse |}.

(** [translate(x, y, z)] *)
Definition translate (x y z : Z) : Mat4 Z :=
  ((1, 0, 0, x), (0, 1, 0, y), (0, 0, 1, z), (0, 0, 0, 1))%Z.

(** polyscope keeps the radius, the transform and the visibility of a
    structure that is registered again under the same name. *)
Definition persistent_values : @Kissualizer.Registration numpy_Z :=
  {| Kissualizer.inherited_radius old :=
       from_option Kissualizer.radius 1%Q old;
     Kissualizer.inherited_transform old :=
       from_option Kissualizer.transform (@eye4 numpy_Z) old;
     Kissualizer.inherited_enabled old :=
       from_option Kissualizer.enabled true old |}.

(** An installed polyscope, before its first use. *)
Definition installed_polyscope : @Kissualizer.Polyscope numpy_Z :=
  {| Kissualizer.program_name := "Polyscope";
     Kissualizer.initialized := false;
     Kissualizer.ground_plane_mode := "tile_reflect";
     Kissualizer.view_background_color := [1.0; 1.0; 1.0]%Q;
     Kissualizer.user_callback := false;
     Kissualizer.build_gui := true;
     Kissualizer.structures := ∅;
     Kissualizer.camera := Kissualizer.StartView;
     Kissualizer.frame_ticks := 0;
     Kissualizer.unshown := false |}.

(** Points are moved by the affine part of the transform; a sphere is
    reduced to its centre. *)
Definition affine (t : Mat4 Z) (p : Vec3 Z) : Vec3 Z :=
  let '((a, b, c, tx), (d, e, f, ty), (g, h, i, tz), _) := t in
  let '(x, y, z) := p in
  (a * x + b * y + c * z + tx,
   d * x + e * y + f * z + ty,
   g * x + h * y + i * z + tz)%Z.

Definition open3d_Z : @RegistrationVisualizer.Open3D numpy_Z :=
  @RegistrationVisualizer.Build_Open3D numpy_Z
    (fun (t : Mat4 Z) (pts : list (Vec3 Z)) => map (affine t) pts)
    (fun _ : Q => [(0, 0, 0)%Z]).

(** A process with polyscope installed, after [Kissualizer()], and one with
    open3d installed, after [RegistrationVisualizer()]. *)
Definition kiss_viewer : @Kissualizer.World numpy_Z :=
  world_of (Kissualizer.__init__ (Kissualizer.instance_at 0)
              (Kissualizer.boot (Some installed_polyscope))).

Definition registration_viewer : @RegistrationVisualizer.World numpy_Z :=
  world_of ((RegistrationVisualizer._register_key_callbacks ;;
             RegistrationVisualizer._initialize_visualizer)%proc
              (@RegistrationVisualizer.Build_World numpy_Z
                 RegistrationVisualizer.new_self [])).

(** Two frames: a three-point cloud at the identity pose, then the same
    cloud one unit further along x. *)
Definition three_points : list (Vec3 Z) :=
  [(1, 0, 0); (0, 1, 0); (0, 0, 1)]%Z.
Definition small_map : @LocalMap numpy_Z :=
  @Build_LocalMap numpy_Z [(5, 5, 5); (6, 5, 5)]%Z.
Definition frame_1 : @Frame numpy_Z :=
  @Build_Frame numpy_Z three_points [(1, 0, 0)%Z] small_map (@eye4 numpy_Z).
Definition frame_2 : @Frame numpy_Z :=
  @Build_Frame numpy_Z three_points [(1, 0, 0)%Z] small_map (translate 1 0 0).

(** Single clicks on the panel. *)
Definition click_start : Kissualizer.GuiInput :=
  {| Kissualizer.click_start_pause := true;
     Kissualizer.click_next_frame := false;
     Kissualizer.click_center_viewpoint := false;
     Kissualizer.click_frame_cloud := false;
     Kissualizer.click_keypoints := false;
     Kissualizer.click_local_map := false;
     Kissualizer.edit_background_color := None;
     Kissualizer.click_global_view := false;
     Kissualizer.click_quit := false |}.
Definition click_next : Kissualizer.GuiInput :=
  {| Kissualizer.click_start_pause := false;
     Kissualizer.click_next_frame := true;
     Kissualizer.click_center_viewpoint := false;
     Kissualizer.click_frame_cloud := false;
     Kissualizer.click_keypoints := false;
     Kissualizer.click_local_map := false;
     Kissualizer.edit_background_color := None;
     Kissualizer.click_global_view := false;
     Kissualizer.click_quit := false |}.
Definition click_view : Kissualizer.GuiInput :=
  {| Kissualizer.click_start_pause := false;
     Kissualizer.click_next_frame := false;
     Kissualizer.click_center_viewpoint := false;
     Kissualizer.click_frame_cloud := false;
     Kissualizer.click_keypoints := false;
     Kissualizer.click_local_map := false;
     Kissualizer.edit_background_color := None;
     Kissualizer.click_global_view := true;
     Kissualizer.click_quit := false |}.
Definition click_exit : Kissualizer.GuiInput :=
  {| Kissualizer.click_start_pause := false;
     Kissualizer.click_next_frame := false;
     Kissualizer.click_center_viewpoint := false;
     Kissualizer.click_frame_cloud := false;
     Kissualizer.click_keypoints := false;
     Kissualizer.click_local_map := false;
     Kissualizer.edit_background_color := None;
     Kissualizer.click_global_view := false;
     Kissualizer.click_quit := true |}.

(** Key codes of the open3d viewer. *)
Definition KEY_ESCAPE : Z := 256.
Definition KEY_SPACE : Z := 32.
Definition KEY_N : Z := 78.
Definition KEY_V : Z := 86.
Definition KEY_T : Z := 84.
Definition KEY_F : Z := 70.
Definition KEY_K : Z := 75.

(** ** Further observations *)

Section Observations.
Context `{NumPy}.

(** What [register_point_cloud] and [set_radius] give a structure: its
    points, colour, render mode and radius. *)
Definition cloud_data (name : string) (w : Kissualizer.World)
  : option (list (Vec3 scalar) * list Q * string * Q) :=
  (fun c => (Kissualizer.points c, Kissualizer.color c,
             Kissualizer.point_render_mode c, Kissualizer.radius c)) <$>
  Kissualizer.cloud name w.

(** The camera and the background colour of polyscope. *)
Definition camera_of (w : Kissualizer.World) : option Kissualizer.Camera :=
  Kissualizer.camera <$> Kissualizer.site_polyscope w.
Definition background_of (w : Kissualizer.World) : option (list Q) :=
  Kissualizer.view_background_color <$> Kissualizer.site_polyscope w.

(** Each of the three clouds with a checkbox is shown exactly when its
    checkbox is ticked. *)
Definition checkboxes_applied (w : Kissualizer.World) : Prop :=
  Kissualizer.enabled_of "current_frame" w =
    Some (Kissualizer.toggle_frame (Kissualizer.cls w)) /\
  Kissualizer.enabled_of "keypoints" w =
    Some (Kissualizer.toggle_keypoints (Kissualizer.cls w)) /\
  Kissualizer.enabled_of "local_map" w =
    Some (Kissualizer.toggle_map (Kissualizer.cls w)).

(** The same on a scene with its four structures, with the state of the
    three checkboxes. *)
Definition checkboxes_at (tf tk tm : bool) (w : Kissualizer.World) : Prop :=
  Kissualizer.scene_ready w = true /\
  (checkboxes_applied w /\
   (Kissualizer.toggle_frame (Kissualizer.cls w),
    Kissualizer.toggle_keypoints (Kissualizer.cls w),
    Kissualizer.toggle_map (Kissualizer.cls w)) = (tf, tk, tm)).

(** The user clicks neither START/PAUSE nor QUIT during a frame. *)
Definition calm (i : Kissualizer.GuiInput) : bool :=
  negb (Kissualizer.click_start_pause i) && negb (Kissualizer.click_quit i).

(** The user clicks NEXT FRAME, and neither START/PAUSE nor QUIT. *)
Definition steps (i : Kissualizer.GuiInput) : bool :=
  Kissualizer.click_next_frame i && calm i.

End Observations.

Section RegistrationObservations.
Context `{NumPy}.

(** The visualizer draws the three point clouds as they are now. *)
Definition drawn_in_sync (w : RegistrationVisualizer.World) : Prop :=
  RegistrationVisualizer.drawn_source
    (RegistrationVisualizer.vis (RegistrationVisualizer.this w)) =
    Some (RegistrationVisualizer.source (RegistrationVisualizer.this w)) /\
  RegistrationVisualizer.drawn_keypoints
    (RegistrationVisualizer.vis (RegistrationVisualizer.this w)) =
    Some (RegistrationVisualizer.keypoints (RegistrationVisualizer.this w)) /\
  RegistrationVisualizer.drawn_target
    (RegistrationVisualizer.vis (RegistrationVisualizer.this w)) =
    Some (RegistrationVisualizer.target (RegistrationVisualizer.this w)).

(** The bindings of [_register_key_callbacks] (lines 301-312) as a function
    of the key code. *)
Definition key_binding (key : Z) : option RegistrationVisualizer.Callback :=
  match key with
  | 256 | 81 | 27 => Some RegistrationVisualizer.quit_cb
  | 32 => Some RegistrationVisualizer.start_stop_cb
  | 78 => Some RegistrationVisualizer.next_frame_cb
  | 86 => Some RegistrationVisualizer.toggle_view_cb
  | 67 => Some RegistrationVisualizer.center_viewpoint_cb
  | 70 => Some RegistrationVisualizer.toggle_source_cb
  | 75 => Some RegistrationVisualizer.toggle_keypoints_cb
  | 77 => Some RegistrationVisualizer.toggle_map_cb
  | 84 => Some RegistrationVisualizer.toggle_trajectory_cb
  | 66 => Some RegistrationVisualizer.set_black_background_cb
  | 87 => Some RegistrationVisualizer.set_white_background_cb
  | _ => None
  end%Z.

(** A key whose callback, if it has one, is neither Play/Pause, Step nor
    Quit; a key bound to the Step callback; a key that is not bound to
    [_center_viewpoint]. *)
Definition calm_key (w : RegistrationVisualizer.World) (key : Z) : bool :=
  negb (RegistrationVisualizer.advance w key) &&
  negb (RegistrationVisualizer.quits w key).
Definition step_key (w : RegistrationVisualizer.World) (key : Z) : bool :=
  match RegistrationVisualizer.bound_to key w with
  | Some RegistrationVisualizer.next_frame_cb => true
  | _ => false
  end.
Definition keeps_viewpoint (w : RegistrationVisualizer.World) (key : Z) : bool :=
  match RegistrationVisualizer.bound_to key w with
  | Some RegistrationVisualizer.center_viewpoint_cb => false
  | _ => true
  end.

(** Among the keys pressed at one poll, those that [hit] selects are
    pressed an odd number of times: a flag that each of these presses
    negates ends negated. *)
Fixpoint flipped (hit : Z -> bool) (keys : list Z) : bool :=
  match keys with
  | [] => false
  | key :: keys => xorb (hit key) (flipped hit keys)
  end.

End RegistrationObservations.

(** * Properties *)

(** ** Rules for triples *)

Section Rules.
Context {W : Type}.
Implicit Types (P I : W -> Prop) (E : ending -> W -> Prop).

Lemma triple_ret {A} P (a : A) (Q : A -> W -> Prop) E :
  (forall w, P w -> Q a w) -> triple P (ret a) Q E.
Proof. intros HQ w Hw. now apply HQ. Qed.

Lemma triple_bind {A B} P (m : M W A) (k : A -> M W B) R Q E :
  triple P m R E -> (forall a, triple (R a) (k a) Q E) ->
  triple P (bind m k) Q E.
Proof.
  intros Hm Hk w Hw. unfold bind. specialize (Hm w Hw).
  destruct (m w) as [a w'| | |]; try assumption. now apply Hk.
Qed.

Lemma triple_gets {A} P (f : W -> A) (Q : A -> W -> Prop) E :
  (forall w, P w -> Q (f w) w) -> triple P (gets f) Q E.
Proof. intros HQ w Hw. now apply HQ. Qed.

Lemma triple_modify P (f : W -> W) (Q : unit -> W -> Prop) E :
  (forall w, P w -> Q tt (f w)) -> triple P (modify f) Q E.
Proof. intros HQ w Hw. now apply HQ. Qed.

Lemma triple_raise {A} P (e : exn) (Q : A -> W -> Prop) E :
  (forall w, P w -> E (Raises e) w) -> triple P (raise e) Q E.
Proof. intros HE w Hw. now apply HE. Qed.

Lemma triple_os_exit {A} P code (Q : A -> W -> Prop) E :
  (forall w, P w -> E (Exits code) w) -> triple P (os_exit code) Q E.
Proof. intros HE w Hw. now apply HE. Qed.

Lemma triple_when P (b : bool) (m : M W unit) Q E :
  (b = true -> triple P m Q E) -> (b = false -> forall w, P w -> Q tt w) ->
  triple P (when b m) Q E.
Proof.
  destruct b; intros Ht Hf; [now apply Ht |]. apply triple_ret. now apply Hf.
Qed.

Lemma triple_conseq {A} P P' (m : M W A) (Q Q' : A -> W -> Prop) E E' :
  triple P' m Q' E' ->
  (forall w, P w -> P' w) ->
  (forall a w, Q' a w -> Q a w) ->
  (forall e w, E' e w -> E e w) ->
  triple P m Q E.
Proof.
  intros Hm HP HQ HE w Hw. specialize (Hm w (HP w Hw)).
  destruct (m w); auto.
Qed.

(** What a triple says about the world a method leaves behind. *)
Lemma triple_world_of {A} P (m : M W A) (Q : W -> Prop) w :
  triple P m (fun _ => Q) (fun _ => Q) -> P w -> Q (world_of (m w)).
Proof. intros Hm Hw. specialize (Hm w Hw). now destruct (m w). Qed.

Lemma keeps_ret {A} I (a : A) : keeps I (ret a).
Proof. now apply triple_ret. Qed.

Lemma keeps_bind {A B} I (m : M W A) (k : A -> M W B) :
  keeps I m -> (forall a, keeps I (k a)) -> keeps I (bind m k).
Proof. intros Hm Hk. eapply triple_bind; [exact Hm | exact Hk]. Qed.

Lemma keeps_gets {A} I (f : W -> A) : keeps I (gets f).
Proof. now apply triple_gets. Qed.

Lemma keeps_modify I (f : W -> W) :
  (forall w, I w -> I (f w)) -> keeps I (modify f).
Proof. intros Hf. now apply triple_modify. Qed.

Lemma keeps_raise {A} I (e : exn) : keeps I (@raise W A e).
Proof. now apply triple_raise. Qed.

Lemma keeps_os_exit {A} I code : keeps I (@os_exit W A code).
Proof. now apply triple_os_exit. Qed.

Lemma keeps_when I (b : bool) (m : M W unit) : keeps I m -> keeps I (when b m).
Proof. intros Hm. now apply triple_when. Qed.

Lemma runs_ret {A} I (a : A) : runs I (ret a).
Proof. now apply triple_ret. Qed.

Lemma runs_bind {A B} I (m : M W A) (k : A -> M W B) :
  runs I m -> (forall a, runs I (k a)) -> runs I (bind m k).
Proof. intros Hm Hk. eapply triple_bind; [exact Hm | exact Hk]. Qed.

Lemma runs_gets {A} I (f : W -> A) : runs I (gets f).
Proof. now apply triple_gets. Qed.

Lemma runs_modify I (f : W -> W) :
  (forall w, I w -> I (f w)) -> runs I (modify f).
Proof. intros Hf. now apply triple_modify. Qed.

Lemma runs_when I (b : bool) (m : M W unit) : runs I m -> runs I (when b m).
Proof. intros Hm. now apply triple_when. Qed.

(** A method that runs under [I] returns. *)
Lemma runs_returns {A} I (m : M W A) w :
  runs I m -> I w -> exists a w', m w = Ok a w' /\ I w'.
Proof.
  intros Hm Hw. specialize (Hm w Hw). destruct (m w) as [a w'| | |]; try easy.
  now exists a, w'.
Qed.

End Rules.

Lemma returned_world_of {W A} (r : result W A) a :
  returned r = Some a -> r = Ok a (world_of r).
Proof. destruct r; cbn; congruence. Qed.

Lemma exit_world_of {W A} (r : result W A) code :
  exit_status r = Some code -> r = Exit code (world_of r).
Proof. destruct r; cbn; congruence. Qed.

Lemma inv_bind {W A B} (I : W -> Prop) E (m : M W A) (k : A -> M W B) :
  triple I m (fun _ => I) E -> (forall a, triple I (k a) (fun _ => I) E) ->
  triple I (bind m k) (fun _ => I) E.
Proof. intros Hm Hk. eapply triple_bind; [exact Hm | exact Hk]. Qed.

Lemma triple_conj {W A} (P1 P2 : W -> Prop) (m : M W A) Q1 Q2 E1 E2 :
  triple P1 m Q1 E1 -> triple P2 m Q2 E2 ->
  triple (fun w => P1 w /\ P2 w) m (fun a w => Q1 a w /\ Q2 a w)
    (fun e w => E1 e w /\ E2 e w).
Proof.
  intros H1 H2 w [Hw1 Hw2]. specialize (H1 w Hw1). specialize (H2 w Hw2).
  destruct (m w); auto.
Qed.

Lemma runs_triple {W A} (I : W -> Prop) (m : M W A) E :
  runs I m -> triple I m (fun _ => I) E.
Proof. intros Hm. eapply triple_conseq; [exact Hm | auto | auto | easy]. Qed.


Lemma exec_bind {W A B} (m : M W A) (k : A -> M W B) w a w1 (Q : B -> W -> Prop) :
  m w = Ok a w1 ->
  (exists b w', k a w1 = Ok b w' /\ Q b w') ->
  exists b w', bind m k w = Ok b w' /\ Q b w'.
Proof. intros Hm Hk. unfold bind. now rewrite Hm. Qed.

Lemma exec_done {W A} (a : A) (w : W) (Q : A -> W -> Prop) :
  Q a w -> exists b w', ret a w = Ok b w' /\ Q b w'.
Proof. intros HQ. now exists a, w. Qed.

Lemma exec_last {W A} (m : M W A) w a w1 (Q : A -> W -> Prop) :
  m w = Ok a w1 -> Q a w1 -> exists b w', m w = Ok b w' /\ Q b w'.
Proof. intros Hm HQ. now exists a, w1. Qed.


Section KissualizerFacts.
Context `{NumPy} `{!Kissualizer.Registration}.
Import Kissualizer.
Implicit Types (w : World) (P I : World -> Prop).

(** *** Observations of updated worlds *)

Lemma ready_true w :
  ready w = true ->
  polyscope (cls w) = true /\
  exists p, site_polyscope w = Some p /\ user_callback p = true.
Proof.
  unfold ready. destruct (polyscope (cls w)); [|discriminate].
  destruct (site_polyscope w) as [p|]; [|discriminate]. eauto.
Qed.

Lemma ready_set_cls f w :
  (forall a, polyscope (f a) = polyscope a) ->
  ready (set_cls f w) = ready w.
Proof. intros Hf. unfold ready. cbn. now rewrite Hf. Qed.

Lemma ready_set_site f w :
  (forall p, user_callback (f p) = user_callback p) ->
  ready (set_site f w) = ready w.
Proof.
  intros Hf. unfold ready. cbn. destruct (site_polyscope w); cbn; [|reflexivity].
  now rewrite Hf.
Qed.

Lemma ready_put_cloud handle c w : ready (put_cloud handle c w) = ready w.
Proof. apply ready_set_site. now intros []. Qed.

Lemma cloud_set_cls name f w : cloud name (set_cls f w) = cloud name w.
Proof. reflexivity. Qed.

Lemma cloud_set_site name f w :
  (forall p, structures (f p) = structures p) ->
  cloud name (set_site f w) = cloud name w.
Proof.
  intros Hf. unfold cloud. cbn. destruct (site_polyscope w); cbn; [|reflexivity].
  now rewrite Hf.
Qed.

Lemma cloud_put_cloud name handle c w :
  cloud name (put_cloud handle c w) =
  match site_polyscope w with
  | Some _ => if decide (handle = name) then Some c else cloud name w
  | None => None
  end.
Proof.
  unfold cloud, put_cloud. cbn. destruct (site_polyscope w) as [[]|]; cbn;
    [|reflexivity].
  apply lookup_insert.
Qed.

Lemma cloud_put_cloud_eq handle c w :
  ready w = true -> cloud handle (put_cloud handle c w) = Some c.
Proof.
  intros (_ & p & Hp & _)%ready_true. rewrite cloud_put_cloud, Hp.
  now rewrite decide_True.
Qed.

Lemma cloud_put_cloud_ne name handle c w :
  handle <> name -> cloud name (put_cloud handle c w) = cloud name w.
Proof.
  intros Hne. rewrite cloud_put_cloud. unfold cloud.
  destruct (site_polyscope w); [|reflexivity]. now rewrite decide_False.
Qed.

Lemma registered_put_cloud name handle c w :
  registered name w = true -> registered name (put_cloud handle c w) = true.
Proof.
  unfold registered. rewrite cloud_put_cloud. unfold cloud.
  destruct (site_polyscope w); [|discriminate].
  now destruct (decide (handle = name)).
Qed.

Lemma scene_ready_true w :
  scene_ready w = true ->
  ready w = true /\ registered "current_frame" w = true /\
  registered "keypoints" w = true /\ registered "local_map" w = true /\
  registered "trajectory" w = true.
Proof. unfold scene_ready. rewrite !andb_true_iff. tauto. Qed.

Lemma scene_ready_intro w :
  ready w = true -> registered "current_frame" w = true ->
  registered "keypoints" w = true -> registered "local_map" w = true ->
  registered "trajectory" w = true -> scene_ready w = true.
Proof. unfold scene_ready. now intros -> -> -> -> ->. Qed.

Lemma scene_ready_set_cls f w :
  (forall a, polyscope (f a) = polyscope a) ->
  scene_ready (set_cls f w) = scene_ready w.
Proof.
  intros Hf. unfold scene_ready, registered.
  now rewrite ready_set_cls, !cloud_set_cls.
Qed.

Lemma scene_ready_set_site f w :
  (forall p, user_callback (f p) = user_callback p) ->
  (forall p, structures (f p) = structures p) ->
  scene_ready (set_site f w) = scene_ready w.
Proof.
  intros Hc Hs. unfold scene_ready, registered.
  now rewrite ready_set_site, !cloud_set_site.
Qed.

Lemma scene_ready_put_cloud handle c w :
  scene_ready w = true -> scene_ready (put_cloud handle c w) = true.
Proof.
  intros (Hr & H1 & H2 & H3 & H4)%scene_ready_true.
  apply scene_ready_intro; [now rewrite ready_put_cloud | ..];
    now apply registered_put_cloud.
Qed.

Lemma scene_ready_print line w :
  scene_ready {| site_polyscope := site_polyscope w; cls := cls w;
                 stdout := stdout w ++ [line];
                 import_error := import_error w |} = scene_ready w.
Proof. reflexivity. Qed.

Lemma ticks_set_cls f w : ticks (set_cls f w) = ticks w.
Proof. reflexivity. Qed.

Lemma ticks_set_site f w :
  (forall p, frame_ticks (f p) = frame_ticks p) ->
  ticks (set_site f w) = ticks w.
Proof.
  intros Hf. unfold ticks. cbn. destruct (site_polyscope w); cbn; [|reflexivity].
  apply Hf.
Qed.

Lemma ticks_put_cloud handle c w : ticks (put_cloud handle c w) = ticks w.
Proof. apply ticks_set_site. now intros []. Qed.

Lemma put_cloud_twice handle c1 c2 w :
  put_cloud handle c2 (put_cloud handle c1 w) = put_cloud handle c2 w.
Proof.
  unfold put_cloud, set_site. cbn. f_equal.
  destruct (site_polyscope w) as [p|]; cbn; [|reflexivity].
  unfold with_structures at 1. cbn. f_equal. unfold with_structures. cbn.
  f_equal. apply insert_insert_eq.
Qed.

Lemma registered_cloud name w :
  registered name w = true -> exists c, cloud name w = Some c.
Proof. unfold registered. destruct (cloud name w); [eauto | discriminate]. Qed.

(** *** Calls into polyscope *)

Lemma the_polyscope_eq w :
  ready w = true -> exists p, the_polyscope w = Ok p w /\ site_polyscope w = Some p.
Proof.
  intros (Hb & p & Hp & _)%ready_true. exists p. unfold the_polyscope.
  now rewrite Hb, Hp.
Qed.

Lemma call_eq f w : ready w = true -> call f w = Ok tt (set_site f w).
Proof.
  intros (p & Hp & _)%the_polyscope_eq. unfold call, bind. now rewrite Hp.
Qed.

Lemma get_point_cloud_eq name w :
  ready w = true -> registered name w = true ->
  get_point_cloud name w = Ok name w.
Proof.
  intros (p & Hp & Hs)%the_polyscope_eq (c & Hc)%registered_cloud.
  unfold get_point_cloud, bind. rewrite Hp. unfold cloud in Hc.
  rewrite Hs in Hc. now rewrite Hc.
Qed.

Lemma on_cloud_eq handle f c w :
  ready w = true -> cloud handle w = Some c ->
  on_cloud handle f w = Ok tt (put_cloud handle (f c) w).
Proof.
  intros (p & Hp & Hs)%the_polyscope_eq Hc.
  unfold on_cloud, bind. rewrite Hp. unfold cloud in Hc.
  rewrite Hs in Hc. rewrite Hc. unfold modify, put_cloud, set_site.
  now rewrite Hs.
Qed.

Lemma register_point_cloud_eq name pts col mode w :
  ready w = true ->
  register_point_cloud name pts col mode w =
  Ok name
    (put_cloud name
       {| points := pts; color := col; point_render_mode := mode;
          radius := inherited_radius (cloud name w);
          transform := inherited_transform (cloud name w);
          enabled := inherited_enabled (cloud name w) |} w).
Proof.
  intros Hr. unfold register_point_cloud, bind. rewrite call_eq by assumption.
  unfold ret. f_equal. apply ready_true in Hr as (_ & p & Hs & _).
  unfold put_cloud, set_site, cloud. now rewrite Hs.
Qed.

Lemma triple_the_polyscope P (Q : Polyscope -> World -> Prop) E :
  (forall w p, P w -> polyscope (cls w) = true -> site_polyscope w = Some p ->
     Q p w) ->
  (forall w e, P w -> ready w = false -> E (Raises e) w) ->
  triple P the_polyscope Q E.
Proof.
  intros HQ HE w Hw. unfold the_polyscope.
  destruct (polyscope (cls w)) eqn:Hb.
  - destruct (site_polyscope w) as [p|] eqn:Hs; [now apply HQ |].
    apply HE; [assumption |]. unfold ready. now rewrite Hb, Hs.
  - apply HE; [assumption |]. unfold ready. now rewrite Hb.
Qed.

Lemma triple_call P f (Q : unit -> World -> Prop) E :
  (forall w, P w -> Q tt (set_site f w)) ->
  (forall w e, P w -> ready w = false -> E (Raises e) w) ->
  triple P (call f) Q E.
Proof.
  intros HQ HE. eapply triple_bind with (R := fun _ => P).
  - apply triple_the_polyscope; auto.
  - intros _. now apply triple_modify.
Qed.

Lemma triple_on_cloud P handle f (Q : unit -> World -> Prop) E :
  (forall w c, P w -> cloud handle w = Some c -> Q tt (put_cloud handle (f c) w)) ->
  (forall w e, P w -> ready w && registered handle w = false -> E (Raises e) w) ->
  triple P (on_cloud handle f) Q E.
Proof.
  intros HQ HE w Hw. unfold on_cloud, bind, the_polyscope.
  destruct (polyscope (cls w)) eqn:Hb;
    [| apply HE; [assumption | unfold ready; now rewrite Hb]].
  destruct (site_polyscope w) as [p|] eqn:Hs;
    [| apply HE; [assumption | unfold ready; rewrite Hb, Hs; reflexivity]].
  destruct (structures p !! handle) as [c|] eqn:Hc.
  - specialize (HQ w c Hw). unfold cloud in HQ. rewrite Hs in HQ.
    specialize (HQ Hc). unfold modify.
    replace (set_site _ w) with (put_cloud handle (f c) w); [assumption |].
    unfold put_cloud, set_site. now rewrite Hs.
  - apply HE; [assumption |]. unfold registered, cloud. rewrite Hs, Hc.
    apply andb_false_r.
Qed.

Lemma triple_get_then {A} P name (k : string -> M World A) Q E :
  triple P (k name) Q E ->
  (forall w e, P w -> ready w && registered name w = false -> E (Raises e) w) ->
  triple P (bind (get_point_cloud name) k) Q E.
Proof.
  intros Hk HE w Hw. unfold get_point_cloud, bind, the_polyscope.
  destruct (polyscope (cls w)) eqn:Hb;
    [| apply HE; [assumption | unfold ready; now rewrite Hb]].
  destruct (site_polyscope w) as [p|] eqn:Hs;
    [| apply HE; [assumption | unfold ready; rewrite Hb, Hs; reflexivity]].
  destruct (structures p !! name) as [c|] eqn:Hc; [now apply Hk |].
  apply HE; [assumption |]. unfold registered, cloud. rewrite Hs, Hc.
  apply andb_false_r.
Qed.

End KissualizerFacts.

(** *** Tactics *)

(** Walks through a block of the panel with one invariant. *)
Ltac walk_step :=
  lazymatch goal with
  | |- triple _ _ _ _ =>
      first
        [ apply triple_ret
        | apply triple_modify
        | apply triple_when; intros _
        | apply triple_os_exit
        | apply triple_call
        | apply triple_on_cloud
        | apply triple_get_then
        | apply triple_gets
        | apply inv_bind; [| intros ?]
        | match goal with
          | |- triple _ (if ?b then _ else _) _ _ => destruct b
          end ]
  end.

Ltac walk := repeat walk_step.

Ltac open_world :=
  repeat match goal with
  | w : Kissualizer.World |- _ => destruct w as [[[]|] [] ?]
  end.

Ltac plain_side := intros; first [assumption | open_world; cbn in *; intuition congruence].

Ltac panel_blocks :=
  unfold keeps, runs, Kissualizer._gui_callback,
    Kissualizer.start_pause_button, Kissualizer.next_frame_button,
    Kissualizer.center_viewpoint_button, Kissualizer.toggle_buttons,
    Kissualizer.background_color_edit, Kissualizer.global_view_button,
    Kissualizer.quit_button, Kissualizer.reset_camera_to_home_view,
    Kissualizer.look_at, Kissualizer.set_background_color, Kissualizer.unshow,
    Kissualizer.print, Kissualizer.set_enabled, Kissualizer.set_transform,
    Kissualizer.set_radius.

Ltac scene_side :=
  intros;
  first
    [ assumption
    | match goal with
      | Hw : Kissualizer.scene_ready ?w = true, Hf : _ = false |- _ =>
          apply scene_ready_true in Hw as (Hrdy & Hcf & Hkp & Hlm & Htr);
          rewrite Hrdy, ?Hcf, ?Hkp, ?Hlm, ?Htr in Hf; discriminate
      end
    | rewrite scene_ready_set_cls by (now intros []); assumption
    | rewrite scene_ready_set_site by (now intros []); assumption
    | apply scene_ready_put_cloud; assumption ].

(** Rewrites the observations of a world built by updates of another. *)
Ltac obs :=
  repeat first
    [ rewrite put_cloud_twice
    | rewrite ready_put_cloud
    | rewrite ticks_put_cloud
    | rewrite ticks_set_cls
    | rewrite ticks_set_site by (now intros [])
    | rewrite ready_set_cls by (now intros [])
    | rewrite ready_set_site by (now intros [])
    | rewrite cloud_set_cls
    | rewrite cloud_set_site by (now intros [])
    | rewrite cloud_put_cloud_ne by discriminate
    | rewrite cloud_put_cloud_eq by (obs; assumption) ].

Ltac exec_eq :=
  first
    [ apply call_eq; obs; assumption
    | eapply on_cloud_eq; [obs; assumption | obs; first [eassumption | reflexivity]]
    | apply get_point_cloud_eq;
        [ obs; assumption
        | unfold Kissualizer.registered; obs;
          first [ reflexivity
                | match goal with H : Kissualizer.cloud _ _ = Some _ |- _ => now rewrite H end ] ]
    | apply register_point_cloud_eq; obs; assumption
    | reflexivity ].

Ltac exec_step :=
  lazymatch goal with
  | |- exists b w', bind _ _ _ = Ok b w' /\ _ =>
      eapply exec_bind; [exec_eq |]; obs
  | |- exists b w', ret _ _ = Ok b w' /\ _ => apply exec_done
  | |- exists b w', _ = Ok b w' /\ _ => eapply exec_last; [exec_eq |]
  end.


Section KissualizerPanel.
Context `{NumPy} `{!Kissualizer.Registration}.
Import Kissualizer.
Implicit Types (w : World) (P I : World -> Prop).

(** The panel never touches the trajectory, the last pose or the count of
    polls. *)
Lemma gui_callback_core t l n i :
  keeps (fun w => trajectory (cls w) = t /\ last_pose (cls w) = l /\ ticks w = n)
    (_gui_callback i).
Proof. panel_blocks. walk; plain_side. Qed.


(** What the two playback buttons do to [play_mode] and [block_execution];
    the other blocks leave both alone. *)
Lemma gui_callback_playback pm be i :
  let pm' := xorb pm (click_start_pause i) in
  let be' := if negb pm' && click_next_frame i then negb be else be in
  triple (fun w => play_mode (cls w) = pm /\ block_execution (cls w) = be)
    (_gui_callback i)
    (fun _ w => play_mode (cls w) = pm' /\ block_execution (cls w) = be')
    (fun _ w => play_mode (cls w) = pm' /\ block_execution (cls w) = be').
Proof.
  intros pm' be'. unfold _gui_callback.
  eapply triple_bind with
    (R := fun _ w => play_mode (cls w) = pm' /\ block_execution (cls w) = be).
  { unfold start_pause_button, pm'. intros w [Hp Hb].
    destruct (click_start_pause i); cbn; rewrite Hp, Hb; now destruct pm. }
  intros _.
  eapply triple_bind with
    (R := fun _ w => play_mode (cls w) = pm' /\ block_execution (cls w) = be').
  { unfold next_frame_button, be'. intros w [Hp Hb]. unfold bind, gets.
    rewrite Hp. destruct pm', (click_next_frame i); cbn; now rewrite Hp, Hb. }
  intros _. panel_blocks. walk; plain_side.
Qed.

(** With the four structures registered, the blocks before QUIT return
    and keep them registered. *)
Lemma panel_runs i :
  runs (fun w => scene_ready w = true)
    (start_pause_button i ;; next_frame_button i ;; center_viewpoint_button i ;;
     toggle_buttons i ;; background_color_edit i ;; global_view_button i)%proc.
Proof. panel_blocks. walk; scene_side. Qed.


Lemma torn_down_unshow w :
  ready w = true -> torn_down (set_site (with_unshown true) w) = true.
Proof.
  intros (_ & p & Hp & _)%ready_true. unfold torn_down, set_site. cbn.
  now rewrite Hp.
Qed.

(** QUIT: the block returns when the button is not clicked; when it is, the
    process ends with status 0 after [unshow]. *)
Lemma quit_button_scene i :
  triple (fun w => scene_ready w = true) (quit_button i)
    (fun _ w => scene_ready w = true /\ click_quit i = false)
    (fun e w => e = Exits 0 /\ click_quit i = true /\ torn_down w = true).
Proof.
  intros w Hw. unfold quit_button. destruct (click_quit i); cbn [when].
  - unfold bind at 1. cbn [print modify]. unfold bind, unshow.
    apply scene_ready_true in Hw as (Hr & _).
    rewrite call_eq by exact Hr. cbn [os_exit].
    repeat split. now apply (torn_down_unshow _ Hr).
  - now split.
Qed.

Lemma gui_callback_scene i :
  triple (fun w => scene_ready w = true) (_gui_callback i)
    (fun _ w => scene_ready w = true /\ click_quit i = false)
    (fun e w => e = Exits 0 /\ click_quit i = true /\ torn_down w = true).
Proof.
  unfold _gui_callback.
  repeat (eapply triple_bind with (R := fun _ w => scene_ready w = true);
          [ apply runs_triple; panel_blocks; walk; scene_side | intros _ ]).
  apply quit_button_scene.
Qed.

End KissualizerPanel.

Section KissualizerView.
Context `{NumPy} `{!Kissualizer.Registration}.
Import Kissualizer.
Implicit Types (w : World) (P I : World -> Prop).

Lemma global_view_button_eq i w cf ck cm ct :
  ready w = true ->
  cloud "current_frame" w = Some cf -> cloud "keypoints" w = Some ck ->
  cloud "local_map" w = Some cm -> cloud "trajectory" w = Some ct ->
  click_global_view i = true ->
  exists w',
    global_view_button i w = Ok tt w' /\
    ready w' = true /\
    cls w' = with_global_view (negb (global_view (cls w))) (cls w) /\
    ticks w' = ticks w /\
    enabled <$> cloud "trajectory" w' = Some (negb (global_view (cls w))) /\
    transform <$> cloud "current_frame" w' =
      Some (if negb (global_view (cls w)) then last_pose (cls w) else eye4) /\
    transform <$> cloud "keypoints" w' =
      Some (if negb (global_view (cls w)) then last_pose (cls w) else eye4) /\
    transform <$> cloud "local_map" w' =
      Some (if negb (global_view (cls w)) then eye4
            else linalg_inv (last_pose (cls w))).
Proof.
  intros Hr Hcf Hck Hcm Hct Hclick.
  cut (exists (b : unit) w',
    global_view_button i w = Ok b w' /\
    (ready w' = true /\
    cls w' = with_global_view (negb (global_view (cls w))) (cls w) /\
    ticks w' = ticks w /\
    enabled <$> cloud "trajectory" w' = Some (negb (global_view (cls w))) /\
    transform <$> cloud "current_frame" w' =
      Some (if negb (global_view (cls w)) then last_pose (cls w) else eye4) /\
    transform <$> cloud "keypoints" w' =
      Some (if negb (global_view (cls w)) then last_pose (cls w) else eye4) /\
    transform <$> cloud "local_map" w' =
      Some (if negb (global_view (cls w)) then eye4
            else linalg_inv (last_pose (cls w))))).
  { intros ([] & w' & Hw'). now exists w'. }
  unfold global_view_button. rewrite Hclick. cbn [when].
  unfold set_enabled, set_transform, reset_camera_to_home_view, look_at.
  do 4 exec_step. cbn [cls set_cls global_view with_global_view].
  destruct (negb (global_view (cls w))) eqn:Hg.
  - do 7 exec_step. obs. cbn. rewrite Hg. now repeat split.
  - do 7 exec_step. obs. cbn. rewrite Hg. now repeat split.
Qed.

End KissualizerView.

Ltac both_side :=
  intros;
  repeat match goal with H : _ /\ _ |- _ => destruct H end;
  first
    [ match goal with |- False => scene_side end
    | split; [scene_side | plain_side] ].

Ltac view_side :=
  intros;
  first [ assumption
        | unfold Kissualizer.view_is, Kissualizer.transform_of,
            Kissualizer.enabled_of in *; obs; assumption ].

Section KissualizerTick.
Context `{NumPy} `{!Kissualizer.Registration}.
Import Kissualizer.
Implicit Types (w : World) (P I : World -> Prop).

Lemma cloud_print name line w :
  cloud name {| site_polyscope := site_polyscope w; cls := cls w;
                stdout := stdout w ++ [line];
                import_error := import_error w |} = cloud name w.
Proof. reflexivity. Qed.

(** GLOBAL VIEW clicked: whatever else is clicked in the same frame, the
    callback leaves the scene laid out for the other view mode. *)
Lemma gui_callback_global_view g l i :
  click_global_view i = true ->
  triple
    (fun w => scene_ready w = true /\
              (global_view (cls w) = g /\ last_pose (cls w) = l))
    (_gui_callback i)
    (fun _ => view_is (negb g) l) (fun _ => view_is (negb g) l).
Proof.
  intros Hclick. unfold _gui_callback.
  do 5 (eapply triple_bind with
          (R := fun _ w => scene_ready w = true /\
                           (global_view (cls w) = g /\ last_pose (cls w) = l));
        [ apply runs_triple; panel_blocks; walk; both_side | intros _ ]).
  eapply triple_bind with (R := fun _ => view_is (negb g) l).
  - intros w (Hw & Hg & Hl).
    apply scene_ready_true in Hw as (Hr & Hcf & Hck & Hcm & Hct).
    apply registered_cloud in Hcf as [cf Hcf]. apply registered_cloud in Hck as [ck Hck].
    apply registered_cloud in Hcm as [cm Hcm]. apply registered_cloud in Hct as [ct Hct].
    destruct (global_view_button_eq i w cf ck cm ct Hr Hcf Hck Hcm Hct Hclick)
      as (w' & -> & _ & Hcls & _ & He & Hf & Hk & Hm).
    subst g l. unfold view_is, transform_of, enabled_of. rewrite Hcls. cbn.
    now repeat split.
  - intros _. panel_blocks. walk; view_side.
Qed.

End KissualizerTick.

Section KissualizerLoop.
Context `{NumPy} `{!Kissualizer.Registration}.
Import Kissualizer.
Implicit Types (w : World) (i : GuiInput) (script rest : list GuiInput).

Lemma advance_false i :
  advance i = false -> click_start_pause i = false /\ click_next_frame i = false.
Proof. unfold advance. now intros [-> ->]%orb_false_iff. Qed.

Lemma quiet_true i :
  quiet i = true ->
  click_start_pause i = false /\ click_next_frame i = false /\
  click_quit i = false.
Proof.
  unfold quiet. intros [Ha Hq]%andb_true_iff.
  apply negb_true_iff, advance_false in Ha as [-> ->].
  now apply negb_true_iff in Hq as ->.
Qed.

(** *** One frame *)

Lemma frame_tick_eq i w :
  ready w = true -> frame_tick i w = _gui_callback i (set_site tick_once w).
Proof.
  intros Hr. unfold frame_tick, count_frame_tick. unfold bind at 1.
  rewrite call_eq by exact Hr. unfold bind at 1.
  assert (Hr' : ready (set_site tick_once w) = true) by (obs; exact Hr).
  destruct (the_polyscope_eq _ Hr') as (p & -> & Hs).
  apply ready_true in Hr' as (_ & p' & Hs' & Hcb).
  rewrite Hs in Hs'. injection Hs' as <-. now rewrite Hcb.
Qed.

Lemma gui_callback_history t l i :
  keeps (fun w => trajectory (cls w) = t /\ last_pose (cls w) = l)
    (_gui_callback i).
Proof.
  intros w [Ht Hl].
  pose proof (gui_callback_core t l (ticks w) i w (conj Ht (conj Hl eq_refl))) as Hc.
  destruct (_gui_callback i w); tauto.
Qed.

Lemma frame_tick_history t l i :
  keeps (fun w => trajectory (cls w) = t /\ last_pose (cls w) = l)
    (frame_tick i).
Proof.
  unfold frame_tick, count_frame_tick. apply keeps_bind.
  - apply triple_call; plain_side.
  - intros _. apply keeps_bind; [apply triple_the_polyscope; auto |].
    intros p. apply keeps_when, gui_callback_history.
Qed.

Lemma frame_tick_playback i pm be :
  advance i = false ->
  triple (fun w => play_mode (cls w) = pm /\ block_execution (cls w) = be)
    (frame_tick i)
    (fun _ w => play_mode (cls w) = pm /\ block_execution (cls w) = be)
    (fun _ _ => True).
Proof.
  intros [Hs Hn]%advance_false. unfold frame_tick, count_frame_tick.
  eapply triple_bind with
    (R := fun _ w => play_mode (cls w) = pm /\ block_execution (cls w) = be).
  { apply triple_call; [plain_side | auto]. }
  intros _.
  eapply triple_bind with
    (R := fun _ w => play_mode (cls w) = pm /\ block_execution (cls w) = be).
  { apply triple_the_polyscope; auto. }
  intros p. apply triple_when; [intros _ | auto].
  eapply triple_conseq; [apply (gui_callback_playback pm be i) | auto | | auto].
  cbn. rewrite Hs, Hn, andb_false_r. now destruct pm.
Qed.

(** *** The polling loop *)

Lemma poll_loop_nil w :
  poll_loop [] w = if block_execution (cls w) then Waiting w else Ok [] w.
Proof. cbn. unfold bind, gets. now destruct (block_execution (cls w)). Qed.

Lemma poll_loop_cons i rest w :
  poll_loop (i :: rest) w =
  if block_execution (cls w) then
    match frame_tick i w with
    | Ok _ w1 => if play_mode (cls w1) then Ok rest w1 else poll_loop rest w1
    | Exit code w1 => Exit code w1
    | Raise e w1 => Raise e w1
    | Waiting w1 => Waiting w1
    end
  else Ok (i :: rest) w.
Proof.
  cbn [poll_loop]. unfold bind at 1. unfold gets at 1.
  destruct (block_execution (cls w)); [| reflexivity].
  unfold bind at 1. destruct (frame_tick i w) as [[] w1| | |]; try reflexivity.
  unfold bind, gets. now destruct (play_mode (cls w1)).
Qed.

Lemma poll_loop_free script w :
  block_execution (cls w) = false -> poll_loop script w = Ok script w.
Proof.
  intros Hb. destruct script; [rewrite poll_loop_nil | rewrite poll_loop_cons];
    now rewrite Hb.
Qed.

Lemma poll_loop_history t l script :
  keeps (fun w => trajectory (cls w) = t /\ last_pose (cls w) = l)
    (poll_loop script).
Proof.
  induction script as [|i rest IH]; intros w Hw.
  - rewrite poll_loop_nil. now destruct (block_execution (cls w)).
  - rewrite poll_loop_cons. destruct (block_execution (cls w)); [| exact Hw].
    pose proof (frame_tick_history t l i w Hw) as Ht.
    destruct (frame_tick i w) as [[] w1| | |]; try exact Ht.
    destruct (play_mode (cls w1)); [exact Ht | now apply IH].
Qed.

(** Paused and nobody advances: the loop does not return. *)
Lemma poll_loop_paused script :
  Forall (fun i => advance i = false) script ->
  triple (fun w => play_mode (cls w) = false /\ block_execution (cls w) = true)
    (poll_loop script) (fun _ _ => False) (fun _ _ => True).
Proof.
  induction 1 as [|i rest Hi _ IH]; intros w [Hp Hb].
  - now rewrite poll_loop_nil, Hb.
  - rewrite poll_loop_cons, Hb.
    pose proof (frame_tick_playback i false true Hi w (conj Hp Hb)) as Ht.
    destruct (frame_tick i w) as [[] w1| | |]; try exact I.
    destruct Ht as [Hp1 Hb1]. rewrite Hp1. now apply IH.
Qed.

(** When the loop returns, the blocking flag is off or the viewer plays. *)
Lemma poll_loop_armed script :
  triple (fun _ => True) (poll_loop script)
    (fun _ w => block_execution (cls w) = false \/ play_mode (cls w) = true)
    (fun _ _ => True).
Proof.
  induction script as [|i rest IH]; intros w _.
  - rewrite poll_loop_nil. destruct (block_execution (cls w)) eqn:Hb; auto.
  - rewrite poll_loop_cons. destruct (block_execution (cls w)) eqn:Hb; [| now left].
    destruct (frame_tick i w) as [[] w1| | |]; try exact I.
    destruct (play_mode (cls w1)) eqn:Hp; [now right | now apply IH].
Qed.


Lemma scene_ready_tick w :
  scene_ready (set_site tick_once w) = scene_ready w.
Proof. apply scene_ready_set_site; now intros []. Qed.

Lemma ticks_tick w :
  ready w = true -> ticks (set_site tick_once w) = S (ticks w).
Proof.
  intros (_ & p & Hp & _)%ready_true. unfold ticks, set_site. cbn.
  now rewrite Hp.
Qed.

(** One frame on a registered scene: it returns unless QUIT is clicked, and
    then the process ends with status 0 and the renderer shut. *)
Lemma frame_tick_scene t l n pm be i :
  let pm' := xorb pm (click_start_pause i) in
  let be' := if negb pm' && click_next_frame i then negb be else be in
  let after w :=
    trajectory (cls w) = t /\ last_pose (cls w) = l /\ ticks w = S n /\
    play_mode (cls w) = pm' /\ block_execution (cls w) = be' in
  triple
    (fun w => scene_ready w = true /\ trajectory (cls w) = t /\
              last_pose (cls w) = l /\ ticks w = n /\
              play_mode (cls w) = pm /\ block_execution (cls w) = be)
    (frame_tick i)
    (fun _ w => scene_ready w = true /\ click_quit i = false /\ after w)
    (fun e w => e = Exits 0 /\ click_quit i = true /\ torn_down w = true /\
                after w).
Proof.
  intros pm' be' after w (Hw & Ht & Hl & Hn & Hp & Hb).
  assert (Hr : ready w = true) by now apply scene_ready_true in Hw.
  rewrite (frame_tick_eq i w Hr).
  pose proof (gui_callback_scene i (set_site tick_once w)) as H1.
  pose proof (gui_callback_core t l (S n) i (set_site tick_once w)) as H2.
  pose proof (gui_callback_playback pm be i (set_site tick_once w)) as H3.
  rewrite <- (scene_ready_tick w) in Hw. specialize (H1 Hw).
  subst after n. cbn beta. rewrite <- (ticks_tick w Hr) in H2 |- *.
  specialize (H2 (conj Ht (conj Hl eq_refl))).
  specialize (H3 (conj Hp Hb)).
  destruct (_gui_callback i (set_site tick_once w)); tauto.
Qed.

(** On a registered scene the loop returns, keeps waiting, or ends the
    process with status 0; it never raises. *)
Lemma poll_loop_scene script :
  triple (fun w => scene_ready w = true) (poll_loop script)
    (fun _ w => scene_ready w = true)
    (fun e w => e = Waits \/ (e = Exits 0 /\ torn_down w = true)).
Proof.
  induction script as [|i rest IH]; intros w Hw.
  - rewrite poll_loop_nil. destruct (block_execution (cls w)); auto.
  - rewrite poll_loop_cons. destruct (block_execution (cls w)) eqn:Hb; [| exact Hw].
    pose proof (frame_tick_scene (trajectory (cls w)) (last_pose (cls w))
                  (ticks w) (play_mode (cls w)) true i w) as Ht.
    cbn zeta in Ht. specialize (Ht (conj Hw (conj eq_refl (conj eq_refl
      (conj eq_refl (conj eq_refl Hb)))))).
    destruct (frame_tick i w) as [[] w1| | |]; try tauto.
    destruct Ht as (Hw1 & _). destruct (play_mode (cls w1)); [exact Hw1 |].
    now apply IH.
Qed.

(** Free-running with the blocking flag set: one poll, then the loop
    returns, unless that poll pauses or quits. *)
Lemma poll_loop_playing i rest w :
  scene_ready w = true ->
  play_mode (cls w) = true -> block_execution (cls w) = true ->
  click_start_pause i = false -> click_quit i = false ->
  exists w',
    poll_loop (i :: rest) w = Ok rest w' /\ scene_ready w' = true /\
    trajectory (cls w') = trajectory (cls w) /\
    last_pose (cls w') = last_pose (cls w) /\ ticks w' = S (ticks w) /\
    play_mode (cls w') = true /\ block_execution (cls w') = true.
Proof.
  intros Hw Hp Hb Hs Hq. rewrite poll_loop_cons, Hb.
  pose proof (frame_tick_scene (trajectory (cls w)) (last_pose (cls w))
                (ticks w) true true i w) as Ht.
  cbn zeta in Ht. rewrite Hs in Ht. cbn in Ht.
  specialize (Ht (conj Hw (conj eq_refl (conj eq_refl
    (conj eq_refl (conj Hp Hb)))))).
  destruct (frame_tick i w) as [[] w1| | |]; try (exfalso; intuition congruence).
  destruct Ht as (Hw1 & _ & Ht1 & Hl1 & Hn1 & Hp1 & Hb1).
  rewrite Hp1. now exists w1.
Qed.

(** QUIT clicked while the loop polls: the process ends with status 0. *)
Lemma poll_loop_quit i rest w :
  scene_ready w = true -> block_execution (cls w) = true ->
  click_quit i = true ->
  exists w',
    poll_loop (i :: rest) w = Exit 0 w' /\ torn_down w' = true /\
    trajectory (cls w') = trajectory (cls w) /\
    last_pose (cls w') = last_pose (cls w) /\ ticks w' = S (ticks w).
Proof.
  intros Hw Hb Hq. rewrite poll_loop_cons, Hb.
  pose proof (frame_tick_scene (trajectory (cls w)) (last_pose (cls w))
                (ticks w) (play_mode (cls w)) true i w) as Ht.
  cbn zeta in Ht. specialize (Ht (conj Hw (conj eq_refl (conj eq_refl
    (conj eq_refl (conj eq_refl Hb)))))).
  destruct (frame_tick i w) as [[] w1|code w1| |];
    try (exfalso; intuition congruence).
  destruct Ht as (Hc & _ & Htd & Ht1 & Hl1 & Hn1 & _).
  injection Hc as ->. now exists w1.
Qed.

(** Paused, and the user does nothing that advances or quits: the loop
    polls again. *)
Lemma poll_loop_quiet i rest w :
  scene_ready w = true ->
  play_mode (cls w) = false -> block_execution (cls w) = true ->
  quiet i = true ->
  exists w1,
    poll_loop (i :: rest) w = poll_loop rest w1 /\ scene_ready w1 = true /\
    trajectory (cls w1) = trajectory (cls w) /\
    last_pose (cls w1) = last_pose (cls w) /\ ticks w1 = S (ticks w) /\
    play_mode (cls w1) = false /\ block_execution (cls w1) = true.
Proof.
  intros Hw Hp Hb (Hs & Hn & Hq)%quiet_true. rewrite poll_loop_cons, Hb.
  pose proof (frame_tick_scene (trajectory (cls w)) (last_pose (cls w))
                (ticks w) false true i w) as Ht.
  cbn zeta in Ht. rewrite Hs, Hn in Ht. cbn in Ht.
  specialize (Ht (conj Hw (conj eq_refl (conj eq_refl
    (conj eq_refl (conj Hp Hb)))))).
  destruct (frame_tick i w) as [[] w1| | |]; try (exfalso; intuition congruence).
  destruct Ht as (Hw1 & _ & Ht1 & Hl1 & Hn1 & Hp1 & Hb1).
  rewrite Hp1. now exists w1.
Qed.

(** Paused: after any number of quiet frames, a frame with QUIT clicked ends
    the process. *)
Lemma poll_loop_quiet_quit quiet_frames i rest w :
  Forall (fun j => quiet j = true) quiet_frames ->
  scene_ready w = true ->
  play_mode (cls w) = false -> block_execution (cls w) = true ->
  click_quit i = true ->
  exists w',
    poll_loop (quiet_frames ++ i :: rest) w = Exit 0 w' /\
    torn_down w' = true /\
    trajectory (cls w') = trajectory (cls w) /\
    last_pose (cls w') = last_pose (cls w) /\
    ticks w' = S (length quiet_frames + ticks w).
Proof.
  intros Hquiet. revert w.
  induction Hquiet as [|j js Hj _ IH]; intros w Hw Hp Hb Hq.
  - now apply poll_loop_quit.
  - destruct (poll_loop_quiet j (js ++ i :: rest) w Hw Hp Hb Hj)
      as (w1 & Heq & Hw1 & Ht1 & Hl1 & Hn1 & Hp1 & Hb1).
    destruct (IH w1 Hw1 Hp1 Hb1 Hq) as (w' & He & Htd & Ht' & Hl' & Hn').
    exists w'. cbn [app length]. rewrite Heq, He, Ht', Hl', Hn', Ht1, Hl1, Hn1.
    repeat split; auto; lia.
Qed.

End KissualizerLoop.

Section KissualizerUpdate.
Context `{NumPy} `{!Kissualizer.Registration}.
Import Kissualizer.
Implicit Types (w : World) (i : GuiInput) (script rest : list GuiInput).

(** *** The scene of a frame *)

Lemma update_scene_eq src kps lmap pose w :
  ready w = true ->
  exists w',
    update_scene src kps lmap pose w = Ok tt w' /\
    scene_ready w' = true /\
    cls w' = with_last_pose pose
               (with_trajectory (trajectory (cls w) ++ [translation pose]) (cls w)) /\
    ticks w' = ticks w /\
    cloud "current_frame" w' =
      Some {| points := src; color := FRAME_COLOR; point_render_mode := "quad";
              radius := 0.2;
              transform := if global_view (cls w) then pose else eye4;
              enabled := toggle_frame (cls w) |} /\
    cloud "keypoints" w' =
      Some {| points := kps; color := KEYPOINTS_COLOR;
              point_render_mode := "quad"; radius := 0.3;
              transform := if global_view (cls w) then pose else eye4;
              enabled := toggle_keypoints (cls w) |} /\
    cloud "local_map" w' =
      Some {| points := point_cloud lmap; color := LOCAL_MAP_COLOR;
              point_render_mode := "quad"; radius := 0.1;
              transform := if global_view (cls w) then eye4 else linalg_inv pose;
              enabled := toggle_map (cls w) |} /\
    cloud "trajectory" w' =
      Some {| points := if global_view (cls w)
                        then trajectory (cls w) ++ [translation pose]
                        else origin_cloud;
              color := TRAJECTORY_COLOR; point_render_mode := "sphere";
              radius := 0.5;
              transform := inherited_transform (cloud "trajectory" w);
              enabled := inherited_enabled (cloud "trajectory" w) |}.
Proof.
  intros Hr.
  cut (exists (b : unit) w',
    update_scene src kps lmap pose w = Ok b w' /\
    (ready w' = true /\
    cls w' = with_last_pose pose
               (with_trajectory (trajectory (cls w) ++ [translation pose]) (cls w)) /\
    ticks w' = ticks w /\
    cloud "current_frame" w' =
      Some {| points := src; color := FRAME_COLOR; point_render_mode := "quad";
              radius := 0.2;
              transform := if global_view (cls w) then pose else eye4;
              enabled := toggle_frame (cls w) |} /\
    cloud "keypoints" w' =
      Some {| points := kps; color := KEYPOINTS_COLOR;
              point_render_mode := "quad"; radius := 0.3;
              transform := if global_view (cls w) then pose else eye4;
              enabled := toggle_keypoints (cls w) |} /\
    cloud "local_map" w' =
      Some {| points := point_cloud lmap; color := LOCAL_MAP_COLOR;
              point_render_mode := "quad"; radius := 0.1;
              transform := if global_view (cls w) then eye4 else linalg_inv pose;
              enabled := toggle_map (cls w) |} /\
    cloud "trajectory" w' =
      Some {| points := if global_view (cls w)
                        then trajectory (cls w) ++ [translation pose]
                        else origin_cloud;
              color := TRAJECTORY_COLOR; point_render_mode := "sphere";
              radius := 0.5;
              transform := inherited_transform (cloud "trajectory" w);
              enabled := inherited_enabled (cloud "trajectory" w) |})).
  { intros ([] & w' & Hw' & Hr' & Hcls & Hn & Hf & Hk & Hm & Ht).
    exists w'. repeat split; try assumption.
    apply scene_ready_intro; try assumption; unfold registered;
      now rewrite ?Hf, ?Hk, ?Hm, ?Ht. }
  unfold update_scene, set_radius, set_transform, set_enabled.
  do 3 exec_step. cbn [cls put_cloud set_site].
  destruct (global_view (cls w)) eqn:Hg.
  - repeat exec_step. obs. cbn. rewrite ?Hg. now repeat split.
  - repeat exec_step. obs. cbn. rewrite ?Hg. now repeat split.
Qed.


(** *** update *)

(** [update] is the scene of the frame followed by the polling loop and the
    flip of the blocking flag. *)
Lemma update_eq self src kps lmap pose script w w1 :
  update_scene src kps lmap pose w = Ok tt w1 ->
  update self src kps lmap pose script w =
  match poll_loop script w1 with
  | Ok rest w2 =>
      Ok rest (set_cls (fun a => with_block_execution (negb (block_execution a)) a) w2)
  | Exit code w2 => Exit code w2
  | Raise e w2 => Raise e w2
  | Waiting w2 => Waiting w2
  end.
Proof.
  intros Hs. unfold update, _update_visualizer. unfold bind at 1. rewrite Hs.
  unfold bind at 1. now destruct (poll_loop script w1).
Qed.

(** Paused at entry and no Play or Step signal in the script: [update] does
    not return. *)
Lemma update_paused self src kps lmap pose script w :
  ready w = true ->
  play_mode (cls w) = false -> block_execution (cls w) = true ->
  Forall (fun i => advance i = false) script ->
  forall rest w', update self src kps lmap pose script w <> Ok rest w'.
Proof.
  intros Hr Hp Hb Hscript rest w'.
  destruct (update_scene_eq src kps lmap pose w Hr) as (w1 & Hs & _ & Hcls & _).
  rewrite (update_eq _ _ _ _ _ _ _ _ Hs).
  assert (Hpb : play_mode (cls w1) = false /\ block_execution (cls w1) = true)
    by (rewrite Hcls; cbn; auto).
  pose proof (poll_loop_paused script Hscript w1 Hpb) as Hl.
  now destruct (poll_loop script w1).
Qed.

(** Playing at entry with the blocking flag off: [update] returns without
    polling and sets the flag. *)
Lemma update_playing_free self src kps lmap pose script w :
  ready w = true ->
  play_mode (cls w) = true -> block_execution (cls w) = false ->
  exists w',
    update self src kps lmap pose script w = Ok script w' /\
    scene_ready w' = true /\ ticks w' = ticks w /\
    play_mode (cls w') = true /\ block_execution (cls w') = true.
Proof.
  intros Hr Hp Hb.
  destruct (update_scene_eq src kps lmap pose w Hr) as (w1 & Hs & Hw1 & Hcls & Hn & _).
  rewrite (update_eq _ _ _ _ _ _ _ _ Hs).
  assert (Hb1 : block_execution (cls w1) = false) by (now rewrite Hcls).
  rewrite (poll_loop_free script w1 Hb1). eexists. split; [reflexivity |].
  rewrite scene_ready_set_cls by (now intros []). obs. cbn.
  rewrite Hb1, Hcls. cbn. now repeat split.
Qed.

(** Playing at entry with the blocking flag on: one poll, and [update]
    returns unless that poll pauses or quits. *)
Lemma update_playing_tick self src kps lmap pose i rest w :
  ready w = true ->
  play_mode (cls w) = true -> block_execution (cls w) = true ->
  click_start_pause i = false -> click_quit i = false ->
  exists w',
    update self src kps lmap pose (i :: rest) w = Ok rest w' /\
    scene_ready w' = true /\ ticks w' = S (ticks w) /\
    play_mode (cls w') = true /\ block_execution (cls w') = false.
Proof.
  intros Hr Hp Hb Hi Hq.
  destruct (update_scene_eq src kps lmap pose w Hr) as (w1 & Hs & Hw1 & Hcls & Hn & _).
  rewrite (update_eq _ _ _ _ _ _ _ _ Hs).
  assert (Hp1 : play_mode (cls w1) = true) by (now rewrite Hcls).
  assert (Hb1 : block_execution (cls w1) = true) by (now rewrite Hcls).
  destruct (poll_loop_playing i rest w1 Hw1 Hp1 Hb1 Hi Hq)
    as (w2 & -> & Hw2 & _ & _ & Hn2 & Hp2 & Hb2).
  eexists. split; [reflexivity |].
  rewrite scene_ready_set_cls by (now intros []). obs. cbn.
  rewrite Hb2, Hn2, Hn. now repeat split.
Qed.

(** Whenever [update] returns, the viewer is armed for the next call and
    still ready; the frame's position is on the trajectory and its pose is
    the last pose. *)
Lemma update_returns self src kps lmap pose script w rest w' :
  ready w = true ->
  update self src kps lmap pose script w = Ok rest w' ->
  scene_ready w' = true /\ armed w' = true /\
  trajectory (cls w') = trajectory (cls w) ++ [translation pose] /\
  last_pose (cls w') = pose.
Proof.
  intros Hr.
  destruct (update_scene_eq src kps lmap pose w Hr) as (w1 & Hs & Hw1 & Hcls & Hn & _).
  rewrite (update_eq _ _ _ _ _ _ _ _ Hs).
  pose proof (poll_loop_scene script w1 Hw1) as H1.
  pose proof (poll_loop_armed script w1 I) as H2.
  pose proof (poll_loop_history (trajectory (cls w1)) (last_pose (cls w1)) script w1
                (conj eq_refl eq_refl)) as H3.
  destruct (poll_loop script w1) as [rest2 w2| | |]; try discriminate.
  intros [= <- <-]. rewrite scene_ready_set_cls by (now intros []).
  unfold armed. cbn. destruct H3 as [-> ->]. rewrite Hcls. cbn.
  repeat split; auto.
  destruct H2 as [-> | ->]; [reflexivity | apply orb_true_r].
Qed.

(** However [update] ends, the frame's position has been appended to the
    trajectory and nothing else happened to it. *)
Lemma update_history self src kps lmap pose script w :
  ready w = true ->
  trajectory (cls (world_of (update self src kps lmap pose script w))) =
  trajectory (cls w) ++ [translation pose].
Proof.
  intros Hr.
  destruct (update_scene_eq src kps lmap pose w Hr) as (w1 & Hs & Hw1 & Hcls & Hn & _).
  rewrite (update_eq _ _ _ _ _ _ _ _ Hs).
  pose proof (poll_loop_history (trajectory (cls w1)) (last_pose (cls w1)) script w1
                (conj eq_refl eq_refl)) as H3.
  destruct (poll_loop script w1) as [rest2 w2| | |]; cbn;
    destruct H3 as [-> _]; now rewrite Hcls.
Qed.

(** QUIT is clicked at the first poll of [update]. *)
Lemma update_quit self src kps lmap pose quiet_frames i rest w :
  ready w = true ->
  play_mode (cls w) = false -> block_execution (cls w) = true ->
  Forall (fun j => quiet j = true) quiet_frames ->
  click_quit i = true ->
  exists w',
    update self src kps lmap pose (quiet_frames ++ i :: rest) w = Exit 0 w' /\
    torn_down w' = true /\
    trajectory (cls w') = trajectory (cls w) ++ [translation pose] /\
    ticks w' = S (length quiet_frames + ticks w).
Proof.
  intros Hr Hp Hb Hquiet Hq.
  destruct (update_scene_eq src kps lmap pose w Hr) as (w1 & Hs & Hw1 & Hcls & Hn & _).
  rewrite (update_eq _ _ _ _ _ _ _ _ Hs).
  assert (Hp1 : play_mode (cls w1) = false) by (now rewrite Hcls).
  assert (Hb1 : block_execution (cls w1) = true) by (now rewrite Hcls).
  destruct (poll_loop_quiet_quit quiet_frames i rest w1 Hquiet Hw1 Hp1 Hb1 Hq)
    as (w' & -> & Htd & Ht & _ & Hn').
  exists w'. rewrite Ht, Hn', Hn, Hcls. now repeat split.
Qed.

End KissualizerUpdate.

(** ** Sessions *)

Section Sessions.
Context `{Viewer Self W Ev}.

Lemma session_cons self f frames script w :
  session self (f :: frames) script w =
  match viewer_update self (frame_source f) (frame_keypoints f)
          (frame_target_map f) (frame_pose f) script w with
  | Ok rest w1 => session self frames rest w1
  | Exit code w1 => Exit code w1
  | Raise e w1 => Raise e w1
  | Waiting w1 => Waiting w1
  end.
Proof. reflexivity. Qed.

(** Once the process has ended, frames that were still to come change
    nothing: no later call of [update] is made. *)
Lemma session_exit_final self frames more script w code w' :
  session self frames script w = Exit code w' ->
  session self (frames ++ more) script w = Exit code w'.
Proof.
  revert script w. induction frames as [|f frames IH]; intros script w.
  - discriminate.
  - cbn [app]. rewrite !session_cons.
    destruct (viewer_update self _ _ _ _ script w); auto.
Qed.

End Sessions.

Section KissualizerSession.
Context `{NumPy} `{!Kissualizer.Registration}.
Import Kissualizer.
Implicit Types (w : World) (i : GuiInput) (script rest : list GuiInput).

Lemma scene_ready_ready w : scene_ready w = true -> ready w = true.
Proof. now intros (Hr & _)%scene_ready_true. Qed.

Lemma session_returns self frames script w rest w' :
  ready w = true ->
  session self frames script w = Ok rest w' ->
  ready w' = true /\
  trajectory (cls w') =
  trajectory (cls w) ++ map (fun f => translation (frame_pose f)) frames.
Proof.
  revert script w. induction frames as [|f frames IH]; intros script w Hr.
  - intros [= <- <-]. now rewrite app_nil_r.
  - rewrite session_cons. cbn [viewer_update viewer].
    destruct (update self _ _ _ _ script w) as [rest1 w1| | |] eqn:Hu;
      try discriminate.
    apply update_returns in Hu as (Hw1 & _ & Ht & _); [| exact Hr].
    intros Hs. apply IH in Hs as [Hr' ->]; [| now apply scene_ready_ready].
    split; [exact Hr' |]. rewrite Ht. cbn [map]. now rewrite <- app_assoc.
Qed.

(** However a session ends, the trajectory has grown by the positions of
    the frames that were handed over, in order. *)
Lemma session_history self frames script w :
  ready w = true ->
  exists n,
    n <= length frames /\
    trajectory (cls (world_of (session self frames script w))) =
    trajectory (cls w) ++ map (fun f => translation (frame_pose f)) (take n frames).
Proof.
  revert script w. induction frames as [|f frames IH]; intros script w Hr.
  - exists 0. cbn. now rewrite app_nil_r.
  - rewrite session_cons. cbn [viewer_update viewer].
    pose proof (update_history self (frame_source f) (frame_keypoints f)
                  (frame_target_map f) (frame_pose f) script w Hr) as Hh.
    destruct (update self _ _ _ _ script w) as [rest1 w1| | |] eqn:Hu.
    + apply update_returns in Hu as (Hw1 & _ & Ht & _); [| exact Hr].
      destruct (IH rest1 w1 (scene_ready_ready _ Hw1)) as (n & Hn & ->).
      exists (S n). split; [cbn; lia |]. rewrite Ht. cbn [take map].
      now rewrite <- app_assoc.
    + exists 1. split; [cbn; lia |]. cbn in *. now rewrite take_0.
    + exists 1. split; [cbn; lia |]. cbn in *. now rewrite take_0.
    + exists 1. split; [cbn; lia |]. cbn in *. now rewrite take_0.
Qed.

(** *** Construction *)

Lemma init_missing self w name :
  site_polyscope w = None ->
  import_error w = ModuleNotFoundError name ->
  __init__ self w =
  Exit 1 {| site_polyscope := None; cls := cls w;
            stdout := stdout w ++ [install_hint "polyscope"];
            import_error := import_error w |}.
Proof. destruct w as [site a out err]. cbn. now intros -> ->. Qed.

Lemma init_raises self w :
  site_polyscope w = None ->
  (forall name, import_error w <> ModuleNotFoundError name) ->
  __init__ self w = Raise (import_error w) w.
Proof.
  destruct w as [site a out err]. cbn. intros -> Hn.
  destruct err; try reflexivity. now destruct (Hn name).
Qed.

Lemma init_present self w p :
  site_polyscope w = Some p ->
  exists w',
    __init__ self w = Ok tt w' /\ ready w' = true /\
    cls w' = with_polyscope true (cls w) /\ stdout w' = stdout w /\
    ticks w' = ticks w /\ (forall name, cloud name w' = cloud name w).
Proof.
  destruct w as [site a out]. cbn. intros ->.
  eexists. split; [reflexivity |]. now repeat split.
Qed.

End KissualizerSession.

Section RegistrationRules.
Context `{NumPy} `{!RegistrationVisualizer.Open3D}.
Import RegistrationVisualizer.

Lemma triple_for_each {A} (I : World -> Prop) (xs : list A) body E :
  (forall x, triple I (body x) (fun _ => I) E) ->
  triple I (for_each xs body) (fun _ => I) E.
Proof.
  intros Hbody. induction xs as [|x xs IH]; cbn [for_each].
  - now apply triple_ret.
  - apply inv_bind; [apply Hbody | intros _; exact IH].
Qed.

End RegistrationRules.

Ltac rv_blocks :=
  unfold keeps, runs, RegistrationVisualizer.run_callback,
    RegistrationVisualizer._quit, RegistrationVisualizer._start_stop,
    RegistrationVisualizer._next_frame, RegistrationVisualizer._toggle_view,
    RegistrationVisualizer._center_viewpoint,
    RegistrationVisualizer._toggle_source,
    RegistrationVisualizer._toggle_keypoints,
    RegistrationVisualizer._toggle_map,
    RegistrationVisualizer._toggle_trajectory,
    RegistrationVisualizer._trajectory_handle,
    RegistrationVisualizer._set_black_background,
    RegistrationVisualizer._set_white_background,
    RegistrationVisualizer.print, RegistrationVisualizer.destroy_window,
    RegistrationVisualizer.reset_view_point,
    RegistrationVisualizer.add_marker, RegistrationVisualizer.remove_marker.

Ltac rv_walk :=
  repeat first
    [ lazymatch goal with
      | |- triple _ (RegistrationVisualizer.for_each _ _) _ _ =>
          apply triple_for_each; intros ?
      end
    | walk_step ].

Ltac rv_open :=
  repeat match goal with
  | w : RegistrationVisualizer.World |- _ => destruct w as [[] ?]
  end.

Ltac rv_side :=
  intros;
  first
    [ assumption
    | rv_open; cbn in *;
      repeat match goal with H : _ /\ _ |- _ => destruct H end; subst;
      repeat match goal with b : bool |- _ => destruct b end;
      cbn in *; intuition congruence ].

Section RegistrationFacts.
Context `{NumPy} `{!RegistrationVisualizer.Open3D}.
Import RegistrationVisualizer.
Implicit Types (w : World) (cb : Callback).

(** No callback ever makes the frame cloud and the keypoints both
    visible. *)
Lemma run_callback_exclusive cb :
  keeps (fun w => render_source (this w) && render_keypoints (this w) = false)
    (run_callback cb).
Proof. destruct cb; rv_blocks; rv_walk; rv_side. Qed.

(** The callbacks leave the frame markers' list, the three point clouds and
    the key table alone. *)
Lemma run_callback_data fr src kps tgt table cb :
  keeps (fun w => frames (this w) = fr /\ source (this w) = src /\
                  keypoints (this w) = kps /\ target (this w) = tgt /\
                  key_callbacks (vis (this w)) = table)
    (run_callback cb).
Proof. destruct cb; rv_blocks; rv_walk; rv_side. Qed.


(** A callback other than [_quit] returns. *)
Lemma run_callback_returns cb :
  cb <> quit_cb -> runs (fun _ : World => True) (run_callback cb).
Proof. destruct cb; [congruence | ..]; intros _; rv_blocks; rv_walk; auto. Qed.

Lemma run_callback_runs (I : World -> Prop) cb :
  cb <> quit_cb -> keeps I (run_callback cb) -> runs I (run_callback cb).
Proof.
  intros Hcb Hk w Hw. specialize (Hk w Hw).
  pose proof (run_callback_returns cb Hcb w Logic.I) as Hr.
  now destruct (run_callback cb w).
Qed.

(** [_start_stop] and [_next_frame] are the only callbacks that touch the
    playback flags. *)
Lemma run_callback_playback pm be cb :
  cb <> start_stop_cb -> cb <> next_frame_cb ->
  keeps (fun w => play_crun (this w) = pm /\ block_vis (this w) = be)
    (run_callback cb).
Proof.
  destruct cb; try congruence; intros _ _; rv_blocks; rv_walk; rv_side.
Qed.

Lemma run_callback_play pm cb :
  cb <> start_stop_cb ->
  keeps (fun w => play_crun (this w) = pm) (run_callback cb).
Proof. destruct cb; try congruence; intros _; rv_blocks; rv_walk; rv_side. Qed.

Lemma run_callback_polls n cb :
  keeps (fun w => polls (vis (this w)) = n) (run_callback cb).
Proof. destruct cb; rv_blocks; rv_walk; rv_side. Qed.

(** *** One poll *)

(** One pass of the loop body, [poll_events] then [update_renderer], for an
    invariant that fixes the key table: it is enough that the callbacks of
    the pressed keys keep the invariant. *)
Lemma poll_keeps (I : World -> Prop) E table good keys :
  (forall w, I w -> key_callbacks (vis (this w)) = table) ->
  (forall w n, I w -> I (set_vis (vis_with_polls n) w)) ->
  (forall w n, I w -> I (set_vis (vis_with_renders n) w)) ->
  (forall cb, good cb -> triple I (run_callback cb) (fun _ => I) E) ->
  Forall (fun key => forall cb, table !! key = Some cb -> good cb) keys ->
  triple I (poll_events keys ;; update_renderer)%proc (fun _ => I) E.
Proof.
  intros Htable Hpolls Hrenders Hgood Hkeys.
  apply inv_bind; [| intros _; apply triple_modify; intros w Hw; now apply Hrenders].
  unfold poll_events. apply inv_bind.
  { apply triple_modify. intros w Hw. now apply Hpolls. }
  intros _. induction Hkeys as [|key keys Hkey _ IH]; cbn [for_each].
  - now apply triple_ret.
  - apply inv_bind; [| intros _; exact IH].
    unfold press. intros w Hw. unfold bind, gets.
    rewrite (Htable w Hw). destruct (table !! key) as [cb|] eqn:Hcb.
    + now apply (Hgood cb (Hkey cb eq_refl) w Hw).
    + exact Hw.
Qed.

(** *** The polling loop *)

Lemma rv_poll_loop_nil w :
  poll_loop [] w = if block_vis (this w) then Waiting w else Ok [] w.
Proof. cbn. unfold bind, gets. now destruct (block_vis (this w)). Qed.

Lemma rv_poll_loop_cons keys rest w :
  poll_loop (keys :: rest) w =
  if block_vis (this w) then
    match (poll_events keys ;; update_renderer)%proc w with
    | Ok _ w1 => if play_crun (this w1) then Ok rest w1 else poll_loop rest w1
    | Exit code w1 => Exit code w1
    | Raise e w1 => Raise e w1
    | Waiting w1 => Waiting w1
    end
  else Ok (keys :: rest) w.
Proof.
  cbn [poll_loop]. unfold bind at 1. unfold gets at 1.
  destruct (block_vis (this w)); [| reflexivity].
  unfold bind at 1. destruct (poll_events keys w) as [[] w1| | |] eqn:Hp.
  - unfold bind at 1. cbn [update_renderer modify].
    unfold bind at 2. rewrite Hp. cbn [update_renderer modify].
    unfold bind, gets. now destruct (play_crun _).
  - unfold bind. now rewrite Hp.
  - unfold bind. now rewrite Hp.
  - unfold bind. now rewrite Hp.
Qed.

Lemma rv_poll_loop_free script w :
  block_vis (this w) = false -> poll_loop script w = Ok script w.
Proof.
  intros Hb. destruct script; [rewrite rv_poll_loop_nil | rewrite rv_poll_loop_cons];
    now rewrite Hb.
Qed.

(** An invariant of every poll, whatever the keys, is an invariant of the
    loop. *)
Lemma rv_poll_loop_keeps (I : World -> Prop) script :
  (forall keys, keeps I (poll_events keys ;; update_renderer)%proc) ->
  keeps I (poll_loop script).
Proof.
  intros Hpoll. induction script as [|keys rest IH]; intros w Hw.
  - rewrite rv_poll_loop_nil. now destruct (block_vis (this w)).
  - rewrite rv_poll_loop_cons. destruct (block_vis (this w)); [| exact Hw].
    pose proof (Hpoll keys w Hw) as Hp.
    destruct ((poll_events keys ;; update_renderer)%proc w) as [[] w1| | |];
      try exact Hp.
    destruct (play_crun (this w1)); [exact Hp | now apply IH].
Qed.

Lemma rv_poll_loop_armed script :
  triple (fun _ => True) (poll_loop script)
    (fun _ w => block_vis (this w) = false \/ play_crun (this w) = true)
    (fun _ _ => True).
Proof.
  induction script as [|keys rest IH]; intros w _.
  - rewrite rv_poll_loop_nil. destruct (block_vis (this w)) eqn:Hb; auto.
  - rewrite rv_poll_loop_cons. destruct (block_vis (this w)) eqn:Hb; [| now left].
    destruct ((poll_events keys ;; update_renderer)%proc w) as [[] w1| | |];
      try exact Logic.I.
    destruct (play_crun (this w1)) eqn:Hp; [now right | now apply IH].
Qed.

End RegistrationFacts.

Section RegistrationScene.
Context `{NumPy} `{!RegistrationVisualizer.Open3D}.
Import RegistrationVisualizer.
Implicit Types (w : World) (cb : Callback).

(** *** Frame markers *)

Lemma remove_one_seq a n rest :
  fold_left (fun l i => remove_one i l) (seq a n) (seq a n ++ rest) = rest.
Proof.
  revert a. induction n as [|n IH]; intros a; [reflexivity |].
  cbn [seq app fold_left remove_one]. rewrite Nat.eqb_refl. apply IH.
Qed.

Lemma remove_one_nil xs :
  fold_left (fun l i => remove_one i l) xs [] = [].
Proof. induction xs as [|x xs IH]; [reflexivity | exact IH]. Qed.

Lemma for_each_add_marker xs w :
  exists w',
    for_each xs add_marker w = Ok tt w' /\
    markers (vis (this w')) = markers (vis (this w)) ++ xs /\
    w' = set_vis (vis_with_markers (markers (vis (this w')))) w.
Proof.
  revert w. induction xs as [|x xs IH]; intros w.
  - exists w. cbn. rewrite app_nil_r. repeat split. now destruct w as [[? ? ? ? ? ? ? []] ?].
  - cbn [for_each]. unfold bind. cbn [add_marker modify].
    destruct (IH (set_vis (fun v => vis_with_markers (markers v ++ [x]) v) w))
      as (w' & -> & Hm & Hw').
    exists w'. split; [reflexivity |]. split.
    + rewrite Hm. cbn. now rewrite <- app_assoc.
    + rewrite Hw' at 1. now destruct w as [[? ? ? ? ? ? ? []] ?].
Qed.

Lemma for_each_remove_marker xs w :
  exists w',
    for_each xs remove_marker w = Ok tt w' /\
    markers (vis (this w')) =
      fold_left (fun l i => remove_one i l) xs (markers (vis (this w))) /\
    w' = set_vis (vis_with_markers (markers (vis (this w')))) w.
Proof.
  revert w. induction xs as [|x xs IH]; intros w.
  - exists w. cbn. repeat split. now destruct w as [[? ? ? ? ? ? ? []] ?].
  - cbn [for_each]. unfold bind. cbn [remove_marker modify].
    destruct (IH (set_vis (fun v => vis_with_markers (remove_one x (markers v)) v) w))
      as (w' & -> & Hm & Hw').
    exists w'. split; [reflexivity |]. split.
    + rewrite Hm. reflexivity.
    + rewrite Hw' at 1. now destruct w as [[? ? ? ? ? ? ? []] ?].
Qed.

(** [_trajectory_handle] from a scene with all the markers or none of them:
    afterwards the scene has all of them if the trajectory is rendered and
    the view is global, none otherwise. *)
Lemma trajectory_handle_eq w :
  markers (vis (this w)) = all_markers w \/ markers (vis (this w)) = [] ->
  (render_trajectory (this w) && global_view (this w) = true ->
   markers (vis (this w)) = []) ->
  exists w',
    _trajectory_handle w = Ok tt w' /\ markers_shown w' /\
    w' = set_vis (vis_with_markers (markers (vis (this w')))) w.
Proof.
  intros Hm Hshow. unfold _trajectory_handle, bind, gets.
  destruct (render_trajectory (this w) && global_view (this w)) eqn:Hb.
  - destruct (for_each_add_marker (seq 0 (length (frames (this w)))) w)
      as (w' & -> & Hm' & Hw').
    exists w'. repeat split; [| exact Hw'].
    unfold markers_shown, all_markers. rewrite Hm', (Hshow eq_refl), Hw'. cbn.
    now rewrite Hb.
  - destruct (for_each_remove_marker (seq 0 (length (frames (this w)))) w)
      as (w' & -> & Hm' & Hw').
    exists w'. repeat split; [| exact Hw'].
    unfold markers_shown. rewrite Hm', Hw'. cbn. rewrite Hb.
    destruct Hm as [-> | ->].
    + unfold all_markers.
      rewrite <- (app_nil_r (seq 0 (length (frames (this w))))) at 2.
      apply remove_one_seq.
    + apply remove_one_nil.
Qed.


(** [V]: the view mode flips and the markers follow; the point clouds are
    not touched. *)
Lemma toggle_view_eq w :
  markers_shown w ->
  exists w',
    _toggle_view w = Ok tt w' /\ markers_shown w' /\
    w' = set_vis (vis_with_markers (markers (vis (this w'))))
           (set_this (fun s => with_global_view (negb (global_view s)) s) w).
Proof.
  intros Hm. unfold _toggle_view, bind. cbn [modify].
  apply trajectory_handle_eq.
  - unfold markers_shown in Hm. cbn. rewrite Hm.
    destruct (render_trajectory (this w) && global_view (this w)); auto.
  - unfold markers_shown in Hm. cbn. rewrite Hm.
    destruct (render_trajectory (this w)), (global_view (this w));
      cbn; congruence.
Qed.

(** [T] *)
Lemma toggle_trajectory_eq w :
  markers_shown w ->
  exists w',
    _toggle_trajectory w = Ok tt w' /\ markers_shown w' /\
    global_view (this w') = global_view (this w).
Proof.
  intros Hm. unfold _toggle_trajectory. unfold bind at 1. unfold gets at 1.
  destruct (global_view (this w)) eqn:Hg; cbn [negb].
  - unfold bind. cbn [modify].
    destruct (trajectory_handle_eq
                (set_this (fun s => with_render_trajectory
                                      (negb (render_trajectory s)) s) w))
      as (w' & -> & Hm' & Hw').
    + unfold markers_shown in Hm. cbn. rewrite Hm.
      destruct (render_trajectory (this w) && global_view (this w)); auto.
    + unfold markers_shown in Hm. cbn. rewrite Hm, Hg.
      destruct (render_trajectory (this w)); cbn; congruence.
    + exists w'. repeat split; [exact Hm' |]. rewrite Hw'. cbn. exact Hg.
  - exists w. now repeat split.
Qed.

Lemma run_callback_markers cb : keeps markers_shown (run_callback cb).
Proof.
  destruct cb;
    try (rv_blocks; rv_walk; intros; first [assumption |
           rv_open; unfold markers_shown, all_markers in *; cbn in *;
           repeat match goal with b : bool |- _ => destruct b end;
           cbn in *; assumption]).
  - intros w Hw. cbn [run_callback].
    destruct (toggle_view_eq w Hw) as (w' & -> & Hm' & _). exact Hm'.
  - intros w Hw. cbn [run_callback].
    destruct (toggle_trajectory_eq w Hw) as (w' & -> & Hm' & _). exact Hm'.
Qed.

(** *** The geometries of a frame *)

Lemma update_geometries_eq src kps tgt pose w :
  exists w',
    _update_geometries src kps tgt pose w = Ok tt w' /\
    stdout w' = stdout w /\
    points (source (this w')) =
      (if render_source (this w) then
         if global_view (this w) then transform_points pose src else src
       else []) /\
    points (keypoints (this w')) =
      (if render_keypoints (this w) then
         if global_view (this w) then transform_points pose kps else kps
       else []) /\
    points (target (this w')) =
      (if render_map (this w) then
         if global_view (this w) then tgt
         else transform_points (linalg_inv pose) tgt
       else []) /\
    drawn_source (vis (this w')) =
      (fun _ => source (this w')) <$> drawn_source (vis (this w)) /\
    drawn_keypoints (vis (this w')) =
      (fun _ => keypoints (this w')) <$> drawn_keypoints (vis (this w)) /\
    drawn_target (vis (this w')) =
      (fun _ => target (this w')) <$> drawn_target (vis (this w)) /\
    frames (this w') = frames (this w) ++ [marker pose] /\
    (markers_shown w -> markers_shown w') /\
    key_callbacks (vis (this w')) = key_callbacks (vis (this w)) /\
    polls (vis (this w')) = polls (vis (this w)) /\
    (block_vis (this w'), play_crun (this w')) =
      (block_vis (this w), play_crun (this w)) /\
    (render_map (this w'), render_source (this w'), render_keypoints (this w'),
     global_view (this w'), render_trajectory (this w')) =
      (render_map (this w), render_source (this w), render_keypoints (this w),
       global_view (this w), render_trajectory (this w)).
Proof.
  destruct w as [[bv pc rbb s k t fr [] rm rs rk gv rt st] out].
  unfold markers_shown, all_markers.
  destruct rs, rk, rm, gv, rt, rbb; cbn; eexists; (split; [reflexivity |]);
    cbn; repeat split; try reflexivity;
    intros ->; rewrite ?length_app; cbn; rewrite ?Nat.add_sub, ?seq_app;
    try reflexivity; rewrite ?Nat.add_1_r; try reflexivity.
Qed.

End RegistrationScene.

Lemma keeps_conj {W A} (I1 I2 : W -> Prop) (m : M W A) :
  keeps I1 m -> keeps I2 m -> keeps (fun w => I1 w /\ I2 w) m.
Proof. intros H1 H2. apply (triple_conj _ _ _ _ _ _ _ H1 H2). Qed.

Section RegistrationUpdate.
Context `{NumPy} `{!RegistrationVisualizer.Open3D}.
Import RegistrationVisualizer.
Implicit Types (w : World) (cb : Callback) (script rest : list (list Z)).

Lemma run_callback_table table cb :
  keeps (fun w => key_callbacks (vis (this w)) = table) (run_callback cb).
Proof.
  intros w Hw.
  pose proof (run_callback_data (frames (this w)) (source (this w))
                (keypoints (this w)) (target (this w)) table cb w) as Hk.
  cbn beta in Hk. specialize (Hk (conj eq_refl (conj eq_refl (conj eq_refl
    (conj eq_refl Hw))))).
  destruct (run_callback cb w); tauto.
Qed.

(** An invariant of every callback that does not depend on the counters of
    polls and renderings is an invariant of the polling loop. *)
Lemma poll_loop_invariant (I : World -> Prop) script :
  (forall cb, keeps I (run_callback cb)) ->
  (forall w n, I w -> I (set_vis (vis_with_polls n) w)) ->
  (forall w n, I w -> I (set_vis (vis_with_renders n) w)) ->
  keeps I (poll_loop script).
Proof.
  intros Hcb Hpolls Hrenders. apply rv_poll_loop_keeps. intros keys w Hw.
  pose proof (poll_keeps
    (fun w' => I w' /\ key_callbacks (vis (this w')) = key_callbacks (vis (this w)))
    (fun _ w' => I w' /\ key_callbacks (vis (this w')) = key_callbacks (vis (this w)))
    (key_callbacks (vis (this w))) (fun _ => True) keys) as Hp.
  cbn beta in Hp.
  assert (Hgoal : triple
    (fun w' => I w' /\ key_callbacks (vis (this w')) = key_callbacks (vis (this w)))
    (poll_events keys ;; update_renderer)%proc
    (fun _ w' => I w' /\ key_callbacks (vis (this w')) = key_callbacks (vis (this w)))
    (fun _ w' => I w' /\ key_callbacks (vis (this w')) = key_callbacks (vis (this w)))).
  { apply Hp.
    - now intros w' [_ Ht].
    - intros [[? ? ? ? ? ? ? []] ?] n [Hi Ht]. split; [now apply Hpolls | exact Ht].
    - intros [[? ? ? ? ? ? ? []] ?] n [Hi Ht]. split; [now apply Hrenders | exact Ht].
    - intros cb _. apply keeps_conj; [apply Hcb | apply run_callback_table].
    - apply Forall_forall. now intros. }
  specialize (Hgoal w (conj Hw eq_refl)).
  destruct ((poll_events keys ;; update_renderer)%proc w); tauto.
Qed.

(** *** update *)

Lemma rv_update_eq self src kps lmap pose script w w1 :
  _update_geometries src kps (point_cloud lmap) pose w = Ok tt w1 ->
  update self src kps lmap pose script w =
  match poll_loop script w1 with
  | Ok rest w2 =>
      Ok rest (set_this (fun s => with_block_vis (negb (block_vis s)) s) w2)
  | Exit code w2 => Exit code w2
  | Raise e w2 => Raise e w2
  | Waiting w2 => Waiting w2
  end.
Proof.
  intros Hg. unfold update. unfold bind at 1. rewrite Hg.
  unfold bind at 1. now destruct (poll_loop script w1).
Qed.

(** Keys without a Play or Step callback. *)
Lemma rv_advance_false w key :
  advance w key = false ->
  forall cb, key_callbacks (vis (this w)) !! key = Some cb ->
  cb <> start_stop_cb /\ cb <> next_frame_cb.
Proof.
  unfold advance, bound_to. intros Ha cb Hcb. rewrite Hcb in Ha.
  now destruct cb.
Qed.

(** Paused and no key with a Play or Step callback is pressed: the loop
    does not return. *)
Lemma rv_poll_loop_paused table script :
  Forall (Forall (fun key =>
    forall cb, table !! key = Some cb ->
    cb <> start_stop_cb /\ cb <> next_frame_cb)) script ->
  triple (fun w => key_callbacks (vis (this w)) = table /\
                   (play_crun (this w) = false /\ block_vis (this w) = true))
    (poll_loop script) (fun _ _ => False) (fun _ _ => True).
Proof.
  induction 1 as [|keys rest Hkeys _ IH]; intros w (Ht & Hp & Hb).
  - now rewrite rv_poll_loop_nil, Hb.
  - rewrite rv_poll_loop_cons, Hb.
    pose proof (poll_keeps
      (fun w => key_callbacks (vis (this w)) = table /\
                (play_crun (this w) = false /\ block_vis (this w) = true))
      (fun _ _ => True) table
      (fun cb => cb <> start_stop_cb /\ cb <> next_frame_cb) keys) as Hpoll.
    cbn beta in Hpoll.
    assert (Hstep : triple
      (fun w => key_callbacks (vis (this w)) = table /\
                (play_crun (this w) = false /\ block_vis (this w) = true))
      (poll_events keys ;; update_renderer)%proc
      (fun _ w => key_callbacks (vis (this w)) = table /\
                  (play_crun (this w) = false /\ block_vis (this w) = true))
      (fun _ _ => True)).
    { apply Hpoll; try exact Hkeys.
      - now intros w' [Ht' _].
      - now intros [[? ? ? ? ? ? ? []] ?] n.
      - now intros [[? ? ? ? ? ? ? []] ?] n.
      - intros cb [Hs Hn]. eapply triple_conseq;
          [ apply (keeps_conj _ _ _ (run_callback_table table cb)
                     (run_callback_playback false true cb Hs Hn))
          | auto | auto | auto ]. }
    specialize (Hstep w (conj Ht (conj Hp Hb))).
    destruct ((poll_events keys ;; update_renderer)%proc w) as [[] w1| | |];
      try exact Logic.I.
    destruct Hstep as (Ht1 & Hp1 & Hb1). rewrite Hp1. now apply IH.
Qed.

(** Playing with the blocking flag on: after one poll without a key that
    pauses or quits, the loop returns. *)
Lemma rv_poll_loop_playing keys rest w :
  play_crun (this w) = true -> block_vis (this w) = true ->
  Forall (fun key => pauses w key = false /\ quits w key = false) keys ->
  exists w',
    poll_loop (keys :: rest) w = Ok rest w' /\
    polls (vis (this w')) = S (polls (vis (this w))) /\
    play_crun (this w') = true.
Proof.
  intros Hp Hb Hkeys. rewrite rv_poll_loop_cons, Hb.
  set (table := key_callbacks (vis (this w))).
  pose proof (poll_keeps
    (fun w' => key_callbacks (vis (this w')) = table /\ play_crun (this w') = true)
    (fun _ _ => False) table
    (fun cb => cb <> start_stop_cb /\ cb <> quit_cb) keys) as Hpoll.
  cbn beta in Hpoll.
  assert (Hstep : triple
    (fun w' => key_callbacks (vis (this w')) = table /\ play_crun (this w') = true)
    (poll_events keys ;; update_renderer)%proc
    (fun _ w' => key_callbacks (vis (this w')) = table /\ play_crun (this w') = true)
    (fun _ _ => False)).
  { apply Hpoll.
    - now intros w' [Ht' _].
    - now intros [[? ? ? ? ? ? ? []] ?] n.
    - now intros [[? ? ? ? ? ? ? []] ?] n.
    - intros cb [Hs Hq]. apply run_callback_runs; [exact Hq |].
      apply keeps_conj; [apply run_callback_table | now apply run_callback_play].
    - eapply Forall_impl; [exact Hkeys |]. cbn beta.
      intros key [Hpause Hquit] cb Hcb. unfold pauses, quits, bound_to in *.
      fold table in Hpause, Hquit. rewrite Hcb in Hpause, Hquit.
      now destruct cb. }
  specialize (Hstep w (conj eq_refl Hp)).
  assert (Hpolls : triple (fun w' => polls (vis (this w')) = polls (vis (this w)))
    (poll_events keys ;; update_renderer)%proc
    (fun _ w' => polls (vis (this w')) = S (polls (vis (this w))))
    (fun _ _ => True)).
  { eapply triple_bind with
      (R := fun _ w' => polls (vis (this w')) = S (polls (vis (this w)))).
    - unfold poll_events.
      eapply triple_bind with
        (R := fun _ w' => polls (vis (this w')) = S (polls (vis (this w)))).
      + apply triple_modify. intros [[? ? ? ? ? ? ? []] ?] Hn. cbn in *. now rewrite Hn.
      + intros _.
        apply triple_conseq with
          (P' := fun w' => polls (vis (this w')) = S (polls (vis (this w))))
          (Q' := fun _ w' => polls (vis (this w')) = S (polls (vis (this w))))
          (E' := fun _ w' => polls (vis (this w')) = S (polls (vis (this w))));
          [| auto | auto | auto].
        apply triple_for_each. intros key. unfold press. intros w' Hw'.
        unfold bind, gets. destruct (key_callbacks (vis (this w')) !! key) as [cb|].
        * pose proof (run_callback_polls (S (polls (vis (this w)))) cb w' Hw') as Hk.
          now destruct (run_callback cb w').
        * exact Hw'.
    - intros _. apply triple_modify. now intros [[? ? ? ? ? ? ? []] ?]. }
  specialize (Hpolls w eq_refl).
  destruct ((poll_events keys ;; update_renderer)%proc w) as [[] w1| | |];
    try contradiction.
  destruct Hstep as [_ Hp1]. rewrite Hp1. now exists w1.
Qed.

End RegistrationUpdate.

Section RegistrationSession.
Context `{NumPy} `{!RegistrationVisualizer.Open3D}.
Import RegistrationVisualizer.
Implicit Types (w : World) (cb : Callback) (script rest : list (list Z)).

(** *** Quit *)

Lemma press_quit key w :
  quits w key = true ->
  exists w',
    press key w = Exit 0 w' /\ window (vis (this w')) = Destroyed /\
    frames (this w') = frames (this w).
Proof.
  unfold quits, bound_to, press, bind, gets. intros Hq.
  destruct (key_callbacks (vis (this w)) !! key) as [[]|]; try discriminate.
  cbn. eexists. split; [reflexivity |]. now destruct w as [[? ? ? ? ? ? ? []] ?].
Qed.

Lemma press_other key w :
  quits w key = false ->
  exists w',
    press key w = Ok tt w' /\
    key_callbacks (vis (this w')) = key_callbacks (vis (this w)) /\
    frames (this w') = frames (this w).
Proof.
  unfold quits, bound_to, press, bind, gets. intros Hq.
  destruct (key_callbacks (vis (this w)) !! key) as [cb|] eqn:Hcb;
    [| now exists w].
  assert (Hne : cb <> quit_cb) by (now destruct cb).
  pose proof (run_callback_runs _ cb Hne
                (run_callback_data (frames (this w)) (source (this w))
                   (keypoints (this w)) (target (this w))
                   (key_callbacks (vis (this w))) cb) w) as Hr.
  cbn beta in Hr. specialize (Hr (conj eq_refl (conj eq_refl (conj eq_refl
    (conj eq_refl eq_refl))))).
  destruct (run_callback cb w) as [[] w'| | |]; try contradiction.
  exists w'. tauto.
Qed.

Lemma for_each_press_quit before key after w :
  Forall (fun k => quits w k = false) before -> quits w key = true ->
  exists w',
    for_each (before ++ key :: after) press w = Exit 0 w' /\
    window (vis (this w')) = Destroyed /\ frames (this w') = frames (this w).
Proof.
  intros Hbefore. revert w Hbefore.
  induction before as [|k ks IH]; intros w Hbefore Hq; cbn [app for_each].
  - destruct (press_quit key w Hq) as (w' & Hp & Hd & Hf).
    exists w'. unfold bind. now rewrite Hp.
  - apply Forall_cons in Hbefore as [Hk Hks].
    destruct (press_other k w Hk) as (w1 & Hp & Ht & Hf).
    unfold bind. rewrite Hp.
    destruct (IH w1) as (w' & He & Hd & Hf').
    + eapply Forall_impl; [exact Hks |]. cbn beta. intros k'.
      unfold quits, bound_to. now rewrite Ht.
    + unfold quits, bound_to in *. now rewrite Ht.
    + exists w'. rewrite <- Hf, <- Hf'. now repeat split.
Qed.

(** A key with the [_quit] callback is pressed while the loop polls: the
    window is destroyed and the process ends with status 0. *)
Lemma rv_poll_loop_quit before key after rest w :
  block_vis (this w) = true ->
  Forall (fun k => quits w k = false) before -> quits w key = true ->
  exists w',
    poll_loop ((before ++ key :: after) :: rest) w = Exit 0 w' /\
    window (vis (this w')) = Destroyed /\ frames (this w') = frames (this w).
Proof.
  intros Hb Hbefore Hq. rewrite rv_poll_loop_cons, Hb.
  unfold poll_events. unfold bind at 1. unfold bind at 1. cbn [modify].
  destruct (for_each_press_quit before key after
              (set_vis (fun v => vis_with_polls (S (polls v)) v) w))
    as (w' & -> & Hd & Hf).
  - eapply Forall_impl; [exact Hbefore |]. cbn beta. intros k.
    unfold quits, bound_to. now destruct w as [[? ? ? ? ? ? ? []] ?].
  - unfold quits, bound_to in *. now destruct w as [[? ? ? ? ? ? ? []] ?].
  - exists w'. repeat split; [exact Hd |]. rewrite Hf.
    now destruct w as [[? ? ? ? ? ? ? []] ?].
Qed.

(** *** update *)

Lemma poll_loop_frames fr script :
  keeps (fun w => frames (this w) = fr) (poll_loop script).
Proof.
  apply poll_loop_invariant.
  - intros cb w Hw.
    pose proof (run_callback_data fr (source (this w)) (keypoints (this w))
                  (target (this w)) (key_callbacks (vis (this w))) cb w) as Hk.
    cbn beta in Hk. specialize (Hk (conj Hw (conj eq_refl (conj eq_refl
      (conj eq_refl eq_refl))))).
    destruct (run_callback cb w); tauto.
  - now intros [[? ? ? ? ? ? ? []] ?].
  - now intros [[? ? ? ? ? ? ? []] ?].
Qed.

Lemma poll_loop_exclusive script :
  keeps (fun w => render_source (this w) && render_keypoints (this w) = false)
    (poll_loop script).
Proof.
  apply poll_loop_invariant.
  - apply run_callback_exclusive.
  - now intros [[? ? ? ? ? ? ? []] ?].
  - now intros [[? ? ? ? ? ? ? []] ?].
Qed.

Lemma poll_loop_markers script : keeps markers_shown (poll_loop script).
Proof.
  apply poll_loop_invariant.
  - apply run_callback_markers.
  - now intros [[? ? ? ? ? ? ? []] ?].
  - now intros [[? ? ? ? ? ? ? []] ?].
Qed.

Lemma poll_loop_table table script :
  keeps (fun w => key_callbacks (vis (this w)) = table) (poll_loop script).
Proof.
  apply poll_loop_invariant.
  - apply run_callback_table.
  - now intros [[? ? ? ? ? ? ? []] ?].
  - now intros [[? ? ? ? ? ? ? []] ?].
Qed.

(** Whenever [update] returns: one marker more, the viewer armed for the
    next call, and the invariants of the scene still there. *)
Lemma rv_update_returns self src kps lmap pose script w rest w' :
  update self src kps lmap pose script w = Ok rest w' ->
  frames (this w') = frames (this w) ++ [marker pose] /\
  armed w' = true /\
  key_callbacks (vis (this w')) = key_callbacks (vis (this w)) /\
  (markers_shown w -> markers_shown w') /\
  (render_source (this w) && render_keypoints (this w) = false ->
   render_source (this w') && render_keypoints (this w') = false).
Proof.
  destruct (update_geometries_eq src kps (point_cloud lmap) pose w)
    as (w1 & Hg & _ & _ & _ & _ & _ & _ & _ & Hf & Hm & Ht & _ & _ & Hflags).
  rewrite (rv_update_eq _ _ _ _ _ _ _ _ Hg).
  pose proof (poll_loop_frames _ script w1 eq_refl) as H1.
  pose proof (rv_poll_loop_armed script w1 Logic.I) as H2.
  pose proof (poll_loop_table _ script w1 eq_refl) as H3.
  pose proof (poll_loop_markers script w1) as H4.
  pose proof (poll_loop_exclusive script w1) as H5.
  destruct (poll_loop script w1) as [rest2 w2| | |]; try discriminate.
  intros [= <- <-]. injection Hflags as _ Hrs Hrk _ _.
  destruct w2 as [[? ? ? ? ? ? ? []] ?]. unfold armed, markers_shown, all_markers in *.
  cbn in *. rewrite H1, Hf, H3, Ht, Hrs, Hrk in *. repeat split; auto.
  destruct H2 as [-> | ->]; [reflexivity | apply orb_true_r].
Qed.

(** However [update] ends, exactly one marker has been appended. *)
Lemma rv_update_history self src kps lmap pose script w :
  frames (this (world_of (update self src kps lmap pose script w))) =
  frames (this w) ++ [marker pose].
Proof.
  destruct (update_geometries_eq src kps (point_cloud lmap) pose w)
    as (w1 & Hg & _ & _ & _ & _ & _ & _ & _ & Hf & _).
  rewrite (rv_update_eq _ _ _ _ _ _ _ _ Hg).
  pose proof (poll_loop_frames _ script w1 eq_refl) as H1.
  destruct (poll_loop script w1) as [rest2 w2| | |]; cbn in *;
    now rewrite H1, Hf.
Qed.

End RegistrationSession.

Section RegistrationPlayback.
Context `{NumPy} `{!RegistrationVisualizer.Open3D}.
Import RegistrationVisualizer.
Implicit Types (w : World) (cb : Callback) (script rest : list (list Z)).

Lemma rv_update_paused self src kps lmap pose script w :
  play_crun (this w) = false -> block_vis (this w) = true ->
  Forall (Forall (fun key => advance w key = false)) script ->
  forall rest w', update self src kps lmap pose script w <> Ok rest w'.
Proof.
  intros Hp Hb Hscript rest w'.
  destruct (update_geometries_eq src kps (point_cloud lmap) pose w)
    as (w1 & Hg & _ & _ & _ & _ & _ & _ & _ & _ & _ & Ht & _ & Hpb & _).
  rewrite (rv_update_eq _ _ _ _ _ _ _ _ Hg). injection Hpb as Hb1 Hp1.
  pose proof (rv_poll_loop_paused (key_callbacks (vis (this w))) script) as Hl.
  assert (Hkeys : Forall (Forall (fun key =>
    forall cb, key_callbacks (vis (this w)) !! key = Some cb ->
    cb <> start_stop_cb /\ cb <> next_frame_cb)) script).
  { eapply Forall_impl; [exact Hscript |]. cbn beta. intros keys Hk.
    eapply Forall_impl; [exact Hk |]. cbn beta. intros key.
    apply rv_advance_false. }
  specialize (Hl Hkeys w1). cbn beta in Hl.
  rewrite Ht, Hp1, Hb1, Hp, Hb in Hl.
  specialize (Hl (conj eq_refl (conj eq_refl eq_refl))).
  now destruct (poll_loop script w1).
Qed.

Lemma rv_update_playing_free self src kps lmap pose script w :
  play_crun (this w) = true -> block_vis (this w) = false ->
  exists w',
    update self src kps lmap pose script w = Ok script w' /\
    polls (vis (this w')) = polls (vis (this w)) /\
    play_crun (this w') = true /\ block_vis (this w') = true.
Proof.
  intros Hp Hb.
  destruct (update_geometries_eq src kps (point_cloud lmap) pose w)
    as (w1 & Hg & _ & _ & _ & _ & _ & _ & _ & _ & _ & Ht & Hn & Hpb & _).
  rewrite (rv_update_eq _ _ _ _ _ _ _ _ Hg). injection Hpb as Hb1 Hp1.
  rewrite rv_poll_loop_free by (now rewrite Hb1).
  eexists. split; [reflexivity |].
  destruct w1 as [[? ? ? ? ? ? ? []] ?]. cbn in *. subst.
  now rewrite Hb, Hp.
Qed.

Lemma rv_update_playing_tick self src kps lmap pose keys rest w :
  play_crun (this w) = true -> block_vis (this w) = true ->
  Forall (fun key => pauses w key = false /\ quits w key = false) keys ->
  exists w',
    update self src kps lmap pose (keys :: rest) w = Ok rest w' /\
    polls (vis (this w')) = S (polls (vis (this w))) /\
    play_crun (this w') = true.
Proof.
  intros Hp Hb Hkeys.
  destruct (update_geometries_eq src kps (point_cloud lmap) pose w)
    as (w1 & Hg & _ & _ & _ & _ & _ & _ & _ & _ & _ & Ht & Hn & Hpb & _).
  rewrite (rv_update_eq _ _ _ _ _ _ _ _ Hg). injection Hpb as Hb1 Hp1.
  destruct (rv_poll_loop_playing keys rest w1) as (w2 & -> & Hn2 & Hp2).
  - now rewrite Hp1.
  - now rewrite Hb1.
  - eapply Forall_impl; [exact Hkeys |]. cbn beta. intros key.
    unfold pauses, quits, bound_to. now rewrite Ht.
  - eexists. split; [reflexivity |].
    destruct w2 as [[? ? ? ? ? ? ? []] ?]. cbn in *. now rewrite Hn2, Hn.
Qed.

Lemma rv_update_quit self src kps lmap pose before key after rest w :
  block_vis (this w) = true ->
  Forall (fun k => quits w k = false) before -> quits w key = true ->
  exists w',
    update self src kps lmap pose ((before ++ key :: after) :: rest) w =
      Exit 0 w' /\
    window (vis (this w')) = Destroyed /\
    frames (this w') = frames (this w) ++ [marker pose].
Proof.
  intros Hb Hbefore Hq.
  destruct (update_geometries_eq src kps (point_cloud lmap) pose w)
    as (w1 & Hg & _ & _ & _ & _ & _ & _ & _ & Hf & _ & Ht & Hn & Hpb & _).
  rewrite (rv_update_eq _ _ _ _ _ _ _ _ Hg). injection Hpb as Hb1 Hp1.
  destruct (rv_poll_loop_quit before key after rest w1) as (w' & -> & Hd & Hf').
  - now rewrite Hb1.
  - eapply Forall_impl; [exact Hbefore |]. cbn beta. intros k.
    unfold quits, bound_to. now rewrite Ht.
  - unfold quits, bound_to in *. now rewrite Ht.
  - exists w'. now rewrite Hf', Hf.
Qed.

(** *** Sessions *)

Lemma rv_session_returns self fs script w rest w' :
  session self fs script w = Ok rest w' ->
  frames (this w') = frames (this w) ++ map (fun f => marker (frame_pose f)) fs.
Proof.
  revert script w. induction fs as [|f fs IH]; intros script w.
  - intros [= <- <-]. now rewrite app_nil_r.
  - rewrite session_cons. cbn [viewer_update viewer].
    destruct (update self _ _ _ _ script w) as [rest1 w1| | |] eqn:Hu;
      try discriminate.
    apply rv_update_returns in Hu as (Hf & _).
    intros Hs. apply IH in Hs as ->. rewrite Hf. cbn [map].
    now rewrite <- app_assoc.
Qed.

Lemma rv_session_history self fs script w :
  exists n,
    n <= length fs /\
    frames (this (world_of (session self fs script w))) =
    frames (this w) ++ map (fun f => marker (frame_pose f)) (take n fs).
Proof.
  revert script w. induction fs as [|f fs IH]; intros script w.
  - exists 0. cbn. now rewrite app_nil_r.
  - rewrite session_cons. cbn [viewer_update viewer].
    pose proof (rv_update_history self (frame_source f) (frame_keypoints f)
                  (frame_target_map f) (frame_pose f) script w) as Hh.
    destruct (update self _ _ _ _ script w) as [rest1 w1| | |] eqn:Hu.
    + apply rv_update_returns in Hu as (Hf & _).
      destruct (IH rest1 w1) as (n & Hn & ->).
      exists (S n). split; [cbn; lia |]. rewrite Hf. cbn [take map].
      now rewrite <- app_assoc.
    + exists 1. split; [cbn; lia |]. cbn in *. now rewrite take_0.
    + exists 1. split; [cbn; lia |]. cbn in *. now rewrite take_0.
    + exists 1. split; [cbn; lia |]. cbn in *. now rewrite take_0.
Qed.

(** *** Construction *)

Lemma rv_init_missing out :
  __init__ false out = Exit 1 (out ++ [install_hint "open3d"]).
Proof. reflexivity. Qed.

Lemma rv_init_present out :
  exists w,
    __init__ true out = Ok w (stdout w) /\
    visibility w = (true, false) /\
    (render_map (this w), global_view (this w), render_trajectory (this w)) =
      (true, false, true) /\
    (block_vis (this w), play_crun (this w)) = (true, false) /\
    frames (this w) = [] /\ markers (vis (this w)) = [] /\
    map (fun key => bound_to key w) [256; 81; 27; 32; 78; 86; 67; 70; 75; 77; 84; 66; 87]%Z =
      map Some [quit_cb; quit_cb; quit_cb; start_stop_cb; next_frame_cb;
                toggle_view_cb; center_viewpoint_cb; toggle_source_cb;
                toggle_keypoints_cb; toggle_map_cb; toggle_trajectory_cb;
                set_black_background_cb; set_white_background_cb].
Proof. eexists. split; [reflexivity |]. now vm_compute. Qed.

End RegistrationPlayback.

Section KissualizerEndings.
Context `{NumPy} `{!Kissualizer.Registration}.
Import Kissualizer.
Implicit Types (w : World) (i : GuiInput) (script rest : list GuiInput).

(** On a constructed viewer [update] returns, keeps waiting, or ends the
    process with status 0 after [unshow]; it never raises. *)
Lemma update_endings self src kps lmap pose script w :
  ready w = true ->
  match update self src kps lmap pose script w with
  | Ok _ w' => scene_ready w' = true
  | Exit code w' => code = 0%Z /\ torn_down w' = true
  | Raise _ _ => False
  | Waiting _ => True
  end.
Proof.
  intros Hr.
  destruct (update_scene_eq src kps lmap pose w Hr) as (w1 & Hs & Hw1 & _).
  rewrite (update_eq _ _ _ _ _ _ _ _ Hs).
  pose proof (poll_loop_scene script w1 Hw1) as Hl.
  destruct (poll_loop script w1) as [rest w2|code w2|e w2|w2].
  - now rewrite scene_ready_set_cls by (now intros []).
  - destruct Hl as [Hl | [Hl Htd]]; [discriminate |]. now injection Hl as ->.
  - destruct Hl as [Hl | [Hl _]]; discriminate.
  - exact I.
Qed.

Lemma session_endings self frames script w :
  ready w = true ->
  match session self frames script w with
  | Ok _ w' => ready w' = true
  | Exit code w' => code = 0%Z /\ torn_down w' = true
  | Raise _ _ => False
  | Waiting _ => True
  end.
Proof.
  revert script w. induction frames as [|f frames IH]; intros script w Hr.
  - exact Hr.
  - rewrite session_cons. cbn [viewer_update viewer].
    pose proof (update_endings self (frame_source f) (frame_keypoints f)
                  (frame_target_map f) (frame_pose f) script w Hr) as Hu.
    destruct (update self _ _ _ _ script w) as [rest w1| | |]; try exact Hu.
    apply IH. now apply scene_ready_ready.
Qed.

(** QUIT clicked at the first poll of [update], playing or paused. *)
Lemma update_quit_now self src kps lmap pose i rest w :
  ready w = true -> block_execution (cls w) = true -> click_quit i = true ->
  exists w',
    update self src kps lmap pose (i :: rest) w = Exit 0 w' /\
    torn_down w' = true /\
    trajectory (cls w') = trajectory (cls w) ++ [translation pose] /\
    ticks w' = S (ticks w).
Proof.
  intros Hr Hb Hq.
  destruct (update_scene_eq src kps lmap pose w Hr) as (w1 & Hs & Hw1 & Hcls & Hn & _).
  rewrite (update_eq _ _ _ _ _ _ _ _ Hs).
  assert (Hb1 : block_execution (cls w1) = true) by (now rewrite Hcls).
  destruct (poll_loop_quit i rest w1 Hw1 Hb1 Hq) as (w' & -> & Htd & Ht & _ & Hn').
  exists w'. rewrite Ht, Hn', Hn, Hcls. now repeat split.
Qed.

Lemma init_keeps self w :
  trajectory (cls (world_of (__init__ self w))) = trajectory (cls w) /\
  last_pose (cls (world_of (__init__ self w))) = last_pose (cls w) /\
  (play_mode (cls (world_of (__init__ self w))),
   block_execution (cls (world_of (__init__ self w))),
   global_view (cls (world_of (__init__ self w)))) =
  (play_mode (cls w), block_execution (cls w), global_view (cls w)).
Proof.
  destruct (site_polyscope w) as [p|] eqn:Hp.
  - destruct (init_present self w p Hp) as (w' & Hi & _ & Hc & _).
    rewrite Hi. cbn [world_of]. rewrite Hc. now cbn.
  - destruct (import_error w) as [| |name|] eqn:He;
      try (rewrite init_raises; [now cbn | exact Hp | now rewrite He]).
    now rewrite (init_missing self w name Hp He).
Qed.

End KissualizerEndings.

(** ** The claims *)

Section Claims.
Context `{NumPy} `{!Kissualizer.Registration}
  `{!RegistrationVisualizer.Open3D}.

(** C1 (transform rule per update).  Every call of [update] first lays out
    the frame.  Polyscope backend: the frame cloud and the keypoints are
    given the identity transform in ego view and [pose] in global view, the
    map [inverse(pose)] in ego view and the identity in global view.  Open3d
    backend: a geometry that is rendered holds the frame's points moved by
    [pose] in global view and as they came in ego view, the map being moved
    by [inverse(pose)] in ego view and left as it came in global view; a
    geometry that is not rendered is emptied. *)
Theorem transform_rule_per_update :
  (forall self src kps lmap pose script (w : Kissualizer.World),
     Kissualizer.ready w = true ->
     exists w1,
       Kissualizer.update_scene src kps lmap pose w = Ok tt w1 /\
       Kissualizer.update self src kps lmap pose script w =
         Kissualizer._update_visualizer self script w1 /\
       Kissualizer.transform_of "current_frame" w1 =
         Some (if Kissualizer.global_view (Kissualizer.cls w) then pose
               else eye4) /\
       Kissualizer.transform_of "keypoints" w1 =
         Some (if Kissualizer.global_view (Kissualizer.cls w) then pose
               else eye4) /\
       Kissualizer.transform_of "local_map" w1 =
         Some (if Kissualizer.global_view (Kissualizer.cls w) then eye4
               else linalg_inv pose)) /\
  (forall self src kps lmap pose script (w : RegistrationVisualizer.World),
     exists w1,
       RegistrationVisualizer._update_geometries src kps (point_cloud lmap)
         pose w = Ok tt w1 /\
       RegistrationVisualizer.update self src kps lmap pose script w =
         (rest <~ RegistrationVisualizer.poll_loop script ;;
          modify (RegistrationVisualizer.set_this (fun s =>
            RegistrationVisualizer.with_block_vis
              (negb (RegistrationVisualizer.block_vis s)) s)) ;;
          ret rest)%proc w1 /\
       RegistrationVisualizer.points
         (RegistrationVisualizer.source (RegistrationVisualizer.this w1)) =
         (if RegistrationVisualizer.render_source (RegistrationVisualizer.this w)
          then
            if RegistrationVisualizer.global_view (RegistrationVisualizer.this w)
            then RegistrationVisualizer.transform_points pose src
            else src
          else []) /\
       RegistrationVisualizer.points
         (RegistrationVisualizer.keypoints (RegistrationVisualizer.this w1)) =
         (if RegistrationVisualizer.render_keypoints (RegistrationVisualizer.this w)
          then
            if RegistrationVisualizer.global_view (RegistrationVisualizer.this w)
            then RegistrationVisualizer.transform_points pose kps
            else kps
          else []) /\
       RegistrationVisualizer.points
         (RegistrationVisualizer.target (RegistrationVisualizer.this w1)) =
         (if RegistrationVisualizer.render_map (RegistrationVisualizer.this w)
          then
            if RegistrationVisualizer.global_view (RegistrationVisualizer.this w)
            then point_cloud lmap
            else RegistrationVisualizer.transform_points (linalg_inv pose)
                   (point_cloud lmap)
          else [])).
Proof.
  split.
  - intros self src kps lmap pose script w Hr.
    destruct (update_scene_eq src kps lmap pose w Hr)
      as (w1 & Hs & _ & _ & _ & Hf & Hk & Hm & _).
    exists w1. unfold Kissualizer.transform_of. rewrite Hf, Hk, Hm.
    repeat split; try reflexivity; [exact Hs |].
    unfold Kissualizer.update, bind. now rewrite Hs.
  - intros self src kps lmap pose script w.
    destruct (update_geometries_eq src kps (point_cloud lmap) pose w)
      as (w1 & Hg & _ & Hs & Hk & Ht & _).
    exists w1. repeat split; try assumption.
    unfold RegistrationVisualizer.update. unfold bind at 1. now rewrite Hg.
Qed.

(** C2 (trajectory monotonicity).  A session of N calls of [update] that
    all return leaves the trajectory extended by the translation components
    of the N poses, in call order, whatever the view mode, the toggles and
    the clicks of the user; started on the empty trajectory of a new
    process it has exactly N entries.  However a session ends, the old
    trajectory is a prefix of the new one.  In the open3d backend the
    history is the list of frame markers, one sphere moved by the pose per
    call. *)
Theorem trajectory_monotonicity :
  (forall self frames script (w : Kissualizer.World),
     Kissualizer.ready w = true ->
     (forall rest w',
        Kissualizer.run self frames script w = Ok rest w' ->
        Kissualizer.trajectory (Kissualizer.cls w') =
          Kissualizer.trajectory (Kissualizer.cls w) ++
          map (fun f => translation (frame_pose f)) frames /\
        (Kissualizer.trajectory (Kissualizer.cls w) = [] ->
         length (Kissualizer.trajectory (Kissualizer.cls w')) = length frames)) /\
     (exists n,
        n <= length frames /\
        Kissualizer.trajectory
          (Kissualizer.cls (world_of (Kissualizer.run self frames script w))) =
          Kissualizer.trajectory (Kissualizer.cls w) ++
          map (fun f => translation (frame_pose f)) (take n frames))) /\
  (forall site self,
     Kissualizer.trajectory
       (Kissualizer.cls
          (world_of (Kissualizer.__init__ self (Kissualizer.boot site)))) = []) /\
  (forall self frames script (w : RegistrationVisualizer.World),
     (forall rest w',
        RegistrationVisualizer.run self frames script w = Ok rest w' ->
        RegistrationVisualizer.frames (RegistrationVisualizer.this w') =
          RegistrationVisualizer.frames (RegistrationVisualizer.this w) ++
          map (fun f => RegistrationVisualizer.marker (frame_pose f)) frames) /\
     (exists n,
        n <= length frames /\
        RegistrationVisualizer.frames
          (RegistrationVisualizer.this
             (world_of (RegistrationVisualizer.run self frames script w))) =
          RegistrationVisualizer.frames (RegistrationVisualizer.this w) ++
          map (fun f => RegistrationVisualizer.marker (frame_pose f))
            (take n frames))).
Proof.
  split; [| split].
  - intros self frames script w Hr. split.
    + intros rest w' Hs.
      destruct (session_returns self frames script w rest w' Hr Hs) as [_ Ht].
      split; [exact Ht |]. intros Hnil. rewrite Ht, Hnil. cbn.
      now rewrite length_map.
    + now apply session_history.
  - intros site self.
    destruct (init_keeps self (Kissualizer.boot site)) as [-> _]. reflexivity.
  - intros self frames script w. split.
    + intros rest w'. apply rv_session_returns.
    + apply rv_session_history.
Qed.

(** C4, amended (frame cloud against keypoints, open3d backend).  With the
    frame cloud visible, the keypoints toggle leaves the keypoints visible
    and the frame cloud hidden: exactly one of the two.  Applying the
    keypoints toggle twice gives back the visibility it started from exactly
    when the frame cloud was hidden at the start; applying the frame-cloud
    toggle twice, exactly when the keypoints were hidden at the start.  The
    map toggle applied twice always gives it back. *)
Theorem visibility_toggles :
  forall w : RegistrationVisualizer.World,
    returned (RegistrationVisualizer._toggle_keypoints w) = Some tt /\
    returned (RegistrationVisualizer._toggle_source w) = Some tt /\
    (RegistrationVisualizer.render_source (RegistrationVisualizer.this w) = true ->
     RegistrationVisualizer.visibility
       (world_of (RegistrationVisualizer._toggle_keypoints w)) = (false, true)) /\
    (RegistrationVisualizer.visibility
       (world_of
          ((RegistrationVisualizer._toggle_keypoints ;;
            RegistrationVisualizer._toggle_keypoints)%proc w)) =
       RegistrationVisualizer.visibility w <->
     RegistrationVisualizer.render_source (RegistrationVisualizer.this w) = false) /\
    (RegistrationVisualizer.visibility
       (world_of
          ((RegistrationVisualizer._toggle_source ;;
            RegistrationVisualizer._toggle_source)%proc w)) =
       RegistrationVisualizer.visibility w <->
     RegistrationVisualizer.render_keypoints (RegistrationVisualizer.this w) = false) /\
    RegistrationVisualizer.render_map
      (RegistrationVisualizer.this
         (world_of
            ((RegistrationVisualizer._toggle_map ;;
              RegistrationVisualizer._toggle_map)%proc w))) =
      RegistrationVisualizer.render_map (RegistrationVisualizer.this w).
Proof.
  intros [[bv pc rbb src kps tgt fr v rm rs rk gv rt st] out].
  unfold RegistrationVisualizer.visibility. cbn.
  destruct rs, rk, rm; cbn; repeat split; intros; congruence.
Qed.

(** C5, amended (switch of the reference mode).  Polyscope backend: the
    GLOBAL VIEW button flips [global_view]; it gives the frame cloud and the
    keypoints [last_pose] and the map the identity when the view becomes
    global, and the identity and [inverse(last_pose)] when it becomes ego;
    the trajectory cloud is enabled exactly in global view.  Open3d backend:
    the [V] key flips [global_view] and touches no point cloud (the next
    [update] draws them in the new frame); the frame markers are put in the
    scene when the view becomes global and the trajectory is rendered, and
    taken out otherwise. *)
Theorem reference_mode_switch :
  (forall i (w : Kissualizer.World),
     Kissualizer.scene_ready w = true ->
     Kissualizer.click_global_view i = true ->
     Kissualizer.view_is
       (negb (Kissualizer.global_view (Kissualizer.cls w)))
       (Kissualizer.last_pose (Kissualizer.cls w))
       (world_of (Kissualizer._gui_callback i w))) /\
  (forall w : RegistrationVisualizer.World,
     RegistrationVisualizer.markers_shown w ->
     let w' := world_of (RegistrationVisualizer._toggle_view w) in
     returned (RegistrationVisualizer._toggle_view w) = Some tt /\
     RegistrationVisualizer.global_view (RegistrationVisualizer.this w') =
       negb (RegistrationVisualizer.global_view (RegistrationVisualizer.this w)) /\
     RegistrationVisualizer.markers
       (RegistrationVisualizer.vis (RegistrationVisualizer.this w')) =
       (if RegistrationVisualizer.render_trajectory (RegistrationVisualizer.this w)
           && negb (RegistrationVisualizer.global_view
                      (RegistrationVisualizer.this w))
        then RegistrationVisualizer.all_markers w else []) /\
     (RegistrationVisualizer.source (RegistrationVisualizer.this w'),
      RegistrationVisualizer.keypoints (RegistrationVisualizer.this w'),
      RegistrationVisualizer.target (RegistrationVisualizer.this w')) =
     (RegistrationVisualizer.source (RegistrationVisualizer.this w),
      RegistrationVisualizer.keypoints (RegistrationVisualizer.this w),
      RegistrationVisualizer.target (RegistrationVisualizer.this w))).
Proof.
  split.
  - intros i w Hw Hclick.
    apply (triple_world_of _ _ _ w
             (gui_callback_global_view
                (Kissualizer.global_view (Kissualizer.cls w))
                (Kissualizer.last_pose (Kissualizer.cls w)) i Hclick)).
    now repeat split.
  - intros w Hm w'. subst w'.
    destruct (toggle_view_eq w Hm) as (w' & -> & Hm' & Hw').
    cbn [returned world_of]. split; [reflexivity |].
    unfold RegistrationVisualizer.markers_shown,
      RegistrationVisualizer.all_markers in *.
    rewrite Hm'. rewrite Hw'. now destruct w as [[? ? ? ? ? ? ? []] ?].
Qed.

(** C6 (quit terminality).  When the poll of [update] processes a Quit
    signal (the QUIT button; a key bound to [_quit]), the renderer is shut
    ([unshow]; [destroy_window]) and the process ends with status 0:
    [update] does not return.  A session that has ended stays ended whatever
    frames were still to come, so no later geometry update happens.  On a
    constructed polyscope viewer a session can end the process in no other
    way and never raises. *)
Theorem quit_terminality :
  (forall self src kps lmap pose quiet_frames i rest (w : Kissualizer.World),
     Kissualizer.ready w = true ->
     Kissualizer.block_execution (Kissualizer.cls w) = true ->
     Kissualizer.click_quit i = true ->
     quiet_frames = [] \/
     (Kissualizer.play_mode (Kissualizer.cls w) = false /\
      Forall (fun j => Kissualizer.quiet j = true) quiet_frames) ->
     let r := Kissualizer.update self src kps lmap pose
                (quiet_frames ++ i :: rest) w in
     exit_status r = Some 0%Z /\ Kissualizer.torn_down (world_of r) = true /\
     Kissualizer.trajectory (Kissualizer.cls (world_of r)) =
       Kissualizer.trajectory (Kissualizer.cls w) ++ [translation pose]) /\
  (forall self frames script (w : Kissualizer.World),
     Kissualizer.ready w = true ->
     match Kissualizer.run self frames script w with
     | Exit code w' => code = 0%Z /\ Kissualizer.torn_down w' = true
     | Raise _ _ => False
     | Ok _ _ | Waiting _ => True
     end) /\
  (forall self frames more script (w : Kissualizer.World) code w',
     Kissualizer.run self frames script w = Exit code w' ->
     Kissualizer.run self (frames ++ more) script w = Exit code w') /\
  (forall self src kps lmap pose before key after rest
          (w : RegistrationVisualizer.World),
     RegistrationVisualizer.block_vis (RegistrationVisualizer.this w) = true ->
     Forall (fun k => RegistrationVisualizer.quits w k = false) before ->
     RegistrationVisualizer.quits w key = true ->
     let r := RegistrationVisualizer.update self src kps lmap pose
                ((before ++ key :: after) :: rest) w in
     exit_status r = Some 0%Z /\
     RegistrationVisualizer.window
       (RegistrationVisualizer.vis (RegistrationVisualizer.this (world_of r))) =
       RegistrationVisualizer.Destroyed /\
     RegistrationVisualizer.frames (RegistrationVisualizer.this (world_of r)) =
       RegistrationVisualizer.frames (RegistrationVisualizer.this w) ++
       [RegistrationVisualizer.marker pose]) /\
  (forall self frames more script (w : RegistrationVisualizer.World) code w',
     RegistrationVisualizer.run self frames script w = Exit code w' ->
     RegistrationVisualizer.run self (frames ++ more) script w = Exit code w').
Proof.
  split; [| split; [| split; [| split]]].
  - intros self src kps lmap pose quiet_frames i rest w Hr Hb Hq Hquiet r.
    subst r. destruct Hquiet as [-> | [Hp Hquiet]].
    + cbn [app].
      destruct (update_quit_now self src kps lmap pose i rest w Hr Hb Hq)
        as (w' & -> & Htd & Ht & _). now repeat split.
    + destruct (update_quit self src kps lmap pose quiet_frames i rest w
                  Hr Hp Hb Hquiet Hq) as (w' & -> & Htd & Ht & _).
      now repeat split.
  - intros self frames script w Hr.
    pose proof (session_endings self frames script w Hr) as He.
    unfold Kissualizer.run.
    now destruct (session self frames script w).
  - intros self frames more script w code w'. apply session_exit_final.
  - intros self src kps lmap pose before key after rest w Hb Hbefore Hq r.
    subst r.
    destruct (rv_update_quit self src kps lmap pose before key after rest w
                Hb Hbefore Hq) as (w' & -> & Hd & Hf).
    now repeat split.
  - intros self frames more script w code w'. apply session_exit_final.
Qed.

(** C8 (the stub is a no-op).  [StubVisualizer.update] returns at once for
    every input, in every world: it leaves the world as it is, polls nothing
    (the script comes back whole), and it is an instance of the same
    interface as the two viewers; a whole session on the stub changes
    nothing either. *)
Theorem stub_update_is_a_no_op :
  forall (W Ev : Type) self src kps lmap pose (script : list Ev) (w : W),
    StubVisualizer.update self src kps lmap pose script w = Ok script w /\
    viewer_update (Viewer := StubVisualizer.viewer) self src kps lmap pose
      script w = Ok script w /\
    forall frames, StubVisualizer.run self frames script w = Ok script w.
Proof.
  intros W Ev self src kps lmap pose script w.
  split; [reflexivity |]. split; [reflexivity |].
  intros frames. induction frames as [|f frames IH]; [reflexivity | exact IH].
Qed.

(** C9 (open3d backend: the frame cloud and the keypoints are never both
    visible).  A new viewer shows the frame cloud and hides the keypoints.
    From that visibility, after any finite sequence of key callbacks (the
    two toggles among them) [render_source] and [render_keypoints] are not
    both true, and a call of [update] keeps that; pressing the keypoints
    toggle twice reaches the state where both are false. *)
Theorem source_and_keypoints_never_both_visible :
  (forall out, exists w,
     RegistrationVisualizer.__init__ true out =
       Ok w (RegistrationVisualizer.stdout w) /\
     RegistrationVisualizer.visibility w = (true, false)) /\
  (forall w : RegistrationVisualizer.World,
     RegistrationVisualizer.visibility w = (true, false) ->
     (forall callbacks,
        let w' := world_of
                    (RegistrationVisualizer.for_each callbacks
                       RegistrationVisualizer.run_callback w) in
        RegistrationVisualizer.render_source (RegistrationVisualizer.this w') &&
        RegistrationVisualizer.render_keypoints (RegistrationVisualizer.this w') =
        false) /\
     (forall self src kps lmap pose script,
        let w' := world_of
                    (RegistrationVisualizer.update self src kps lmap pose
                       script w) in
        RegistrationVisualizer.render_source (RegistrationVisualizer.this w') &&
        RegistrationVisualizer.render_keypoints (RegistrationVisualizer.this w') =
        false) /\
     RegistrationVisualizer.visibility
       (world_of
          (RegistrationVisualizer.for_each
             [RegistrationVisualizer.toggle_keypoints_cb;
              RegistrationVisualizer.toggle_keypoints_cb]
             RegistrationVisualizer.run_callback w)) = (false, false)).
Proof.
  split.
  - intros out. destruct (rv_init_present out) as (w & Hw & Hv & _).
    exists w. split; assumption.
  - intros w Hv. unfold RegistrationVisualizer.visibility in Hv.
    injection Hv as Hs Hk.
    assert (Hx : RegistrationVisualizer.render_source (RegistrationVisualizer.this w) &&
                 RegistrationVisualizer.render_keypoints (RegistrationVisualizer.this w) =
                 false) by (now rewrite Hs, Hk).
    split; [| split].
    + intros callbacks w'. subst w'.
      apply (triple_world_of _ _ _ w
               (triple_for_each _ callbacks _ _
                  (fun cb => run_callback_exclusive cb)) Hx).
    + intros self src kps lmap pose script w'. subst w'.
      destruct (update_geometries_eq src kps (point_cloud lmap) pose w)
        as (w1 & Hg & _ & _ & _ & _ & _ & _ & _ & _ & _ & _ & _ & _ & Hflags).
      rewrite (rv_update_eq _ _ _ _ _ _ _ _ Hg).
      injection Hflags as _ Hrs Hrk _ _.
      pose proof (poll_loop_exclusive script w1) as Hl. cbn beta in Hl.
      rewrite Hrs, Hrk in Hl. specialize (Hl Hx).
      destruct (RegistrationVisualizer.poll_loop script w1)
        as [rest w2| | |]; exact Hl.
    + destruct w as [[bv pc rbb src kps tgt fr v rm rs rk gv rt st] out].
      cbn in *. now subst.
Qed.

(** C10 (class-level state of the polyscope backend).  [update] called on
    an instance [v1] appends to the trajectory, and overwrites the last
    pose, that any instance [v2] reads, because both are attributes of the
    class; and constructing an instance leaves the trajectory, the last
    pose and the playback and view flags as they are. *)
Theorem class_level_shared_state :
  (forall v1 v2 src kps lmap pose script (w : Kissualizer.World) rest w',
     Kissualizer.ready w = true ->
     Kissualizer.update v1 src kps lmap pose script w = Ok rest w' ->
     Kissualizer.trajectory_seen_by v2 w' =
       Kissualizer.trajectory_seen_by v2 w ++ [translation pose] /\
     Kissualizer.last_pose_seen_by v2 w' = pose /\
     Kissualizer.trajectory_seen_by v1 w' = Kissualizer.trajectory_seen_by v2 w') /\
  (forall v (w : Kissualizer.World),
     let w' := world_of (Kissualizer.__init__ v w) in
     Kissualizer.trajectory_seen_by v w' = Kissualizer.trajectory (Kissualizer.cls w) /\
     Kissualizer.last_pose_seen_by v w' = Kissualizer.last_pose (Kissualizer.cls w) /\
     (Kissualizer.play_mode (Kissualizer.cls w'),
      Kissualizer.block_execution (Kissualizer.cls w'),
      Kissualizer.global_view (Kissualizer.cls w')) =
     (Kissualizer.play_mode (Kissualizer.cls w),
      Kissualizer.block_execution (Kissualizer.cls w),
      Kissualizer.global_view (Kissualizer.cls w))).
Proof.
  split.
  - intros v1 v2 src kps lmap pose script w rest w' Hr Hu.
    apply update_returns in Hu as (_ & _ & Ht & Hl); [| exact Hr].
    unfold Kissualizer.trajectory_seen_by, Kissualizer.last_pose_seen_by.
    now repeat split.
  - intros v w w'. subst w'. apply init_keeps.
Qed.

End Claims.

(** Witness of C2: the two frames of the scenario, the user clicking
    NEXT FRAME at each. *)
Lemma trajectory_monotonicity_witness :
  Kissualizer.ready kiss_viewer = true /\
  returned
    (@Kissualizer.run numpy_Z persistent_values (Kissualizer.instance_at 0)
       [frame_1; frame_2] [click_next; click_next] kiss_viewer) = Some [] /\
  Kissualizer.trajectory
    (Kissualizer.cls
       (world_of
          (@Kissualizer.run numpy_Z persistent_values
             (Kissualizer.instance_at 0) [frame_1; frame_2]
             [click_next; click_next] kiss_viewer))) =
  [(0, 0, 0); (1, 0, 0)]%Z.
Proof.
  assert (Hrun :
    returned
      (@Kissualizer.run numpy_Z persistent_values (Kissualizer.instance_at 0)
         [frame_1; frame_2] [click_next; click_next] kiss_viewer) = Some [])
    by (vm_compute; reflexivity).
  split; [reflexivity |]. split; [exact Hrun |].
  destruct (@trajectory_monotonicity numpy_Z persistent_values open3d_Z)
    as [HK _].
  destruct (HK (Kissualizer.instance_at 0) [frame_1; frame_2]
              [click_next; click_next] kiss_viewer eq_refl) as [Hret _].
  destruct (Hret [] _ (returned_world_of _ _ Hrun)) as [-> _].
  reflexivity.
Defined.

(** Witness of C1: the second frame of the scenario in ego view. *)
Lemma transform_rule_per_update_witness :
  Kissualizer.ready kiss_viewer = true /\
  Kissualizer.transform_of "current_frame"
    (world_of
       (@Kissualizer.update_scene numpy_Z persistent_values three_points
          [(1, 0, 0)%Z] small_map (translate 1 0 0) kiss_viewer)) =
    Some (translate 0 0 0) /\
  Kissualizer.transform_of "local_map"
    (world_of
       (@Kissualizer.update_scene numpy_Z persistent_values three_points
          [(1, 0, 0)%Z] small_map (translate 1 0 0) kiss_viewer)) =
    Some (translate (-1) 0 0).
Proof.
  split; [reflexivity |].
  destruct (@transform_rule_per_update numpy_Z persistent_values open3d_Z)
    as [HK _].
  destruct (HK (Kissualizer.instance_at 0) three_points [(1, 0, 0)%Z] small_map
              (translate 1 0 0) [] kiss_viewer eq_refl)
    as (w1 & Hs & _ & Hf & _ & Hm).
  rewrite Hs. cbn [world_of]. rewrite Hf, Hm. split; reflexivity.
Defined.

(** The claim C3 as stated fails: a viewer that plays skips the poll on
    every second call of [update], and a START/PAUSE click during the poll
    of a playing viewer makes [update] wait for the next signal. *)
Lemma play_mode_poll_counterexample :
  let update := @Kissualizer.update numpy_Z persistent_values
                  (Kissualizer.instance_at 0) three_points [] small_map
                  (@eye4 numpy_Z) in
  let w1 := world_of (update [click_start] kiss_viewer) in
  let w2 := world_of (update [Kissualizer.idle] w1) in
  Kissualizer.play_mode (Kissualizer.cls w1) = true /\
  returned (update [Kissualizer.idle] w1) = Some [Kissualizer.idle] /\
  Kissualizer.ticks w2 = Kissualizer.ticks w1 /\
  Kissualizer.play_mode (Kissualizer.cls w2) = true /\
  returned (update [click_start; Kissualizer.idle] w2) = None.
Proof.
  vm_compute. repeat split.
Defined.

(** The claim C4 as stated fails: from the visibility of a new viewer,
    the keypoints toggle applied twice hides both. *)
Lemma toggle_keypoints_twice_counterexample :
  RegistrationVisualizer.visibility registration_viewer = (true, false) /\
  RegistrationVisualizer.visibility
    (world_of
       ((RegistrationVisualizer._toggle_keypoints ;;
         RegistrationVisualizer._toggle_keypoints)%proc registration_viewer)) =
    (false, false).
Proof.
  vm_compute. split; reflexivity.
Defined.

(** Witness of C4: the keypoints toggle on a new viewer. *)
Lemma visibility_toggles_witness :
  RegistrationVisualizer.render_source
    (RegistrationVisualizer.this registration_viewer) = true /\
  RegistrationVisualizer.visibility
    (world_of (RegistrationVisualizer._toggle_keypoints registration_viewer)) =
    (false, true).
Proof.
  split; [reflexivity |].
  destruct (@visibility_toggles numpy_Z registration_viewer)
    as (_ & _ & Hk & _).
  apply Hk. reflexivity.
Defined.

(** The claim C5 as stated fails on the open3d backend.  During the first
    frame (pose: one step along x) the user goes to global view, hides the
    trajectory, comes back to ego view and steps.  The [V] key then switches
    to global view, and the frame cloud is where it was, not moved by the
    pose, and the frame marker is not in the scene. *)
Lemma toggle_view_open3d_counterexample :
  let first :=
    @RegistrationVisualizer.update numpy_Z open3d_Z tt three_points []
      small_map (translate 1 0 0) [[KEY_V; KEY_T; KEY_V; KEY_N]]
      registration_viewer in
  let w := world_of first in
  let w' := world_of (RegistrationVisualizer._toggle_view w) in
  returned first = Some [] /\
  RegistrationVisualizer.global_view (RegistrationVisualizer.this w) = false /\
  RegistrationVisualizer.global_view (RegistrationVisualizer.this w') = true /\
  RegistrationVisualizer.points
    (RegistrationVisualizer.source (RegistrationVisualizer.this w')) =
    three_points /\
  @RegistrationVisualizer.transform_points numpy_Z open3d_Z (translate 1 0 0)
    three_points = [(2, 0, 0); (1, 1, 0); (1, 0, 1)]%Z /\
  length (RegistrationVisualizer.frames (RegistrationVisualizer.this w')) = 1 /\
  RegistrationVisualizer.markers
    (RegistrationVisualizer.vis (RegistrationVisualizer.this w')) = [].
Proof.
  vm_compute. repeat split.
Defined.

(** Witness of C5: the GLOBAL VIEW button after the first frame of the
    scenario. *)
Lemma reference_mode_switch_witness :
  let w := world_of
             (@Kissualizer.update_scene numpy_Z persistent_values three_points
                [(1, 0, 0)%Z] small_map (translate 1 0 0) kiss_viewer) in
  Kissualizer.scene_ready w = true /\
  Kissualizer.click_global_view click_view = true /\
  @Kissualizer.view_is numpy_Z true (translate 1 0 0)
    (world_of (Kissualizer._gui_callback click_view w)).
Proof.
  assert (Hw : Kissualizer.scene_ready
                 (world_of
                    (@Kissualizer.update_scene numpy_Z persistent_values
                       three_points [(1, 0, 0)%Z] small_map (translate 1 0 0)
                       kiss_viewer)) = true) by (vm_compute; reflexivity).
  split; [exact Hw |]. split; [reflexivity |].
  destruct (@reference_mode_switch numpy_Z) as [HK _].
  exact (HK click_view _ Hw eq_refl).
Defined.

(** Witness of C6: the user idles for a frame and then clicks QUIT. *)
Lemma quit_terminality_witness :
  Kissualizer.ready kiss_viewer = true /\
  Kissualizer.block_execution (Kissualizer.cls kiss_viewer) = true /\
  Kissualizer.click_quit click_exit = true /\
  exit_status
    (@Kissualizer.update numpy_Z persistent_values (Kissualizer.instance_at 0)
       three_points [] small_map (@eye4 numpy_Z)
       ([Kissualizer.idle] ++ click_exit :: [click_next]) kiss_viewer) =
    Some 0%Z.
Proof.
  split; [reflexivity |]. split; [reflexivity |]. split; [reflexivity |].
  destruct (@quit_terminality numpy_Z persistent_values open3d_Z) as [HK _].
  refine (proj1 (HK (Kissualizer.instance_at 0) three_points [] small_map
                   (@eye4 numpy_Z) [Kissualizer.idle] click_exit [click_next]
                   kiss_viewer eq_refl eq_refl eq_refl _)).
  right. split; [reflexivity |]. repeat constructor.
Defined.

(** Witness of C9: three presses on a new viewer. *)
Lemma source_and_keypoints_never_both_visible_witness :
  RegistrationVisualizer.visibility registration_viewer = (true, false) /\
  RegistrationVisualizer.render_source
    (RegistrationVisualizer.this
       (world_of
          (RegistrationVisualizer.for_each
             [RegistrationVisualizer.toggle_keypoints_cb;
              RegistrationVisualizer.toggle_source_cb;
              RegistrationVisualizer.toggle_keypoints_cb]
             RegistrationVisualizer.run_callback registration_viewer))) &&
  RegistrationVisualizer.render_keypoints
    (RegistrationVisualizer.this
       (world_of
          (RegistrationVisualizer.for_each
             [RegistrationVisualizer.toggle_keypoints_cb;
              RegistrationVisualizer.toggle_source_cb;
              RegistrationVisualizer.toggle_keypoints_cb]
             RegistrationVisualizer.run_callback registration_viewer))) =
  false.
Proof.
  split; [reflexivity |].
  destruct (@source_and_keypoints_never_both_visible numpy_Z open3d_Z)
    as [_ HR].
  destruct (HR registration_viewer eq_refl) as [Hseq _].
  exact (Hseq [RegistrationVisualizer.toggle_keypoints_cb;
               RegistrationVisualizer.toggle_source_cb;
               RegistrationVisualizer.toggle_keypoints_cb]).
Defined.

(** Witness of C10: [update] through one instance, read through another. *)
Lemma class_level_shared_state_witness :
  Kissualizer.ready kiss_viewer = true /\
  returned
    (@Kissualizer.update numpy_Z persistent_values (Kissualizer.instance_at 1)
       three_points [] small_map (translate 1 0 0) [click_next] kiss_viewer) =
    Some [] /\
  Kissualizer.trajectory_seen_by (Kissualizer.instance_at 2)
    (world_of
       (@Kissualizer.update numpy_Z persistent_values
          (Kissualizer.instance_at 1) three_points [] small_map
          (translate 1 0 0) [click_next] kiss_viewer)) = [(1, 0, 0)%Z].
Proof.
  assert (Hrun :
    returned
      (@Kissualizer.update numpy_Z persistent_values
         (Kissualizer.instance_at 1) three_points [] small_map
         (translate 1 0 0) [click_next] kiss_viewer) = Some [])
    by (vm_compute; reflexivity).
  split; [reflexivity |]. split; [exact Hrun |].
  destruct (@class_level_shared_state numpy_Z persistent_values) as [HK _].
  destruct (HK (Kissualizer.instance_at 1) (Kissualizer.instance_at 2)
              three_points [] small_map (translate 1 0 0) [click_next]
              kiss_viewer [] _ eq_refl (returned_world_of _ _ Hrun))
    as [-> _].
  reflexivity.
Defined.

(** * Further properties *)

(** ** Invariants of the polyscope viewer *)

Section KissualizerInvariants.
Context `{NumPy} `{!Kissualizer.Registration}.
Import Kissualizer.
Implicit Types (w : World) (I : World -> Prop) (i : GuiInput)
  (script rest : list GuiInput).

Lemma frame_tick_keeps I i :
  (forall w, I w -> I (set_site tick_once w)) ->
  keeps I (_gui_callback i) -> keeps I (frame_tick i).
Proof.
  intros Htick Hcb. unfold frame_tick, count_frame_tick. apply keeps_bind.
  - apply triple_call; [intros; now apply Htick | auto].
  - intros _. apply keeps_bind; [apply triple_the_polyscope; auto |].
    intros p. now apply keeps_when.
Qed.

Lemma poll_loop_keeps I script :
  (forall i, keeps I (frame_tick i)) -> keeps I (poll_loop script).
Proof.
  intros Htick. induction script as [|i rest IH]; intros w Hw.
  - rewrite poll_loop_nil. now destruct (block_execution (cls w)).
  - rewrite poll_loop_cons. destruct (block_execution (cls w)); [| exact Hw].
    pose proof (Htick i w Hw) as Ht.
    destruct (frame_tick i w) as [[] w1| | |]; try exact Ht.
    destruct (play_mode (cls w1)); [exact Ht | now apply IH].
Qed.

(** What holds after the scene of a frame and is kept by the panel holds
    however [update] ends. *)
Lemma update_establishes I self src kps lmap pose script w w1 :
  update_scene src kps lmap pose w = Ok tt w1 -> I w1 ->
  (forall w, I w -> I (set_site tick_once w)) ->
  (forall i, keeps I (_gui_callback i)) ->
  (forall w f, I w -> I (set_cls (fun a => with_block_execution (f a) a) w)) ->
  I (world_of (update self src kps lmap pose script w)).
Proof.
  intros Hs Hw1 Htick Hcb Hflip. rewrite (update_eq _ _ _ _ _ _ _ _ Hs).
  pose proof (poll_loop_keeps I script
                (fun i => frame_tick_keeps I i Htick (Hcb i)) w1 Hw1) as Hl.
  destruct (poll_loop script w1) as [rest w2| | |]; cbn [world_of];
    [now apply Hflip | exact Hl ..].
Qed.

Lemma cloud_data_put_cloud name handle f c w o :
  cloud handle w = Some c ->
  points (f c) = points c -> color (f c) = color c ->
  point_render_mode (f c) = point_render_mode c -> radius (f c) = radius c ->
  cloud_data name w = o -> cloud_data name (put_cloud handle (f c) w) = o.
Proof.
  intros Hc Hp Hcol Hm Hr <-. unfold cloud_data. rewrite cloud_put_cloud.
  unfold cloud in *. destruct (site_polyscope w) as [p|]; [| discriminate].
  destruct (decide (handle = name)) as [<-|]; [| reflexivity].
  rewrite Hc. cbn. now rewrite Hp, Hcol, Hm, Hr.
Qed.

End KissualizerInvariants.

Ltac data_side :=
  intros;
  first
    [ assumption
    | unfold cloud_data in *; obs; assumption
    | eapply cloud_data_put_cloud; [eassumption | reflexivity .. | assumption] ].

Section KissualizerData.
Context `{NumPy} `{!Kissualizer.Registration}.
Import Kissualizer.
Implicit Types (w : World) (I : World -> Prop) (i : GuiInput)
  (script rest : list GuiInput).

(** The panel changes the transform and the visibility of a structure,
    never its points, colour, render mode or radius. *)
Lemma gui_callback_data name o i :
  keeps (fun w => cloud_data name w = o) (_gui_callback i).
Proof. panel_blocks. walk; data_side. Qed.

End KissualizerData.

Section KissualizerPublished.
Context `{NumPy} `{!Kissualizer.Registration}.
Import Kissualizer.
Implicit Types (w : World) (I : World -> Prop) (i : GuiInput)
  (script rest : list GuiInput).

(** X1 (what a frame publishes, polyscope backend).  However [update] ends
    on a constructed viewer (it returns, the user quits, or it is still
    polling), the four structures hold what this call registered: the frame
    cloud the source points, the keypoints cloud the keypoints, the map
    cloud the points of the local map, each with its colour, the "quad"
    render mode and the radius 0.2, 0.3 and 0.1; the trajectory cloud, as
    spheres of radius 0.5, holds the whole trajectory with the position of
    this frame when the view was global at the call and the single point
    [[0, 0, 0]] when it was ego.  Nothing the user does at the panel
    during the polls changes these. *)
Theorem update_publishes_the_frame self src kps lmap pose script w :
  ready w = true ->
  let w' := world_of (update self src kps lmap pose script w) in
  cloud_data "current_frame" w' = Some (src, FRAME_COLOR, "quad", 0.2%Q) /\
  cloud_data "keypoints" w' = Some (kps, KEYPOINTS_COLOR, "quad", 0.3%Q) /\
  cloud_data "local_map" w' =
    Some (point_cloud lmap, LOCAL_MAP_COLOR, "quad", 0.1%Q) /\
  cloud_data "trajectory" w' =
    Some (if global_view (cls w)
          then trajectory (cls w) ++ [translation pose] else origin_cloud,
          TRAJECTORY_COLOR, "sphere", 0.5%Q).
Proof.
  intros Hr w'. subst w'.
  destruct (update_scene_eq src kps lmap pose w Hr)
    as (w1 & Hs & _ & _ & _ & Hf & Hk & Hm & Ht).
  repeat split.
  all: apply (update_establishes (fun w => cloud_data _ w = _) _ _ _ _ _ _ _ _ Hs);
    [ unfold cloud_data; rewrite ?Hf, ?Hk, ?Hm, ?Ht; reflexivity
    | intros w2 Hw2; unfold cloud_data in *; now obs
    | intros i; apply gui_callback_data
    | intros w2 f Hw2; unfold cloud_data in *; now obs ].
Qed.

(** X2 (the two playback buttons).  One pass of the panel callback, in any
    state and whatever else is clicked: START/PAUSE flips [play_mode];
    NEXT FRAME flips [block_execution] only if the viewer is paused once
    START/PAUSE has been processed.  So NEXT FRAME does nothing while the
    viewer plays, and clicked together with START/PAUSE it does nothing
    when that click starts playing and steps when that click pauses. *)
Theorem playback_buttons i w :
  let w' := world_of (_gui_callback i w) in
  play_mode (cls w') = xorb (play_mode (cls w)) (click_start_pause i) /\
  block_execution (cls w') =
    (if negb (play_mode (cls w')) && click_next_frame i
     then negb (block_execution (cls w)) else block_execution (cls w)).
Proof.
  intros w'. subst w'.
  pose proof (triple_world_of _ _ _ w
                (gui_callback_playback (play_mode (cls w))
                   (block_execution (cls w)) i) (conj eq_refl eq_refl))
    as [Hp Hb].
  cbn beta in Hp, Hb. now rewrite Hp, Hb.
Qed.

End KissualizerPublished.

(** Witness of X1: the first frame of the scenario, the user stepping. *)
Lemma update_publishes_the_frame_witness :
  Kissualizer.ready kiss_viewer = true /\
  cloud_data "current_frame"
    (world_of
       (@Kissualizer.update numpy_Z persistent_values
          (Kissualizer.instance_at 0) three_points [(1, 0, 0)%Z] small_map
          (translate 1 0 0) [click_next] kiss_viewer)) =
    Some (three_points, FRAME_COLOR, "quad", 0.2%Q).
Proof.
  split; [reflexivity |].
  exact (proj1 (@update_publishes_the_frame numpy_Z persistent_values
                  (Kissualizer.instance_at 0) three_points [(1, 0, 0)%Z]
                  small_map (translate 1 0 0) [click_next] kiss_viewer
                  eq_refl)).
Defined.

Section KissualizerCheckboxes.
Context `{NumPy} `{!Kissualizer.Registration}.
Import Kissualizer.
Implicit Types (w : World) (I : World -> Prop) (i : GuiInput)
  (script rest : list GuiInput).

Lemma get_on_cloud_eq name f c w :
  ready w = true -> cloud name w = Some c ->
  (h <~ get_point_cloud name ;; on_cloud h f)%proc w =
  Ok tt (put_cloud name (f c) w).
Proof.
  intros Hr Hc. unfold bind at 1.
  rewrite get_point_cloud_eq by (try exact Hr; unfold registered; now rewrite Hc).
  now apply on_cloud_eq.
Qed.

(** The three checkboxes: each one that is clicked flips its flag and gives
    the new value to its cloud. *)
Lemma toggle_buttons_eq i w cf ck cm :
  ready w = true ->
  cloud "current_frame" w = Some cf -> cloud "keypoints" w = Some ck ->
  cloud "local_map" w = Some cm ->
  exists w',
    toggle_buttons i w = Ok tt w' /\
    ready w' = true /\
    cls w' =
      with_toggle_map (xorb (toggle_map (cls w)) (click_local_map i))
        (with_toggle_keypoints
           (xorb (toggle_keypoints (cls w)) (click_keypoints i))
           (with_toggle_frame
              (xorb (toggle_frame (cls w)) (click_frame_cloud i)) (cls w))) /\
    cloud "current_frame" w' =
      Some (if click_frame_cloud i
            then with_enabled (negb (toggle_frame (cls w))) cf else cf) /\
    cloud "keypoints" w' =
      Some (if click_keypoints i
            then with_enabled (negb (toggle_keypoints (cls w))) ck else ck) /\
    cloud "local_map" w' =
      Some (if click_local_map i
            then with_enabled (negb (toggle_map (cls w))) cm else cm) /\
    cloud "trajectory" w' = cloud "trajectory" w.
Proof.
  intros Hr Hcf Hck Hcm.
  cut (exists (b : unit) w',
    toggle_buttons i w = Ok b w' /\
    (ready w' = true /\
    cls w' =
      with_toggle_map (xorb (toggle_map (cls w)) (click_local_map i))
        (with_toggle_keypoints
           (xorb (toggle_keypoints (cls w)) (click_keypoints i))
           (with_toggle_frame
              (xorb (toggle_frame (cls w)) (click_frame_cloud i)) (cls w))) /\
    cloud "current_frame" w' =
      Some (if click_frame_cloud i
            then with_enabled (negb (toggle_frame (cls w))) cf else cf) /\
    cloud "keypoints" w' =
      Some (if click_keypoints i
            then with_enabled (negb (toggle_keypoints (cls w))) ck else ck) /\
    cloud "local_map" w' =
      Some (if click_local_map i
            then with_enabled (negb (toggle_map (cls w))) cm else cm) /\
    cloud "trajectory" w' = cloud "trajectory" w)).
  { intros ([] & w' & Hw'). now exists w'. }
  unfold toggle_buttons, set_enabled, Checkbox.
  destruct (click_frame_cloud i), (click_keypoints i), (click_local_map i);
    cbn [fst snd when];
    repeat first
      [ eapply exec_bind;
          [eapply get_on_cloud_eq; obs; first [eassumption | reflexivity] |]; obs
      | eapply exec_last;
          [eapply get_on_cloud_eq; obs; first [eassumption | reflexivity] |]
      | exec_step ];
    obs; cbn; rewrite ?xorb_true_r, ?xorb_false_r; now repeat split.
Qed.

End KissualizerCheckboxes.

Ltac sync_part :=
  unfold checkboxes_applied, Kissualizer.enabled_of in *;
  repeat match goal with H : _ /\ _ |- _ => destruct H end;
  try match goal with
      | Hs : Kissualizer.scene_ready _ = true |- _ =>
          pose proof (scene_ready_ready _ Hs)
      end;
  repeat match goal with
         | Hc : Kissualizer.cloud ?h ?w = Some _,
           Hx : _ <$> Kissualizer.cloud ?h ?w = _ |- _ => rewrite Hc in Hx
         end;
  obs; cbn in *; intuition congruence.

Ltac sync_side :=
  intros;
  repeat match goal with H : _ /\ _ |- _ => destruct H end;
  first
    [ match goal with |- False => scene_side end
    | split; [scene_side | sync_part] ].

Section KissualizerSync.
Context `{NumPy} `{!Kissualizer.Registration}.
Import Kissualizer.
Implicit Types (w : World) (I : World -> Prop) (i : GuiInput)
  (script rest : list GuiInput).

Lemma gui_callback_checkboxes tf tk tm i :
  let after :=
    checkboxes_at (xorb tf (click_frame_cloud i)) (xorb tk (click_keypoints i))
      (xorb tm (click_local_map i)) in
  triple (checkboxes_at tf tk tm) (_gui_callback i)
    (fun _ => after) (fun _ => after).
Proof.
  intros after. unfold _gui_callback.
  do 3 (eapply triple_bind with (R := fun _ => checkboxes_at tf tk tm);
        [ apply runs_triple; unfold checkboxes_at; panel_blocks; walk; sync_side
        | intros _ ]).
  eapply triple_bind with
    (R := fun _ => checkboxes_at (xorb tf (click_frame_cloud i))
                     (xorb tk (click_keypoints i)) (xorb tm (click_local_map i))).
  { intros w (Hw & (Hf & Hk & Hm) & Hflags).
    pose proof Hw as (Hr & Hcf & Hck & Hcm & Hct)%scene_ready_true.
    apply registered_cloud in Hcf as [cf Hcf].
    apply registered_cloud in Hck as [ck Hck].
    apply registered_cloud in Hcm as [cm Hcm].
    destruct (toggle_buttons_eq i w cf ck cm Hr Hcf Hck Hcm)
      as (w' & -> & Hr' & Hcls & Hcf' & Hck' & Hcm' & Hct').
    injection Hflags as <- <- <-.
    unfold enabled_of in Hf, Hk, Hm. rewrite Hcf in Hf. rewrite Hck in Hk.
    rewrite Hcm in Hm. cbn in Hf, Hk, Hm.
    injection Hf as Hf. injection Hk as Hk. injection Hm as Hm.
    split; [| split].
    - apply scene_ready_intro; try assumption; unfold registered;
        rewrite ?Hcf', ?Hck', ?Hcm', ?Hct'; try reflexivity.
      apply registered_cloud in Hct as [ct ->]. reflexivity.
    - unfold checkboxes_applied, enabled_of. rewrite Hcf', Hck', Hcm', Hcls.
      cbn. rewrite <- Hf, <- Hk, <- Hm.
      now destruct (click_frame_cloud i), (click_keypoints i),
        (click_local_map i), (enabled cf), (enabled ck), (enabled cm).
    - now rewrite Hcls. }
  intros _.
  do 2 (eapply triple_bind with
          (R := fun _ => checkboxes_at (xorb tf (click_frame_cloud i))
                           (xorb tk (click_keypoints i))
                           (xorb tm (click_local_map i)));
        [ apply runs_triple; unfold checkboxes_at; panel_blocks; walk; sync_side
        | intros _ ]).
  unfold after, checkboxes_at. panel_blocks. walk.
  all: intros; repeat match goal with H : _ /\ _ |- _ => destruct H end;
    first [ assumption | split; [scene_side | sync_part] | split; assumption].
Qed.

Lemma gui_callback_keeps_checkboxes i :
  keeps (fun w => scene_ready w = true /\ checkboxes_applied w)
    (_gui_callback i).
Proof.
  intros w [Hw Hc].
  pose proof (gui_callback_checkboxes (toggle_frame (cls w))
                (toggle_keypoints (cls w)) (toggle_map (cls w)) i w
                (conj Hw (conj Hc eq_refl))) as Hcb.
  unfold checkboxes_at in Hcb.
  destruct (_gui_callback i w); tauto.
Qed.

(** X3 (the three checkboxes).  On a scene with its structures in which
    each of the frame cloud, the keypoints and the map is shown exactly
    when its checkbox is ticked, one pass of the panel callback flips the
    flags of the checkboxes that are clicked, leaves the others, and again
    each cloud is shown exactly when its checkbox is ticked.  [update]
    restores this on every frame: however it ends on a constructed viewer,
    the visibility of the three clouds is the state of their checkboxes. *)
Theorem checkboxes_drive_visibility :
  (forall i w,
     scene_ready w = true -> checkboxes_applied w ->
     let w' := world_of (_gui_callback i w) in
     checkboxes_applied w' /\
     toggle_frame (cls w') = xorb (toggle_frame (cls w)) (click_frame_cloud i) /\
     toggle_keypoints (cls w') =
       xorb (toggle_keypoints (cls w)) (click_keypoints i) /\
     toggle_map (cls w') = xorb (toggle_map (cls w)) (click_local_map i)) /\
  (forall self src kps lmap pose script w,
     ready w = true ->
     checkboxes_applied (world_of (update self src kps lmap pose script w))).
Proof.
  split.
  - intros i w Hw Hc w'. subst w'.
    pose proof (triple_world_of _ _ _ w
                  (gui_callback_checkboxes (toggle_frame (cls w))
                     (toggle_keypoints (cls w)) (toggle_map (cls w)) i)
                  (conj Hw (conj Hc eq_refl))) as (_ & Hc' & Hflags).
    injection Hflags as Hf Hk Hm. split; [exact Hc' | now repeat split].
  - intros self src kps lmap pose script w Hr.
    destruct (update_scene_eq src kps lmap pose w Hr)
      as (w1 & Hs & Hw1 & Hcls & _ & Hf & Hk & Hm & _).
    apply (update_establishes
             (fun w => scene_ready w = true /\ checkboxes_applied w)
             _ _ _ _ _ _ _ _ Hs).
    + split; [exact Hw1 |].
      unfold checkboxes_applied, enabled_of. now rewrite Hf, Hk, Hm, Hcls.
    + intros w2 [Hw2 Hc2]. split; [now rewrite scene_ready_tick |].
      unfold checkboxes_applied, enabled_of in *. obs. exact Hc2.
    + apply gui_callback_keeps_checkboxes.
    + intros w2 f [Hw2 Hc2].
      split; [now rewrite scene_ready_set_cls by (now intros []) |].
      unfold checkboxes_applied, enabled_of in *. obs. exact Hc2.
Qed.

End KissualizerSync.

(** Witness of X3: the user unticks "Keypoints" during the first frame. *)
Lemma checkboxes_drive_visibility_witness :
  Kissualizer.ready kiss_viewer = true /\
  Kissualizer.enabled_of "keypoints"
    (world_of
       (@Kissualizer.update numpy_Z persistent_values
          (Kissualizer.instance_at 0) three_points [(1, 0, 0)%Z] small_map
          (translate 1 0 0)
          [{| Kissualizer.click_start_pause := false;
              Kissualizer.click_next_frame := true;
              Kissualizer.click_center_viewpoint := false;
              Kissualizer.click_frame_cloud := false;
              Kissualizer.click_keypoints := true;
              Kissualizer.click_local_map := false;
              Kissualizer.edit_background_color := None;
              Kissualizer.click_global_view := false;
              Kissualizer.click_quit := false |}] kiss_viewer)) = Some false.
Proof.
  split; [reflexivity |].
  destruct (@checkboxes_drive_visibility numpy_Z persistent_values) as [_ HU].
  destruct (HU (Kissualizer.instance_at 0) three_points [(1, 0, 0)%Z]
              small_map (translate 1 0 0)
              [{| Kissualizer.click_start_pause := false;
                  Kissualizer.click_next_frame := true;
                  Kissualizer.click_center_viewpoint := false;
                  Kissualizer.click_frame_cloud := false;
                  Kissualizer.click_keypoints := true;
                  Kissualizer.click_local_map := false;
                  Kissualizer.edit_background_color := None;
                  Kissualizer.click_global_view := false;
                  Kissualizer.click_quit := false |}] kiss_viewer eq_refl)
    as (_ & -> & _).
  vm_compute. reflexivity.
Defined.

Section KissualizerStepping.
Context `{NumPy} `{!Kissualizer.Registration}.
Import Kissualizer.
Implicit Types (w : World) (I : World -> Prop) (i : GuiInput)
  (script rest : list GuiInput).

Lemma steps_true i :
  steps i = true ->
  click_next_frame i = true /\ click_start_pause i = false /\
  click_quit i = false.
Proof.
  unfold steps, calm.
  now destruct (click_next_frame i), (click_start_pause i), (click_quit i).
Qed.

Lemma calm_true i :
  calm i = true -> click_start_pause i = false /\ click_quit i = false.
Proof. unfold calm. now destruct (click_start_pause i), (click_quit i). Qed.

(** Paused, and NEXT FRAME is clicked: the loop returns after this poll,
    with the blocking flag off. *)
Lemma poll_loop_step i rest w :
  scene_ready w = true ->
  play_mode (cls w) = false -> block_execution (cls w) = true ->
  steps i = true ->
  exists w',
    poll_loop (i :: rest) w = Ok rest w' /\ scene_ready w' = true /\
    ticks w' = S (ticks w) /\
    play_mode (cls w') = false /\ block_execution (cls w') = false.
Proof.
  intros Hw Hp Hb (Hn & Hs & Hq)%steps_true. rewrite poll_loop_cons, Hb.
  pose proof (frame_tick_scene (trajectory (cls w)) (last_pose (cls w))
                (ticks w) false true i w) as Ht.
  cbn zeta in Ht. rewrite Hs, Hn in Ht. cbn in Ht.
  specialize (Ht (conj Hw (conj eq_refl (conj eq_refl
    (conj eq_refl (conj Hp Hb)))))).
  destruct (frame_tick i w) as [[] w1| | |]; try (exfalso; intuition congruence).
  destruct Ht as (Hw1 & _ & Ht1 & Hl1 & Hn1 & Hp1 & Hb1).
  rewrite Hp1, (poll_loop_free rest w1 Hb1). now exists w1.
Qed.

Lemma poll_loop_quiet_step quiet_frames i rest w :
  Forall (fun j => quiet j = true) quiet_frames ->
  scene_ready w = true ->
  play_mode (cls w) = false -> block_execution (cls w) = true ->
  steps i = true ->
  exists w',
    poll_loop (quiet_frames ++ i :: rest) w = Ok rest w' /\
    scene_ready w' = true /\
    ticks w' = S (length quiet_frames + ticks w) /\
    play_mode (cls w') = false /\ block_execution (cls w') = false.
Proof.
  intros Hquiet. revert w.
  induction Hquiet as [|j js Hj _ IH]; intros w Hw Hp Hb Hi.
  - now apply poll_loop_step.
  - destruct (poll_loop_quiet j (js ++ i :: rest) w Hw Hp Hb Hj)
      as (w1 & Heq & Hw1 & _ & _ & Hn1 & Hp1 & Hb1).
    destruct (IH w1 Hw1 Hp1 Hb1 Hi) as (w' & He & Hw' & Hn' & Hp' & Hb').
    exists w'. cbn [app length]. rewrite Heq, He, Hn', Hn1.
    repeat split; auto; lia.
Qed.

Lemma update_step self src kps lmap pose quiet_frames i rest w :
  ready w = true ->
  play_mode (cls w) = false -> block_execution (cls w) = true ->
  Forall (fun j => quiet j = true) quiet_frames ->
  steps i = true ->
  exists w',
    update self src kps lmap pose (quiet_frames ++ i :: rest) w = Ok rest w' /\
    scene_ready w' = true /\
    ticks w' = S (length quiet_frames + ticks w) /\
    play_mode (cls w') = false /\ block_execution (cls w') = true.
Proof.
  intros Hr Hp Hb Hquiet Hi.
  destruct (update_scene_eq src kps lmap pose w Hr)
    as (w1 & Hs & Hw1 & Hcls & Hn & _).
  rewrite (update_eq _ _ _ _ _ _ _ _ Hs).
  assert (Hp1 : play_mode (cls w1) = false) by (now rewrite Hcls).
  assert (Hb1 : block_execution (cls w1) = true) by (now rewrite Hcls).
  destruct (poll_loop_quiet_step quiet_frames i rest w1 Hquiet Hw1 Hp1 Hb1 Hi)
    as (w2 & -> & Hw2 & Hn2 & Hp2 & Hb2).
  eexists. split; [reflexivity |].
  rewrite scene_ready_set_cls by (now intros []). obs. cbn.
  rewrite Hb2, Hn2, Hn. now repeat split.
Qed.

(** X4 (stepping).  On a constructed viewer that is paused with the
    blocking flag set, as a new one is, a call of [update] polls through the
    frames in which the user neither advances nor quits, returns at the
    poll in which NEXT FRAME is clicked (without START/PAUSE or QUIT)
    and leaves the viewer paused with the blocking flag set again.  So a
    session of N frames takes exactly N such clicks: it returns with the
    rest of the script after N polls. *)
Theorem next_frame_steps_one_frame :
  (forall self src kps lmap pose quiet_frames i rest w,
     ready w = true ->
     play_mode (cls w) = false -> block_execution (cls w) = true ->
     Forall (fun j => quiet j = true) quiet_frames ->
     steps i = true ->
     let r := update self src kps lmap pose (quiet_frames ++ i :: rest) w in
     returned r = Some rest /\
     ticks (world_of r) = S (length quiet_frames + ticks w) /\
     play_mode (cls (world_of r)) = false /\
     block_execution (cls (world_of r)) = true) /\
  (forall self frames clicks rest w,
     ready w = true ->
     play_mode (cls w) = false -> block_execution (cls w) = true ->
     Forall (fun j => steps j = true) clicks ->
     length clicks = length frames ->
     let r := run self frames (clicks ++ rest) w in
     returned r = Some rest /\
     ticks (world_of r) = length frames + ticks w /\
     play_mode (cls (world_of r)) = false /\
     block_execution (cls (world_of r)) = true).
Proof.
  split.
  - intros self src kps lmap pose quiet_frames i rest w Hr Hp Hb Hquiet Hi r.
    subst r.
    destruct (update_step self src kps lmap pose quiet_frames i rest w
                Hr Hp Hb Hquiet Hi) as (w' & -> & _ & Hn & Hp' & Hb').
    now repeat split.
  - intros self frames. unfold run.
    induction frames as [|f frames IH]; intros clicks rest w Hr Hp Hb Hc Hlen.
    + destruct clicks; [| discriminate]. now repeat split.
    + destruct clicks as [|i clicks]; [discriminate |].
      apply Forall_cons in Hc as [Hi Hc]. injection Hlen as Hlen.
      rewrite session_cons. cbn [viewer_update viewer app].
      destruct (update_step self (frame_source f) (frame_keypoints f)
                  (frame_target_map f) (frame_pose f) [] i (clicks ++ rest) w
                  Hr Hp Hb (List.Forall_nil _) Hi)
        as (w1 & Hu & Hw1 & Hn1 & Hp1 & Hb1).
      cbn [app] in Hu. rewrite Hu.
      destruct (IH clicks rest w1 (scene_ready_ready _ Hw1) Hp1 Hb1 Hc Hlen)
        as (Hret & Hn & Hp' & Hb').
      rewrite Hret, Hn, Hp', Hb', Hn1. cbn [length]. repeat split; lia.
Qed.

(** X5 (free running).  On a constructed viewer that plays, with a user who
    clicks neither START/PAUSE nor QUIT, [update] never waits, and it polls
    on every second call only: a session of N frames returns after
    [(N + 1) / 2] polls when the blocking flag is set at the start and after
    [N / 2] polls when it is clear, one entry of the script per poll. *)
Theorem free_running_polls_every_second_frame self frames script w :
  ready w = true ->
  play_mode (cls w) = true ->
  Forall (fun j => calm j = true) script ->
  let k := (length frames + (if block_execution (cls w) then 1 else 0)) / 2 in
  k <= length script ->
  let r := run self frames script w in
  returned r = Some (drop k script) /\
  ticks (world_of r) = k + ticks w /\
  play_mode (cls (world_of r)) = true.
Proof.
  unfold run. revert script w.
  induction frames as [|f frames IH]; intros script w Hr Hp Hc Hk.
  - cbn [length] in *. cbn [session ret returned world_of].
    destruct (block_execution (cls w)); cbn; rewrite drop_0; now repeat split.
  - rewrite session_cons. cbn [viewer_update viewer length] in *.
    destruct (block_execution (cls w)) eqn:Hb.
    + assert (Hhalf : (S (length frames) + 1) / 2 = S ((length frames + 0) / 2)).
      { replace (S (length frames) + 1) with (length frames + 0 + 1 * 2) by lia.
        rewrite Nat.div_add by lia. lia. }
      rewrite Hhalf in *.
      destruct script as [|i rest]; [cbn [length] in Hk; lia |].
      apply Forall_cons in Hc as [(Hs & Hq)%calm_true Hc].
      destruct (update_playing_tick self (frame_source f) (frame_keypoints f)
                  (frame_target_map f) (frame_pose f) i rest w Hr Hp Hb Hs Hq)
        as (w1 & -> & Hw1 & Hn1 & Hp1 & Hb1).
      specialize (IH rest w1 (scene_ready_ready _ Hw1) Hp1 Hc).
      cbn zeta in IH. rewrite Hb1 in IH.
      cbn [length] in Hk.
      destruct (IH ltac:(lia)) as (Hret & Hn & Hp').
      rewrite Hret, Hn, Hp', Hn1. cbn [drop]. repeat split; lia.
    + destruct (update_playing_free self (frame_source f) (frame_keypoints f)
                  (frame_target_map f) (frame_pose f) script w Hr Hp Hb)
        as (w1 & -> & Hw1 & Hn1 & Hp1 & Hb1).
      specialize (IH script w1 (scene_ready_ready _ Hw1) Hp1 Hc).
      cbn zeta in IH. rewrite Hb1 in IH.
      replace (S (length frames) + 0) with (length frames + 1) in * by lia.
      destruct (IH Hk) as (Hret & Hn & Hp').
      rewrite Hret, Hn, Hp', Hn1. now repeat split.
Qed.

End KissualizerStepping.

Section KissualizerCamera.
Context `{NumPy} `{!Kissualizer.Registration}.
Import Kissualizer.
Implicit Types (w : World) (I : World -> Prop) (i : GuiInput)
  (script rest : list GuiInput).

Lemma camera_of_set_cls f w : camera_of (set_cls f w) = camera_of w.
Proof. reflexivity. Qed.

Lemma camera_of_put_cloud handle c w :
  camera_of (put_cloud handle c w) = camera_of w.
Proof. unfold camera_of, put_cloud, set_site. cbn. now destruct (site_polyscope w). Qed.

Lemma camera_of_with_camera x w :
  ready w = true -> camera_of (set_site (with_camera x) w) = Some x.
Proof.
  intros (_ & p & Hp & _)%ready_true. unfold camera_of, set_site. cbn.
  now rewrite Hp.
Qed.

(** GLOBAL VIEW clicked: where the camera goes. *)
Lemma global_view_button_camera i w cf ck cm ct :
  ready w = true ->
  cloud "current_frame" w = Some cf -> cloud "keypoints" w = Some ck ->
  cloud "local_map" w = Some cm -> cloud "trajectory" w = Some ct ->
  click_global_view i = true ->
  exists w',
    global_view_button i w = Ok tt w' /\
    camera_of w' =
      Some (if negb (global_view (cls w)) then HomeView
            else LookAt (0.0, 0.0, 300.0)%Q (1.0, 1.0, 1.0)%Q).
Proof.
  intros Hr Hcf Hck Hcm Hct Hclick.
  cut (exists (b : unit) w',
    global_view_button i w = Ok b w' /\
    camera_of w' =
      Some (if negb (global_view (cls w)) then HomeView
            else LookAt (0.0, 0.0, 300.0)%Q (1.0, 1.0, 1.0)%Q)).
  { intros ([] & w' & Hw'). now exists w'. }
  unfold global_view_button. rewrite Hclick. cbn [when].
  unfold set_enabled, set_transform, reset_camera_to_home_view, look_at.
  do 4 exec_step. cbn [cls set_cls global_view with_global_view].
  destruct (negb (global_view (cls w))) eqn:Hg.
  - do 7 exec_step. apply camera_of_with_camera. now obs.
  - do 7 exec_step. apply camera_of_with_camera. now obs.
Qed.

Lemma gui_callback_camera g c i :
  let c1 := if click_center_viewpoint i then HomeView else c in
  let c2 := if click_global_view i
            then if negb g then HomeView
                 else LookAt (0.0, 0.0, 300.0)%Q (1.0, 1.0, 1.0)%Q
            else c1 in
  triple
    (fun w => scene_ready w = true /\
              (global_view (cls w) = g /\ camera_of w = Some c))
    (_gui_callback i)
    (fun _ w => camera_of w = Some c2) (fun _ w => camera_of w = Some c2).
Proof.
  intros c1 c2. unfold _gui_callback.
  do 2 (eapply triple_bind with
          (R := fun _ w => scene_ready w = true /\
                           (global_view (cls w) = g /\ camera_of w = Some c));
        [ apply runs_triple; panel_blocks; walk; both_side | intros _ ]).
  eapply triple_bind with
    (R := fun _ w => scene_ready w = true /\
                     (global_view (cls w) = g /\ camera_of w = Some c1)).
  { unfold center_viewpoint_button, reset_camera_to_home_view, c1.
    destruct (click_center_viewpoint i); cbn [when].
    - apply triple_call.
      + intros w (Hw & Hg & _).
        split; [now rewrite scene_ready_set_site by (now intros []) |].
        split; [exact Hg |].
        apply camera_of_with_camera. now apply scene_ready_ready.
      + intros w e (Hw & _) Hf. apply scene_ready_ready in Hw. congruence.
    - now apply triple_ret. }
  intros _.
  do 2 (eapply triple_bind with
          (R := fun _ w => scene_ready w = true /\
                           (global_view (cls w) = g /\ camera_of w = Some c1));
        [ apply runs_triple; panel_blocks; walk; both_side | intros _ ]).
  eapply triple_bind with
    (R := fun _ w => scene_ready w = true /\ camera_of w = Some c2).
  { intros w (Hw & Hg & Hc). unfold c2.
    destruct (click_global_view i) eqn:Hclick.
    - pose proof Hw as (Hr & Hcf & Hck & Hcm & Hct)%scene_ready_true.
      apply registered_cloud in Hcf as [cf Hcf].
      apply registered_cloud in Hck as [ck Hck].
      apply registered_cloud in Hcm as [cm Hcm].
      apply registered_cloud in Hct as [ct Hct].
      destruct (global_view_button_eq i w cf ck cm ct Hr Hcf Hck Hcm Hct Hclick)
        as (w' & Heq & Hr' & _ & _ & He & Hf & Hk & Hm).
      destruct (global_view_button_camera i w cf ck cm ct Hr Hcf Hck Hcm Hct Hclick)
        as (w'' & Heq' & Hcam).
      rewrite Heq in Heq'. injection Heq' as <-. rewrite Heq.
      subst g. split; [| exact Hcam].
      apply scene_ready_intro; [exact Hr' | unfold registered ..].
      + now destruct (cloud "current_frame" w').
      + now destruct (cloud "keypoints" w').
      + now destruct (cloud "local_map" w').
      + now destruct (cloud "trajectory" w').
    - unfold global_view_button. rewrite Hclick. cbn. now split. }
  intros _.
  apply triple_conseq with
    (P' := fun w => scene_ready w = true /\ camera_of w = Some c2)
    (Q' := fun _ w => scene_ready w = true /\ camera_of w = Some c2)
    (E' := fun _ w => scene_ready w = true /\ camera_of w = Some c2);
    [| auto | now intros _ w [_ Hw] ..].
  panel_blocks. walk.
  all: intros; repeat match goal with H : _ /\ _ |- _ => destruct H end.
  all: first [ split; [scene_side | first [assumption | plain_side]]
             | split; assumption ].
Qed.

Lemma update_scene_camera c src kps lmap pose :
  keeps (fun w => camera_of w = c) (update_scene src kps lmap pose).
Proof.
  unfold keeps, update_scene, register_point_cloud, set_radius, set_transform,
    set_enabled.
  walk.
  all: intros;
    first [ assumption
          | rewrite camera_of_put_cloud; assumption
          | match goal with w : World |- _ =>
              unfold camera_of, set_site, set_cls in *; cbn in *;
              destruct (site_polyscope w); cbn in *; congruence end ].
Qed.

(** X6 (the camera).  One pass of the panel callback on a scene with its
    four structures leaves the camera where the last of these put it:
    GLOBAL VIEW, when clicked, at the home view if the view becomes global
    and at [look_at((0, 0, 300), (1, 1, 1))] if it becomes ego; otherwise
    CENTER VIEWPOINT, when clicked, at the home view; otherwise where it
    was.  This is so however the callback ends (QUIT does not move the
    camera).  Laying out the scene of a frame in [update] never moves the
    camera. *)
Theorem camera_follows_the_panel :
  (forall i w c,
     scene_ready w = true -> camera_of w = Some c ->
     camera_of (world_of (_gui_callback i w)) =
       Some (if click_global_view i
             then if global_view (cls w)
                  then LookAt (0.0, 0.0, 300.0)%Q (1.0, 1.0, 1.0)%Q
                  else HomeView
             else if click_center_viewpoint i then HomeView else c)) /\
  (forall src kps lmap pose w,
     camera_of (world_of (update_scene src kps lmap pose w)) = camera_of w).
Proof.
  split.
  - intros i w c Hw Hc.
    pose proof (triple_world_of _ _ _ w
                  (gui_callback_camera (global_view (cls w)) c i)
                  (conj Hw (conj eq_refl Hc))) as Hcam.
    cbn beta in Hcam. rewrite Hcam. now destruct (global_view (cls w)).
  - intros src kps lmap pose w.
    exact (triple_world_of _ _ _ w
             (update_scene_camera (camera_of w) src kps lmap pose) eq_refl).
Qed.

End KissualizerCamera.

Section KissualizerBackground.
Context `{NumPy} `{!Kissualizer.Registration}.
Import Kissualizer.
Implicit Types (w : World) (I : World -> Prop) (i : GuiInput)
  (script rest : list GuiInput).

Lemma background_of_put_cloud handle c w :
  background_of (put_cloud handle c w) = background_of w.
Proof.
  unfold background_of, put_cloud, set_site. cbn.
  now destruct (site_polyscope w).
Qed.

Lemma background_color_edit_eq i w :
  ready w = true ->
  exists w',
    background_color_edit i w = Ok tt w' /\
    scene_ready w' = scene_ready w /\
    background_color (cls w') =
      default (background_color (cls w)) (edit_background_color i) /\
    background_of w' =
      match edit_background_color i with
      | Some c => Some c
      | None => background_of w
      end.
Proof.
  intros Hr. unfold background_color_edit, ColorEdit3, set_background_color.
  unfold bind at 1. cbn [gets]. unfold bind at 1. cbn [modify].
  destruct (edit_background_color i) as [c|]; cbn [fst snd when default].
  - rewrite call_eq by (now rewrite ready_set_cls by (now intros [])).
    eexists. split; [reflexivity |].
    rewrite scene_ready_set_site by (now intros []).
    rewrite scene_ready_set_cls by (now intros []).
    repeat split.
    apply ready_true in Hr as (_ & p & Hp & _).
    unfold background_of, set_site, set_cls. cbn. now rewrite Hp.
  - eexists. split; [reflexivity |].
    rewrite scene_ready_set_cls by (now intros []). now repeat split.
Qed.

Lemma gui_callback_background b o i :
  let after w :=
    background_color (cls w) = default b (edit_background_color i) /\
    background_of w =
      match edit_background_color i with
      | Some c => Some c
      | None => o
      end in
  triple
    (fun w => scene_ready w = true /\
              (background_color (cls w) = b /\ background_of w = o))
    (_gui_callback i)
    (fun _ w => scene_ready w = true /\ after w)
    (fun _ w => scene_ready w = true /\ after w).
Proof.
  intros after. unfold _gui_callback.
  do 4 (eapply triple_bind with
          (R := fun _ w => scene_ready w = true /\
                           (background_color (cls w) = b /\ background_of w = o));
        [ apply runs_triple; panel_blocks; walk; both_side | intros _ ]).
  eapply triple_bind with (R := fun _ w => scene_ready w = true /\ after w).
  { intros w (Hw & Hb & Ho).
    destruct (background_color_edit_eq i w (scene_ready_ready _ Hw))
      as (w' & -> & Hw' & Hb' & Ho').
    unfold after. rewrite Hw', Hb', Ho', Hb, Ho. now repeat split. }
  intros _. unfold after. panel_blocks. walk; both_side.
Qed.

Lemma update_scene_background o b src kps lmap pose :
  keeps (fun w => background_of w = o /\ background_color (cls w) = b)
    (update_scene src kps lmap pose).
Proof.
  unfold keeps, update_scene, register_point_cloud, set_radius, set_transform,
    set_enabled.
  walk.
  all: intros; repeat match goal with H : _ /\ _ |- _ => destruct H end;
    first [ split; assumption
          | rewrite background_of_put_cloud; split; assumption
          | match goal with w : World |- _ =>
              unfold background_of, set_site, set_cls in *; cbn in *;
              destruct (site_polyscope w); cbn in *; split; congruence end ].
Qed.

Lemma gui_callback_keeps_background i :
  keeps (fun w => scene_ready w = true /\
                  background_of w = Some (background_color (cls w)))
    (_gui_callback i).
Proof.
  intros w [Hw Hb].
  pose proof (gui_callback_background (background_color (cls w))
                (background_of w) i w (conj Hw (conj eq_refl eq_refl))) as Hcb.
  cbn beta zeta in Hcb.
  destruct (_gui_callback i w) as [? w'|? w'|? w'|w'];
    destruct Hcb as (Hw' & Hc' & Ho'); (split; [exact Hw' |]);
    rewrite Ho', Hc'; now destruct (edit_background_color i).
Qed.

(** X7 (the background colour).  On a scene with its structures, one pass
    of the panel callback with a colour picked in the editor stores it in
    the class attribute [background_color] and makes it polyscope's
    background; with no colour picked both stay.  So [update] on a
    constructed viewer, however it ends, keeps polyscope's background equal
    to the class attribute.  Constructing another viewer breaks this: it
    sets polyscope's background to [BACKGROUND_COLOR] and leaves the class
    attribute, which the colour editor shows, as it was. *)
Theorem background_colour_of_the_scene :
  (forall i w,
     scene_ready w = true ->
     let w' := world_of (_gui_callback i w) in
     background_color (cls w') =
       default (background_color (cls w)) (edit_background_color i) /\
     background_of w' =
       match edit_background_color i with
       | Some c => Some c
       | None => background_of w
       end) /\
  (forall self src kps lmap pose script w,
     ready w = true ->
     background_of w = Some (background_color (cls w)) ->
     let w' := world_of (update self src kps lmap pose script w) in
     background_of w' = Some (background_color (cls w'))) /\
  (forall self w p,
     site_polyscope w = Some p ->
     let w' := world_of (__init__ self w) in
     background_of w' = Some BACKGROUND_COLOR /\
     background_color (cls w') = background_color (cls w)).
Proof.
  split; [| split].
  - intros i w Hw w'. subst w'.
    exact (proj2 (triple_world_of _ _ _ w
             (gui_callback_background (background_color (cls w))
                (background_of w) i) (conj Hw (conj eq_refl eq_refl)))).
  - intros self src kps lmap pose script w Hr Hb w'. subst w'.
    destruct (update_scene_eq src kps lmap pose w Hr) as (w1 & Hs & Hw1 & _).
    pose proof (update_scene_background (background_of w)
                  (background_color (cls w)) src kps lmap pose w
                  (conj eq_refl eq_refl)) as Hk.
    rewrite Hs in Hk. destruct Hk as [Ho1 Hb1].
    refine (proj2 (update_establishes
             (fun w => scene_ready w = true /\
                       background_of w = Some (background_color (cls w)))
             _ _ _ _ _ _ _ _ Hs _ _ _ _)).
    + split; [exact Hw1 | now rewrite Ho1, Hb1].
    + intros w2 [Hw2 Hb2]. split; [now rewrite scene_ready_tick |].
      unfold background_of, set_site in *. cbn.
      destruct (site_polyscope w2); cbn in *; congruence.
    + apply gui_callback_keeps_background.
    + intros w2 f [Hw2 Hb2].
      split; [now rewrite scene_ready_set_cls by (now intros []) |].
      exact Hb2.
  - intros self [site a out] p. cbn. intros ->. cbn. now split.
Qed.

End KissualizerBackground.

Section KissualizerPause.
Context `{NumPy} `{!Kissualizer.Registration}.
Import Kissualizer.
Implicit Types (w : World) (I : World -> Prop) (i : GuiInput)
  (script rest : list GuiInput).

(** Playing, and START/PAUSE is clicked at the poll (without NEXT FRAME or
    QUIT): the viewer is paused and the loop goes on with the rest of the
    script. *)
Lemma poll_loop_pause i rest w :
  scene_ready w = true ->
  play_mode (cls w) = true -> block_execution (cls w) = true ->
  click_start_pause i = true -> click_next_frame i = false ->
  click_quit i = false ->
  exists w1,
    poll_loop (i :: rest) w = poll_loop rest w1 /\ scene_ready w1 = true /\
    ticks w1 = S (ticks w) /\
    play_mode (cls w1) = false /\ block_execution (cls w1) = true.
Proof.
  intros Hw Hp Hb Hs Hn Hq. rewrite poll_loop_cons, Hb.
  pose proof (frame_tick_scene (trajectory (cls w)) (last_pose (cls w))
                (ticks w) true true i w) as Ht.
  cbn zeta in Ht. rewrite Hs, Hn in Ht. cbn in Ht.
  specialize (Ht (conj Hw (conj eq_refl (conj eq_refl
    (conj eq_refl (conj Hp Hb)))))).
  destruct (frame_tick i w) as [[] w1| | |]; try (exfalso; intuition congruence).
  destruct Ht as (Hw1 & _ & Ht1 & Hl1 & Hn1 & Hp1 & Hb1).
  rewrite Hp1. now exists w1.
Qed.

(** X19 (pausing a playing viewer).  On a constructed viewer that plays
    with the blocking flag set, a click on START/PAUSE at the poll of
    [update] (without NEXT FRAME or QUIT) pauses it within this call:
    [update] does not return while the rest of the script holds no Play or
    Step signal, and it returns, paused and with the blocking flag set, at
    the next poll in which NEXT FRAME is clicked. *)
Theorem pause_takes_effect_within_the_call
    self src kps lmap pose i script w :
  ready w = true ->
  play_mode (cls w) = true -> block_execution (cls w) = true ->
  click_start_pause i = true -> click_next_frame i = false ->
  click_quit i = false ->
  (Forall (fun j => advance j = false) script ->
   returned (update self src kps lmap pose (i :: script) w) = None) /\
  (forall quiet_frames j rest,
     script = quiet_frames ++ j :: rest ->
     Forall (fun j => quiet j = true) quiet_frames ->
     steps j = true ->
     let r := update self src kps lmap pose (i :: script) w in
     returned r = Some rest /\
     ticks (world_of r) = S (S (length quiet_frames + ticks w)) /\
     play_mode (cls (world_of r)) = false /\
     block_execution (cls (world_of r)) = true).
Proof.
  intros Hr Hp Hb Hs Hn Hq.
  destruct (update_scene_eq src kps lmap pose w Hr)
    as (w1 & Hsc & Hw1 & Hcls & Hn1 & _).
  assert (Hp1 : play_mode (cls w1) = true) by (now rewrite Hcls).
  assert (Hb1 : block_execution (cls w1) = true) by (now rewrite Hcls).
  destruct (poll_loop_pause i script w1 Hw1 Hp1 Hb1 Hs Hn Hq)
    as (w2 & Hl & Hw2 & Hn2 & Hp2 & Hb2).
  rewrite (update_eq _ _ _ _ _ _ _ _ Hsc), Hl.
  split.
  - intros Hscript.
    pose proof (poll_loop_paused script Hscript w2 (conj Hp2 Hb2)) as Hpoll.
    now destruct (poll_loop script w2).
  - intros quiet_frames j rest -> Hquiet Hj r. subst r.
    destruct (poll_loop_quiet_step quiet_frames j rest w2 Hquiet Hw2 Hp2 Hb2 Hj)
      as (w3 & -> & Hw3 & Hn3 & Hp3 & Hb3).
    cbn [returned world_of]. obs. cbn.
    rewrite Hn3, Hn2, Hn1, Hp3, Hb3. repeat split; lia.
Qed.

End KissualizerPause.

(** Witness of X19: a viewer that plays (started during a first frame,
    then a frame without a poll); at the poll of the next frame the user
    clicks START/PAUSE, then NEXT FRAME. *)
Lemma pause_takes_effect_within_the_call_witness :
  let playing :=
    world_of
      (@Kissualizer.run numpy_Z persistent_values (Kissualizer.instance_at 0)
         [frame_1; frame_2] [click_start] kiss_viewer) in
  Kissualizer.ready playing = true /\
  Kissualizer.play_mode (Kissualizer.cls playing) = true /\
  Kissualizer.block_execution (Kissualizer.cls playing) = true /\
  returned
    (@Kissualizer.update numpy_Z persistent_values (Kissualizer.instance_at 0)
       three_points [] small_map (translate 1 0 0)
       [click_start; Kissualizer.idle; click_next] playing) = Some [].
Proof.
  cbv zeta.
  assert (Hr : Kissualizer.ready
                 (world_of
                    (@Kissualizer.run numpy_Z persistent_values
                       (Kissualizer.instance_at 0) [frame_1; frame_2]
                       [click_start] kiss_viewer)) = true)
    by (vm_compute; reflexivity).
  assert (Hp : Kissualizer.play_mode
                 (Kissualizer.cls
                    (world_of
                       (@Kissualizer.run numpy_Z persistent_values
                          (Kissualizer.instance_at 0) [frame_1; frame_2]
                          [click_start] kiss_viewer))) = true)
    by (vm_compute; reflexivity).
  assert (Hb : Kissualizer.block_execution
                 (Kissualizer.cls
                    (world_of
                       (@Kissualizer.run numpy_Z persistent_values
                          (Kissualizer.instance_at 0) [frame_1; frame_2]
                          [click_start] kiss_viewer))) = true)
    by (vm_compute; reflexivity).
  split; [exact Hr |]. split; [exact Hp |]. split; [exact Hb |].
  destruct (@pause_takes_effect_within_the_call numpy_Z persistent_values
              (Kissualizer.instance_at 0) three_points [] small_map
              (translate 1 0 0) click_start [Kissualizer.idle; click_next] _
              Hr Hp Hb eq_refl eq_refl eq_refl) as [_ HS].
  exact (proj1 (HS [Kissualizer.idle] click_next [] eq_refl
                  ltac:(repeat constructor) eq_refl)).
Defined.

(** ** Invariants of the open3d viewer *)

Section SessionInvariants.
Context `{Viewer Self W Ev}.

Lemma session_keeps (I : W -> Prop) self frames script :
  (forall src kps lmap pose script,
     keeps I (viewer_update self src kps lmap pose script)) ->
  keeps I (session self frames script).
Proof.
  intros Hu. revert script.
  induction frames as [|f frames IH]; intros script; cbn [session].
  - apply keeps_ret.
  - apply keeps_bind; [apply Hu | intros rest; apply IH].
Qed.

End SessionInvariants.

Section RegistrationInvariants.
Context `{NumPy} `{!RegistrationVisualizer.Open3D}.
Import RegistrationVisualizer.
Implicit Types (w : World) (cb : Callback) (script rest : list (list Z)).

Lemma rv_update_keeps (I : World -> Prop) self src kps lmap pose script :
  keeps I (_update_geometries src kps (point_cloud lmap) pose) ->
  (forall cb, keeps I (run_callback cb)) ->
  (forall w n, I w -> I (set_vis (vis_with_polls n) w)) ->
  (forall w n, I w -> I (set_vis (vis_with_renders n) w)) ->
  (forall w b, I w -> I (set_this (with_block_vis b) w)) ->
  keeps I (update self src kps lmap pose script).
Proof.
  intros Hg Hcb Hpolls Hrenders Hflip. unfold update. cbn zeta.
  apply keeps_bind; [exact Hg | intros _].
  apply keeps_bind; [now apply poll_loop_invariant | intros rest].
  apply keeps_bind; [| intros _; apply keeps_ret].
  apply keeps_modify. intros w Hw.
  now apply (Hflip w (negb (block_vis (this w)))).
Qed.

Lemma rv_run_keeps (I : World -> Prop) self frames script :
  (forall src kps tgt pose, keeps I (_update_geometries src kps tgt pose)) ->
  (forall cb, keeps I (run_callback cb)) ->
  (forall w n, I w -> I (set_vis (vis_with_polls n) w)) ->
  (forall w n, I w -> I (set_vis (vis_with_renders n) w)) ->
  (forall w b, I w -> I (set_this (with_block_vis b) w)) ->
  keeps I (run self frames script).
Proof.
  intros Hg Hcb Hpolls Hrenders Hflip. unfold run.
  apply session_keeps. intros src kps lmap pose script'.
  cbn [viewer_update viewer]. now apply rv_update_keeps.
Qed.

Lemma update_geometries_markers src kps tgt pose :
  keeps markers_shown (_update_geometries src kps tgt pose).
Proof.
  intros w Hw.
  destruct (update_geometries_eq src kps tgt pose w)
    as (w' & -> & _ & _ & _ & _ & _ & _ & _ & _ & Hm & _).
  now apply Hm.
Qed.

Lemma markers_shown_polls w n :
  markers_shown w -> markers_shown (set_vis (vis_with_polls n) w).
Proof. now destruct w as [[? ? ? ? ? ? ? []] ?]. Qed.

Lemma markers_shown_renders w n :
  markers_shown w -> markers_shown (set_vis (vis_with_renders n) w).
Proof. now destruct w as [[? ? ? ? ? ? ? []] ?]. Qed.

Lemma markers_shown_block_vis w b :
  markers_shown w -> markers_shown (set_this (with_block_vis b) w).
Proof. now destruct w as [[? ? ? ? ? ? ? []] ?]. Qed.

(** X8 (the frame markers in the scene).  The frame markers drawn by the
    visualizer are all the markers of [self.frames], each once and in
    order, when the trajectory is to be rendered and the view is global,
    and none otherwise.  This holds for a new viewer and after every
    session on it, however the session ends and whatever keys are pressed:
    no marker is ever added twice, and none is left in the scene in ego
    view or with the trajectory switched off. *)
Theorem frame_markers_follow_the_flags :
  (forall out w,
     returned (__init__ true out) = Some w -> markers_shown w) /\
  (forall self frames script w,
     markers_shown w -> markers_shown (world_of (run self frames script w))) /\
  (forall w, markers_shown w -> NoDup (markers (vis (this w)))).
Proof.
  split; [| split].
  - intros out w Hw.
    destruct (rv_init_present out) as (w0 & Hi & _ & Hflags & _ & _ & Hm & _).
    rewrite Hi in Hw. injection Hw as <-.
    unfold markers_shown. rewrite Hm. injection Hflags as _ -> _.
    now rewrite andb_false_r.
  - intros self frames script w Hw.
    apply (triple_world_of _ _ _ w
             (rv_run_keeps markers_shown self frames script
                update_geometries_markers run_callback_markers
                markers_shown_polls markers_shown_renders
                markers_shown_block_vis) Hw).
  - intros w Hw. unfold markers_shown in Hw. rewrite Hw.
    destruct (_ && _); [apply NoDup_seq | constructor].
Qed.

End RegistrationInvariants.

(** Witness of X8: a session of two frames on a new viewer, the user going
    to global view and stepping, then stepping. *)
Lemma frame_markers_follow_the_flags_witness :
  returned (@RegistrationVisualizer.__init__ numpy_Z true []) =
    Some registration_viewer /\
  RegistrationVisualizer.markers
    (RegistrationVisualizer.vis
       (RegistrationVisualizer.this
          (world_of
             (@RegistrationVisualizer.run numpy_Z open3d_Z tt
                [frame_1; frame_2] [[KEY_V; KEY_N]; [KEY_N]]
                registration_viewer)))) = [0; 1].
Proof.
  assert (Hinit :
    returned (@RegistrationVisualizer.__init__ numpy_Z true []) =
      Some registration_viewer) by reflexivity.
  split; [exact Hinit |].
  destruct (@frame_markers_follow_the_flags numpy_Z open3d_Z) as (H0 & Hk & _).
  pose proof (Hk tt [frame_1; frame_2] [[KEY_V; KEY_N]; [KEY_N]]
                registration_viewer (H0 [] registration_viewer Hinit)) as Hm.
  unfold RegistrationVisualizer.markers_shown in Hm. rewrite Hm.
  vm_compute. reflexivity.
Defined.

Section RegistrationGeometry.
Context `{NumPy} `{!RegistrationVisualizer.Open3D}.
Import RegistrationVisualizer.
Implicit Types (w : World) (cb : Callback) (script rest : list (list Z)).

(** The callbacks leave what the visualizer draws of the three clouds
    alone. *)
Lemma run_callback_drawn ds dk dt cb :
  keeps (fun w => drawn_source (vis (this w)) = ds /\
                  drawn_keypoints (vis (this w)) = dk /\
                  drawn_target (vis (this w)) = dt)
    (run_callback cb).
Proof. destruct cb; rv_blocks; rv_walk; rv_side. Qed.

Lemma run_callback_sync cb : keeps drawn_in_sync (run_callback cb).
Proof.
  intros w (Hs & Hk & Ht).
  pose proof (keeps_conj _ _ _
                (run_callback_data (frames (this w)) (source (this w))
                   (keypoints (this w)) (target (this w))
                   (key_callbacks (vis (this w))) cb)
                (run_callback_drawn _ _ _ cb) w
                (conj (conj eq_refl (conj eq_refl (conj eq_refl
                   (conj eq_refl eq_refl)))) (conj Hs (conj Hk Ht)))) as Hcb.
  unfold drawn_in_sync.
  destruct (run_callback cb w) as [? w'|? w'|? w'|w'];
    destruct Hcb as ((_ & -> & -> & -> & _) & Hs' & Hk' & Ht');
    now repeat split.
Qed.

Lemma update_geometries_sync src kps tgt pose :
  keeps drawn_in_sync (_update_geometries src kps tgt pose).
Proof.
  intros w (Hs & Hk & Ht).
  destruct (update_geometries_eq src kps tgt pose w)
    as (w' & -> & _ & _ & _ & _ & Hs' & Hk' & Ht' & _).
  unfold drawn_in_sync. rewrite Hs', Hk', Ht', Hs, Hk, Ht. now repeat split.
Qed.

Lemma rv_init_sync out :
  exists w, __init__ true out = Ok w (stdout w) /\ drawn_in_sync w.
Proof. eexists. split; [reflexivity |]. now vm_compute. Qed.

(** X9 (the visualizer draws the current clouds).  After construction the
    visualizer draws the three point clouds of the viewer, and after every
    session, however it ends, what it draws of each is the cloud as the
    viewer last laid it out: every change [_update_geometries] makes to a
    cloud is announced with [update_geometry], and no key callback changes
    a cloud or what is drawn of it. *)
Theorem visualizer_draws_the_current_clouds :
  (forall out w, returned (__init__ true out) = Some w -> drawn_in_sync w) /\
  (forall self frames script w,
     drawn_in_sync w -> drawn_in_sync (world_of (run self frames script w))).
Proof.
  split.
  - intros out w Hw. destruct (rv_init_sync out) as (w0 & Hi & Hs).
    rewrite Hi in Hw. now injection Hw as <-.
  - intros self frames script w Hw.
    apply (triple_world_of _ _ _ w
             (rv_run_keeps drawn_in_sync self frames script
                update_geometries_sync run_callback_sync
                ltac:(now intros [[? ? ? ? ? ? ? []] ?])
                ltac:(now intros [[? ? ? ? ? ? ? []] ?])
                ltac:(now intros [[? ? ? ? ? ? ? []] ?])) Hw).
Qed.

(** X10 (a frame is laid out by the flags at the call).  However [update]
    ends, the three point clouds are as [_update_geometries] laid them out
    from the flags the viewer had when [update] was called: keys pressed
    during the polls of this call, the visibility toggles and the view
    toggle among them, change no cloud; they show from the next call on. *)
Theorem keys_change_no_cloud self src kps lmap pose script w :
  let w' := world_of (update self src kps lmap pose script w) in
  points (source (this w')) =
    (if render_source (this w)
     then if global_view (this w) then transform_points pose src else src
     else []) /\
  points (keypoints (this w')) =
    (if render_keypoints (this w)
     then if global_view (this w) then transform_points pose kps else kps
     else []) /\
  points (target (this w')) =
    (if render_map (this w)
     then if global_view (this w) then point_cloud lmap
          else transform_points (linalg_inv pose) (point_cloud lmap)
     else []).
Proof.
  intros w'. subst w'.
  destruct (update_geometries_eq src kps (point_cloud lmap) pose w)
    as (w1 & Hg & _ & Hs & Hk & Ht & _).
  rewrite (rv_update_eq _ _ _ _ _ _ _ _ Hg). rewrite <- Hs, <- Hk, <- Ht.
  pose proof (poll_loop_invariant
    (fun w => source (this w) = source (this w1) /\
              keypoints (this w) = keypoints (this w1) /\
              target (this w) = target (this w1)) script) as Hl.
  cbn beta in Hl.
  assert (Hkeep : keeps
    (fun w => source (this w) = source (this w1) /\
              keypoints (this w) = keypoints (this w1) /\
              target (this w) = target (this w1)) (poll_loop script)).
  { apply Hl.
    - intros cb w2 (Hs2 & Hk2 & Ht2).
      pose proof (run_callback_data (frames (this w2)) (source (this w1))
                    (keypoints (this w1)) (target (this w1))
                    (key_callbacks (vis (this w2))) cb w2
                    (conj eq_refl (conj Hs2 (conj Hk2 (conj Ht2 eq_refl)))))
        as Hcb.
      destruct (run_callback cb w2); tauto.
    - now intros [[? ? ? ? ? ? ? []] ?] n.
    - now intros [[? ? ? ? ? ? ? []] ?] n. }
  specialize (Hkeep w1 (conj eq_refl (conj eq_refl eq_refl))).
  destruct (poll_loop script w1) as [rest w2|? w2|? w2|w2]; cbn [world_of];
    destruct Hkeep as (Hs2 & Hk2 & Ht2); rewrite <- Hs2, <- Hk2, <- Ht2;
    [now destruct w2 as [[] ?] | now repeat split ..].
Qed.

End RegistrationGeometry.

(** Witness of X9: the session of the scenario on a new viewer. *)
Lemma visualizer_draws_the_current_clouds_witness :
  returned (@RegistrationVisualizer.__init__ numpy_Z true []) =
    Some registration_viewer /\
  RegistrationVisualizer.points <$>
  RegistrationVisualizer.drawn_source
    (RegistrationVisualizer.vis
       (RegistrationVisualizer.this
          (world_of
             (@RegistrationVisualizer.run numpy_Z open3d_Z tt
                [frame_1; frame_2] [[KEY_N]; [KEY_N]] registration_viewer)))) =
  Some three_points.
Proof.
  assert (Hinit :
    returned (@RegistrationVisualizer.__init__ numpy_Z true []) =
      Some registration_viewer) by reflexivity.
  split; [exact Hinit |].
  destruct (@visualizer_draws_the_current_clouds numpy_Z open3d_Z) as (H0 & Hk).
  destruct (Hk tt [frame_1; frame_2] [[KEY_N]; [KEY_N]]
              registration_viewer (H0 [] registration_viewer Hinit))
    as (-> & _).
  vm_compute. reflexivity.
Defined.

Section RegistrationToggles.
Context `{NumPy} `{!RegistrationVisualizer.Open3D}.
Import RegistrationVisualizer.
Implicit Types (w : World) (cb : Callback) (script rest : list (list Z)).

(** X12 (the view key pressed twice).  On a viewer whose markers follow
    its flags, [_toggle_view] applied twice gives back the very state it
    started from: the view mode, the markers in the scene and everything
    else. *)
Theorem view_key_twice_restores_the_state w :
  markers_shown w -> (_toggle_view ;; _toggle_view)%proc w = Ok tt w.
Proof.
  intros Hm.
  destruct (toggle_view_eq w Hm) as (w1 & E1 & Hm1 & Hw1).
  destruct (toggle_view_eq w1 Hm1) as (w2 & E2 & Hm2 & Hw2).
  unfold bind. rewrite E1, E2. f_equal.
  assert (Hflags : render_trajectory (this w2) = render_trajectory (this w) /\
                   global_view (this w2) = global_view (this w) /\
                   frames (this w2) = frames (this w)).
  { rewrite Hw2, Hw1. cbn. now rewrite negb_involutive. }
  destruct Hflags as (Hrt & Hgv & Hfr).
  assert (Hm2' : markers (vis (this w2)) = markers (vis (this w))).
  { unfold markers_shown, all_markers in *. now rewrite Hm2, Hm, Hrt, Hgv, Hfr. }
  rewrite Hw2, Hm2', Hw1.
  destruct w as [[bv pc rbb s k t fr [] rm rs rk gv rt st] out].
  unfold set_vis, set_this. cbn. now rewrite negb_involutive.
Qed.

Lemma toggle_trajectory_exact w :
  global_view (this w) = true -> markers_shown w ->
  exists w',
    _toggle_trajectory w = Ok tt w' /\ markers_shown w' /\
    w' = set_vis (vis_with_markers (markers (vis (this w'))))
           (set_this (fun s => with_render_trajectory
                                 (negb (render_trajectory s)) s) w).
Proof.
  intros Hg Hm. unfold _toggle_trajectory. unfold bind at 1. unfold gets at 1.
  rewrite Hg. cbn [negb]. unfold bind. cbn [modify].
  apply trajectory_handle_eq.
  - unfold markers_shown in Hm. cbn. rewrite Hm.
    destruct (render_trajectory (this w) && global_view (this w)); auto.
  - unfold markers_shown in Hm. cbn. rewrite Hm, Hg.
    destruct (render_trajectory (this w)); cbn; congruence.
Qed.

Lemma toggle_trajectory_twice w :
  global_view (this w) = true -> markers_shown w ->
  (_toggle_trajectory ;; _toggle_trajectory)%proc w = Ok tt w.
Proof.
  intros Hg Hm.
  destruct (toggle_trajectory_exact w Hg Hm) as (w1 & E1 & Hm1 & Hw1).
  assert (Hg1 : global_view (this w1) = true) by (now rewrite Hw1).
  destruct (toggle_trajectory_exact w1 Hg1 Hm1) as (w2 & E2 & Hm2 & Hw2).
  unfold bind. rewrite E1, E2. f_equal.
  assert (Hflags : render_trajectory (this w2) = render_trajectory (this w) /\
                   global_view (this w2) = global_view (this w) /\
                   frames (this w2) = frames (this w)).
  { rewrite Hw2, Hw1. cbn. now rewrite negb_involutive. }
  destruct Hflags as (Hrt & Hgv & Hfr).
  assert (Hm2' : markers (vis (this w2)) = markers (vis (this w))).
  { unfold markers_shown, all_markers in *. now rewrite Hm2, Hm, Hrt, Hgv, Hfr. }
  rewrite Hw2, Hm2', Hw1.
  destruct w as [[bv pc rbb s k t fr [] rm rs rk gv rt st] out].
  unfold set_vis, set_this. cbn. now rewrite negb_involutive.
Qed.

(** X11 (the trajectory key).  In ego view [_toggle_trajectory] does
    nothing at all.  In global view, on a viewer whose markers follow its
    flags, it flips [render_trajectory] and puts all frame markers in the
    scene or takes them all out accordingly; applied twice it gives back
    the very state it started from. *)
Theorem trajectory_key_only_in_global_view :
  (forall w,
     global_view (this w) = false -> _toggle_trajectory w = Ok tt w) /\
  (forall w,
     global_view (this w) = true -> markers_shown w ->
     let w' := world_of (_toggle_trajectory w) in
     returned (_toggle_trajectory w) = Some tt /\
     render_trajectory (this w') = negb (render_trajectory (this w)) /\
     markers (vis (this w')) =
       (if render_trajectory (this w) then [] else all_markers w) /\
     (_toggle_trajectory ;; _toggle_trajectory)%proc w = Ok tt w).
Proof.
  split.
  - intros w Hg. unfold _toggle_trajectory, bind, gets. now rewrite Hg.
  - intros w Hg Hm w'. subst w'.
    destruct (toggle_trajectory_exact w Hg Hm) as (w1 & E1 & Hm1 & Hw1).
    rewrite E1. cbn [returned world_of].
    assert (Hflags : render_trajectory (this w1) = negb (render_trajectory (this w)) /\
                     global_view (this w1) = global_view (this w) /\
                     frames (this w1) = frames (this w)).
    { now rewrite Hw1. }
    destruct Hflags as (Hrt & Hgv & Hfr).
    repeat split; [exact Hrt | | now apply toggle_trajectory_twice].
    unfold markers_shown, all_markers in *.
    rewrite Hm1, Hrt, Hgv, Hfr, Hg. now destruct (render_trajectory (this w)).
Qed.


End RegistrationToggles.

Section RegistrationKeys.
Context `{NumPy} `{!RegistrationVisualizer.Open3D}.
Import RegistrationVisualizer.
Implicit Types (w : World) (cb : Callback) (script rest : list (list Z)).

Lemma rv_init_table out :
  exists w,
    __init__ true out = Ok w (stdout w) /\
    key_callbacks (vis (this w)) =
      <[87%Z := set_white_background_cb]>
        (<[66%Z := set_black_background_cb]>
           (<[84%Z := toggle_trajectory_cb]>
              (<[77%Z := toggle_map_cb]>
                 (<[75%Z := toggle_keypoints_cb]>
                    (<[70%Z := toggle_source_cb]>
                       (<[67%Z := center_viewpoint_cb]>
                          (<[86%Z := toggle_view_cb]>
                             (<[78%Z := next_frame_cb]>
                                (<[32%Z := start_stop_cb]>
                                   (<[27%Z := quit_cb]>
                                      (<[81%Z := quit_cb]>
                                         (<[256%Z := quit_cb]> ∅)))))))))))).
Proof. eexists. split; reflexivity. Qed.

Lemma key_binding_other key :
  key <> 256%Z -> key <> 81%Z -> key <> 27%Z -> key <> 32%Z -> key <> 78%Z ->
  key <> 86%Z -> key <> 67%Z -> key <> 70%Z -> key <> 75%Z -> key <> 77%Z ->
  key <> 84%Z -> key <> 66%Z -> key <> 87%Z ->
  key_binding key = None.
Proof.
  intros. unfold key_binding.
  destruct key as [|p|p]; try reflexivity.
  do 9 (try (destruct p as [p|p|]; try reflexivity; try congruence)).
Qed.

Lemma press_unbound key w :
  bound_to key w = None -> press key w = Ok tt w.
Proof. unfold bound_to, press, bind, gets. now intros ->. Qed.

Lemma run_keeps_table table self frames script :
  keeps (fun w => key_callbacks (vis (this w)) = table)
    (run self frames script).
Proof.
  apply rv_run_keeps.
  - intros src kps tgt pose w Hw.
    destruct (update_geometries_eq src kps tgt pose w)
      as (w' & -> & _ & _ & _ & _ & _ & _ & _ & _ & _ & Ht & _).
    now rewrite Ht.
  - intros cb. apply run_callback_table.
  - now intros [[? ? ? ? ? ? ? []] ?] n.
  - now intros [[? ? ? ? ? ? ? []] ?] n.
  - now intros [[? ? ? ? ? ? ? []] ?] b.
Qed.

(** X13 (the key table).  After construction the keys of code 256, 81
    ([Q]) and 27 ([ESC]) are bound to [_quit], 32 ([SPACE]) to
    [_start_stop], [N] to [_next_frame], [V], [C], [F], [K], [M], [T], [B]
    and [W] to their callbacks, and no other key is bound (a lower-case
    code is not).  No session changes the bindings, and a key that is not
    bound changes nothing when it is pressed. *)
Theorem key_bindings_of_the_viewer :
  (forall out w key,
     returned (__init__ true out) = Some w ->
     bound_to key w = key_binding key) /\
  (forall self frames script w key,
     bound_to key (world_of (run self frames script w)) = bound_to key w) /\
  (forall key w, bound_to key w = None -> press key w = Ok tt w).
Proof.
  split; [| split].
  - intros out w key Hw.
    destruct (rv_init_table out) as (w0 & Hi & Ht).
    rewrite Hi in Hw. injection Hw as <-. unfold bound_to. rewrite Ht.
    repeat match goal with
           | |- <[?k := _]> _ !! key = _ =>
               destruct (decide (key = k)) as [-> | ?];
               [ now rewrite lookup_insert_eq
               | rewrite lookup_insert_ne by congruence ]
           end.
    rewrite lookup_empty. symmetry. now apply key_binding_other.
  - intros self frames script w key. unfold bound_to.
    now rewrite (triple_world_of _ _ _ w
                   (run_keeps_table (key_callbacks (vis (this w))) self frames
                      script) eq_refl).
  - intros key w. apply press_unbound.
Qed.

End RegistrationKeys.

(** Witness of X13: [q] in lower case on a new viewer. *)
Lemma key_bindings_of_the_viewer_witness :
  returned (@RegistrationVisualizer.__init__ numpy_Z true []) =
    Some registration_viewer /\
  RegistrationVisualizer.bound_to 113 registration_viewer = None /\
  RegistrationVisualizer.bound_to 81 registration_viewer =
    Some RegistrationVisualizer.quit_cb.
Proof.
  assert (Hinit :
    returned (@RegistrationVisualizer.__init__ numpy_Z true []) =
      Some registration_viewer) by reflexivity.
  split; [exact Hinit |].
  destruct (@key_bindings_of_the_viewer numpy_Z open3d_Z) as (H0 & _).
  rewrite !(H0 [] registration_viewer _ Hinit). split; reflexivity.
Defined.

Section RegistrationViewpoint.
Context `{NumPy} `{!RegistrationVisualizer.Open3D}.
Import RegistrationVisualizer.
Implicit Types (w : World) (cb : Callback) (script rest : list (list Z)).

(** The polling loop for an invariant that the callbacks of the pressed
    keys keep; what is left of the script is a part of it. *)
Lemma rv_poll_loop_good (I : World -> Prop) table good script :
  (forall w, I w -> key_callbacks (vis (this w)) = table) ->
  (forall w n, I w -> I (set_vis (vis_with_polls n) w)) ->
  (forall w n, I w -> I (set_vis (vis_with_renders n) w)) ->
  (forall cb, good cb -> keeps I (run_callback cb)) ->
  Forall (Forall (fun key => forall cb, table !! key = Some cb -> good cb))
    script ->
  triple I (poll_loop script)
    (fun rest w =>
       I w /\
       Forall (Forall (fun key => forall cb, table !! key = Some cb -> good cb))
         rest)
    (fun _ => I).
Proof.
  intros Htable Hpolls Hrenders Hgood.
  induction 1 as [|keys rest Hkeys Hrest IH]; intros w Hw.
  - rewrite rv_poll_loop_nil. destruct (block_vis (this w)); [exact Hw |].
    split; [exact Hw | constructor].
  - rewrite rv_poll_loop_cons. destruct (block_vis (this w)).
    + pose proof (poll_keeps I (fun _ => I) table good keys Htable Hpolls
                    Hrenders Hgood Hkeys w Hw) as Hstep.
      destruct ((poll_events keys ;; update_renderer)%proc w) as [[] w1| | |];
        try exact Hstep.
      destruct (play_crun (this w1)); [now split | now apply IH].
    + split; [exact Hw | now constructor].
Qed.

Lemma update_geometries_viewpoint src kps tgt pose w :
  exists w',
    _update_geometries src kps tgt pose w = Ok tt w' /\
    reset_bounding_box (this w') = false /\
    view_resets (vis (this w')) =
      (if reset_bounding_box (this w) then S (view_resets (vis (this w)))
       else view_resets (vis (this w))) /\
    key_callbacks (vis (this w')) = key_callbacks (vis (this w)).
Proof.
  destruct w as [[bv pc rbb s k t fr [] rm rs rk gv rt st] out].
  destruct rs, rk, rm, gv, rt, rbb; cbn; eexists; (split; [reflexivity |]);
    cbn; now repeat split.
Qed.

(** Only [_center_viewpoint] resets the view point, and no callback sets
    [reset_bounding_box]. *)
Lemma run_callback_viewpoint n rbb cb :
  cb <> center_viewpoint_cb ->
  keeps (fun w => view_resets (vis (this w)) = n /\
                  reset_bounding_box (this w) = rbb)
    (run_callback cb).
Proof.
  destruct cb; try congruence; intros _; rv_blocks; rv_walk; rv_side.
Qed.

Lemma update_viewpoint table n self src kps lmap pose script :
  let I w := key_callbacks (vis (this w)) = table /\
             (view_resets (vis (this w)) = n /\
              reset_bounding_box (this w) = false) in
  let good_script :=
    Forall (Forall (fun key => forall cb,
      table !! key = Some cb -> cb <> center_viewpoint_cb)) in
  good_script script ->
  triple I (update self src kps lmap pose script)
    (fun rest w => I w /\ good_script rest) (fun _ => I).
Proof.
  intros I good_script Hscript. unfold update. cbn zeta.
  eapply triple_bind with (R := fun _ => I).
  { intros w (Ht & Hn & Hb).
    destruct (update_geometries_viewpoint src kps (point_cloud lmap) pose w)
      as (w' & -> & Hb' & Hn' & Ht').
    unfold I. rewrite Hb', Hn', Ht', Hb. now repeat split. }
  intros _.
  eapply triple_bind with (R := fun rest w => I w /\ good_script rest).
  { apply (rv_poll_loop_good I table (fun cb => cb <> center_viewpoint_cb));
      try exact Hscript.
    - now intros w [Ht _].
    - now intros [[? ? ? ? ? ? ? []] ?] k.
    - now intros [[? ? ? ? ? ? ? []] ?] k.
    - intros cb Hcb. apply keeps_conj;
        [apply run_callback_table | now apply run_callback_viewpoint]. }
  intros rest. eapply triple_bind with (R := fun _ w => I w /\ good_script rest).
  - apply triple_modify. intros [[? ? ? ? ? ? ? []] ?] [Hw Hr]. now split.
  - intros _. now apply triple_ret.
Qed.

Lemma run_viewpoint table n self frames script :
  let I w := key_callbacks (vis (this w)) = table /\
             (view_resets (vis (this w)) = n /\
              reset_bounding_box (this w) = false) in
  Forall (Forall (fun key => forall cb,
    table !! key = Some cb -> cb <> center_viewpoint_cb)) script ->
  keeps I (run self frames script).
Proof.
  intros I. unfold run. revert script.
  induction frames as [|f frames IH]; intros script Hscript; cbn [session].
  - apply keeps_ret.
  - eapply triple_bind.
    + cbn [viewer_update viewer]. now apply (update_viewpoint table n).
    + intros rest w [Hw Hrest]. now apply IH.
Qed.

Lemma keeps_viewpoint_good w script :
  Forall (Forall (fun key => keeps_viewpoint w key = true)) script ->
  Forall (Forall (fun key => forall cb,
    key_callbacks (vis (this w)) !! key = Some cb ->
    cb <> center_viewpoint_cb)) script.
Proof.
  intros Hs. eapply Forall_impl; [exact Hs |]. cbn beta. intros keys Hk.
  eapply Forall_impl; [exact Hk |]. cbn beta. intros key Hkey cb Hcb.
  unfold keeps_viewpoint, bound_to in Hkey. rewrite Hcb in Hkey.
  now destruct cb.
Qed.

Lemma rv_init_viewpoint out :
  exists w,
    __init__ true out = Ok w (stdout w) /\
    reset_bounding_box (this w) = true /\ view_resets (vis (this w)) = 0.
Proof. eexists. split; [reflexivity |]. now vm_compute. Qed.

(** X14 (the view point is reset on the first frame only).  A new viewer
    has [reset_bounding_box] set.  [_update_geometries] resets the view
    point exactly when the flag is set, and clears the flag.  Nothing sets
    it again: once a frame has been laid out, a session in which no key
    bound to [_center_viewpoint] is pressed never resets the view point,
    however it ends. *)
Theorem view_point_reset_on_the_first_frame_only :
  (forall out w,
     returned (__init__ true out) = Some w ->
     reset_bounding_box (this w) = true /\ view_resets (vis (this w)) = 0) /\
  (forall src kps tgt pose w,
     let w' := world_of (_update_geometries src kps tgt pose w) in
     reset_bounding_box (this w') = false /\
     view_resets (vis (this w')) =
       (if reset_bounding_box (this w) then S (view_resets (vis (this w)))
        else view_resets (vis (this w)))) /\
  (forall self frames script w,
     reset_bounding_box (this w) = false ->
     Forall (Forall (fun key => keeps_viewpoint w key = true)) script ->
     let w' := world_of (run self frames script w) in
     reset_bounding_box (this w') = false /\
     view_resets (vis (this w')) = view_resets (vis (this w))).
Proof.
  split; [| split].
  - intros out w Hw.
    destruct (rv_init_viewpoint out) as (w0 & Hi & Hflag).
    rewrite Hi in Hw. now injection Hw as <-.
  - intros src kps tgt pose w w'. subst w'.
    destruct (update_geometries_viewpoint src kps tgt pose w)
      as (w' & -> & Hb & Hn & _).
    now split.
  - intros self frames script w Hb Hscript w'. subst w'.
    pose proof (triple_world_of _ _ _ w
                  (run_viewpoint (key_callbacks (vis (this w)))
                     (view_resets (vis (this w))) self frames script
                     (keeps_viewpoint_good w script Hscript))
                  (conj eq_refl (conj eq_refl Hb))) as (_ & Hn & Hb').
    now split.
Qed.

End RegistrationViewpoint.

Section RegistrationStepping.
Context `{NumPy} `{!RegistrationVisualizer.Open3D}.
Import RegistrationVisualizer.
Implicit Types (w : World) (cb : Callback) (script rest : list (list Z))
  (table : gmap Z Callback).

Lemma calm_key_good w key :
  calm_key w key = true ->
  forall cb, key_callbacks (vis (this w)) !! key = Some cb ->
  cb <> start_stop_cb /\ cb <> next_frame_cb /\ cb <> quit_cb.
Proof.
  unfold calm_key, advance, quits, bound_to. intros Hk cb Hcb.
  rewrite Hcb in Hk. now destruct cb.
Qed.

Lemma calm_key_table w w' key :
  key_callbacks (vis (this w')) = key_callbacks (vis (this w)) ->
  calm_key w' key = calm_key w key.
Proof. unfold calm_key, advance, quits, bound_to. now intros ->. Qed.

Lemma for_each_app {A} (xs ys : list A) (body : A -> M World unit) w :
  for_each (xs ++ ys) body w =
  match for_each xs body w with
  | Ok _ w1 => for_each ys body w1
  | Exit code w1 => Exit code w1
  | Raise e w1 => Raise e w1
  | Waiting w1 => Waiting w1
  end.
Proof.
  revert w. induction xs as [|x xs IH]; intros w; cbn [app for_each].
  - reflexivity.
  - unfold bind. destruct (body x w) as [[] w1| | |]; auto.
Qed.

(** Keys that are calm: their callbacks return and leave the playback
    flags, the key table and the count of polls alone. *)
Lemma for_each_press_calm table pm be n keys :
  Forall (fun key => forall cb, table !! key = Some cb ->
            cb <> start_stop_cb /\ cb <> next_frame_cb /\ cb <> quit_cb) keys ->
  runs (fun w => key_callbacks (vis (this w)) = table /\
                 (play_crun (this w) = pm /\ block_vis (this w) = be) /\
                 polls (vis (this w)) = n)
    (for_each keys press).
Proof.
  induction 1 as [|key keys Hkey _ IH]; cbn [for_each].
  - apply runs_ret.
  - apply runs_bind; [| intros _; exact IH].
    unfold press. intros w (Ht & Hpb & Hn). unfold bind, gets. rewrite Ht.
    destruct (table !! key) as [cb|] eqn:Hcb; [| now repeat split].
    destruct (Hkey cb eq_refl) as (Hs & Hnf & Hq).
    apply (run_callback_runs _ cb Hq); [| now repeat split].
    apply keeps_conj; [apply run_callback_table |].
    apply keeps_conj;
      [now apply run_callback_playback | apply run_callback_polls].
Qed.

(** One poll with calm keys only. *)
Lemma rv_poll_calm keys w :
  Forall (fun key => calm_key w key = true) keys ->
  exists w1,
    (poll_events keys ;; update_renderer)%proc w = Ok tt w1 /\
    key_callbacks (vis (this w1)) = key_callbacks (vis (this w)) /\
    play_crun (this w1) = play_crun (this w) /\
    block_vis (this w1) = block_vis (this w) /\
    polls (vis (this w1)) = S (polls (vis (this w))).
Proof.
  intros Hkeys.
  assert (Hgood : Forall (fun key => forall cb,
            key_callbacks (vis (this w)) !! key = Some cb ->
            cb <> start_stop_cb /\ cb <> next_frame_cb /\ cb <> quit_cb) keys).
  { eapply Forall_impl; [exact Hkeys |]. intros key. apply calm_key_good. }
  set (w0 := set_vis (fun v => vis_with_polls (S (polls v)) v) w).
  pose proof (for_each_press_calm (key_callbacks (vis (this w)))
                (play_crun (this w)) (block_vis (this w))
                (S (polls (vis (this w)))) keys Hgood w0) as Hf.
  unfold bind at 1. unfold poll_events. unfold bind at 1. cbn [modify].
  fold w0.
  destruct (for_each keys press w0) as [[] w1| | |].
  2-4: exfalso; apply Hf; subst w0; now destruct w as [[? ? ? ? ? ? ? []] ?].
  destruct Hf as (Ht & (Hp & Hb) & Hn);
    [subst w0; now destruct w as [[? ? ? ? ? ? ? []] ?] |].
  cbn [update_renderer modify]. eexists. split; [reflexivity |].
  destruct w1 as [[? ? ? ? ? ? ? []] ?]. cbn in *. now repeat split.
Qed.

(** One poll in which Step is pressed once, among calm keys. *)
Lemma rv_poll_step before key after w :
  Forall (fun k => calm_key w k = true) before ->
  step_key w key = true ->
  Forall (fun k => calm_key w k = true) after ->
  exists w1,
    (poll_events (before ++ key :: after) ;; update_renderer)%proc w =
      Ok tt w1 /\
    key_callbacks (vis (this w1)) = key_callbacks (vis (this w)) /\
    play_crun (this w1) = play_crun (this w) /\
    block_vis (this w1) = negb (block_vis (this w)) /\
    polls (vis (this w1)) = S (polls (vis (this w))).
Proof.
  intros Hbefore Hkey Hafter.
  set (table := key_callbacks (vis (this w))).
  assert (Hgood : forall keys, Forall (fun k => calm_key w k = true) keys ->
            Forall (fun key => forall cb, table !! key = Some cb ->
              cb <> start_stop_cb /\ cb <> next_frame_cb /\ cb <> quit_cb) keys).
  { intros keys Hk. eapply Forall_impl; [exact Hk |]. intros k. apply calm_key_good. }
  set (w0 := set_vis (fun v => vis_with_polls (S (polls v)) v) w).
  pose proof (for_each_press_calm table (play_crun (this w)) (block_vis (this w))
                (S (polls (vis (this w)))) before (Hgood _ Hbefore) w0) as Hb.
  unfold bind at 1. unfold poll_events. unfold bind at 1. cbn [modify].
  fold w0. rewrite for_each_app.
  destruct (for_each before press w0) as [[] w1| | |].
  2-4: exfalso; apply Hb; subst w0 table; now destruct w as [[? ? ? ? ? ? ? []] ?].
  destruct Hb as (Ht1 & (Hp1 & Hb1) & Hn1);
    [subst w0 table; now destruct w as [[? ? ? ? ? ? ? []] ?] |].
  cbn [for_each]. unfold bind at 1. unfold press at 1. unfold bind at 1.
  cbn [gets]. rewrite Ht1.
  unfold step_key, bound_to in Hkey. fold table in Hkey.
  destruct (table !! key) as [[]|]; try discriminate.
  cbn [run_callback _next_frame modify].
  pose proof (for_each_press_calm table (play_crun (this w))
                (negb (block_vis (this w))) (S (polls (vis (this w)))) after
                (Hgood _ Hafter)
                (set_this (fun s => with_block_vis (negb (block_vis s)) s) w1))
    as Ha.
  destruct (for_each after press _) as [[] w2| | |].
  2-4: exfalso; apply Ha; destruct w1 as [[? ? ? ? ? ? ? []] ?]; cbn in *;
    subst; now repeat split.
  destruct Ha as (Ht2 & (Hp2 & Hb2) & Hn2);
    [destruct w1 as [[? ? ? ? ? ? ? []] ?]; cbn in *; subst; now repeat split |].
  cbn [update_renderer modify]. eexists. split; [reflexivity |].
  destruct w2 as [[? ? ? ? ? ? ? []] ?]. cbn in *. now repeat split.
Qed.

End RegistrationStepping.

Section RegistrationStepSession.
Context `{NumPy} `{!RegistrationVisualizer.Open3D}.
Import RegistrationVisualizer.
Implicit Types (w : World) (cb : Callback) (script rest : list (list Z))
  (table : gmap Z Callback).

Lemma calm_polls_table w w' script :
  key_callbacks (vis (this w')) = key_callbacks (vis (this w)) ->
  Forall (Forall (fun k => calm_key w k = true)) script ->
  Forall (Forall (fun k => calm_key w' k = true)) script.
Proof.
  intros Ht Hs. eapply Forall_impl; [exact Hs |]. cbn beta. intros keys Hk.
  eapply Forall_impl; [exact Hk |]. cbn beta. intros k.
  now rewrite (calm_key_table w w' k Ht).
Qed.

Lemma step_key_table w w' key :
  key_callbacks (vis (this w')) = key_callbacks (vis (this w)) ->
  step_key w' key = step_key w key.
Proof. unfold step_key, bound_to. now intros ->. Qed.

Lemma rv_poll_loop_calm keys rest w :
  play_crun (this w) = false -> block_vis (this w) = true ->
  Forall (fun k => calm_key w k = true) keys ->
  exists w1,
    poll_loop (keys :: rest) w = poll_loop rest w1 /\
    key_callbacks (vis (this w1)) = key_callbacks (vis (this w)) /\
    play_crun (this w1) = false /\ block_vis (this w1) = true /\
    polls (vis (this w1)) = S (polls (vis (this w))).
Proof.
  intros Hp Hb Hkeys. rewrite rv_poll_loop_cons, Hb.
  destruct (rv_poll_calm keys w Hkeys) as (w1 & -> & Ht & Hp1 & Hb1 & Hn).
  exists w1. rewrite Hp1, Hb1, Hp, Hb. now repeat split.
Qed.

Lemma rv_poll_loop_step before key after rest w :
  play_crun (this w) = false -> block_vis (this w) = true ->
  Forall (fun k => calm_key w k = true) before ->
  step_key w key = true ->
  Forall (fun k => calm_key w k = true) after ->
  exists w1,
    poll_loop ((before ++ key :: after) :: rest) w = Ok rest w1 /\
    key_callbacks (vis (this w1)) = key_callbacks (vis (this w)) /\
    play_crun (this w1) = false /\ block_vis (this w1) = false /\
    polls (vis (this w1)) = S (polls (vis (this w))).
Proof.
  intros Hp Hb Hbefore Hkey Hafter. rewrite rv_poll_loop_cons, Hb.
  destruct (rv_poll_step before key after w Hbefore Hkey Hafter)
    as (w1 & -> & Ht & Hp1 & Hb1 & Hn).
  rewrite Hb in Hb1. cbn in Hb1.
  exists w1. rewrite Hp1, Hp, (rv_poll_loop_free rest w1 Hb1).
  now repeat split.
Qed.

Lemma rv_poll_loop_calm_step calm_polls before key after rest w :
  play_crun (this w) = false -> block_vis (this w) = true ->
  Forall (Forall (fun k => calm_key w k = true)) calm_polls ->
  Forall (fun k => calm_key w k = true) before ->
  step_key w key = true ->
  Forall (fun k => calm_key w k = true) after ->
  exists w1,
    poll_loop (calm_polls ++ (before ++ key :: after) :: rest) w = Ok rest w1 /\
    key_callbacks (vis (this w1)) = key_callbacks (vis (this w)) /\
    play_crun (this w1) = false /\ block_vis (this w1) = false /\
    polls (vis (this w1)) = S (length calm_polls + polls (vis (this w))).
Proof.
  intros Hp Hb Hcalm. revert w Hp Hb Hcalm.
  induction calm_polls as [|keys calm_polls IH];
    intros w Hp Hb Hcalm Hbefore Hkey Hafter.
  - now apply rv_poll_loop_step.
  - apply Forall_cons in Hcalm as [Hkeys Hcalm]. cbn [app length].
    destruct (rv_poll_loop_calm keys
                (calm_polls ++ (before ++ key :: after) :: rest) w Hp Hb Hkeys)
      as (w1 & -> & Ht1 & Hp1 & Hb1 & Hn1).
    destruct (IH w1 Hp1 Hb1 (calm_polls_table w w1 _ Ht1 Hcalm)) as
      (w2 & -> & Ht2 & Hp2 & Hb2 & Hn2).
    + eapply Forall_impl; [exact Hbefore |]. intros k.
      now rewrite (calm_key_table w w1 k Ht1).
    + now rewrite (step_key_table w w1 key Ht1).
    + eapply Forall_impl; [exact Hafter |]. intros k.
      now rewrite (calm_key_table w w1 k Ht1).
    + exists w2. rewrite Ht2, Ht1, Hn2, Hn1. repeat split; auto; lia.
Qed.

(** What the layout of a frame leaves alone. *)
Lemma update_geometries_playback src kps tgt pose w :
  exists w1,
    _update_geometries src kps tgt pose w = Ok tt w1 /\
    key_callbacks (vis (this w1)) = key_callbacks (vis (this w)) /\
    play_crun (this w1) = play_crun (this w) /\
    block_vis (this w1) = block_vis (this w) /\
    polls (vis (this w1)) = polls (vis (this w)).
Proof.
  destruct (update_geometries_eq src kps tgt pose w)
    as (w1 & Hg & _ & _ & _ & _ & _ & _ & _ & _ & _ & Ht & Hn & Hpb & _).
  exists w1. injection Hpb as Hb Hp. now repeat split.
Qed.

Lemma rv_update_step self src kps lmap pose calm_polls before key after rest w :
  play_crun (this w) = false -> block_vis (this w) = true ->
  Forall (Forall (fun k => calm_key w k = true)) calm_polls ->
  Forall (fun k => calm_key w k = true) before ->
  step_key w key = true ->
  Forall (fun k => calm_key w k = true) after ->
  exists w',
    update self src kps lmap pose
      (calm_polls ++ (before ++ key :: after) :: rest) w = Ok rest w' /\
    key_callbacks (vis (this w')) = key_callbacks (vis (this w)) /\
    play_crun (this w') = false /\ block_vis (this w') = true /\
    polls (vis (this w')) = S (length calm_polls + polls (vis (this w))).
Proof.
  intros Hp Hb Hcalm Hbefore Hkey Hafter.
  destruct (update_geometries_playback src kps (point_cloud lmap) pose w)
    as (w1 & Hg & Ht1 & Hp1 & Hb1 & Hn1).
  rewrite (rv_update_eq _ _ _ _ _ _ _ _ Hg).
  rewrite Hp in Hp1. rewrite Hb in Hb1.
  destruct (rv_poll_loop_calm_step calm_polls before key after rest w1 Hp1 Hb1)
    as (w2 & -> & Ht2 & Hp2 & Hb2 & Hn2).
  - now apply (calm_polls_table w w1).
  - eapply Forall_impl; [exact Hbefore |]. intros k.
    now rewrite (calm_key_table w w1 k Ht1).
  - now rewrite (step_key_table w w1 key Ht1).
  - eapply Forall_impl; [exact Hafter |]. intros k.
    now rewrite (calm_key_table w w1 k Ht1).
  - eexists. split; [reflexivity |].
    destruct w2 as [[? ? ? ? ? ? ? []] ?]. cbn in *. subst.
    rewrite Ht1, Hn1. now repeat split.
Qed.

(** X15 (stepping, open3d backend).  On a viewer that is paused with the
    blocking flag set, as a new one is, [update] polls through the polls in
    which only calm keys are pressed (keys with no callback, or with one
    other than [_start_stop], [_next_frame] and [_quit]), returns at the
    poll in which the Step key is pressed once among calm keys, and leaves
    the viewer paused with the blocking flag set again.  So a session of N
    frames takes exactly N presses of the Step key, one per poll: it
    returns with the rest of the script after N polls. *)
Theorem step_key_steps_one_frame :
  (forall self src kps lmap pose calm_polls before key after rest w,
     play_crun (this w) = false -> block_vis (this w) = true ->
     Forall (Forall (fun k => calm_key w k = true)) calm_polls ->
     Forall (fun k => calm_key w k = true) before ->
     step_key w key = true ->
     Forall (fun k => calm_key w k = true) after ->
     let r := update self src kps lmap pose
                (calm_polls ++ (before ++ key :: after) :: rest) w in
     returned r = Some rest /\
     polls (vis (this (world_of r))) =
       S (length calm_polls + polls (vis (this w))) /\
     play_crun (this (world_of r)) = false /\
     block_vis (this (world_of r)) = true) /\
  (forall self frames keys rest w,
     play_crun (this w) = false -> block_vis (this w) = true ->
     Forall (fun k => step_key w k = true) keys ->
     length keys = length frames ->
     let r := run self frames (map (fun k => [k]) keys ++ rest) w in
     returned r = Some rest /\
     polls (vis (this (world_of r))) = length frames + polls (vis (this w)) /\
     play_crun (this (world_of r)) = false /\
     block_vis (this (world_of r)) = true).
Proof.
  split.
  - intros self src kps lmap pose calm_polls before key after rest w
      Hp Hb Hcalm Hbefore Hkey Hafter r. subst r.
    destruct (rv_update_step self src kps lmap pose calm_polls before key after
                rest w Hp Hb Hcalm Hbefore Hkey Hafter)
      as (w' & -> & _ & Hp' & Hb' & Hn').
    now repeat split.
  - intros self frames. unfold run.
    induction frames as [|f frames IH]; intros keys rest w Hp Hb Hk Hlen.
    + destruct keys; [| discriminate]. now repeat split.
    + destruct keys as [|key keys]; [discriminate |].
      apply Forall_cons in Hk as [Hkey Hk]. injection Hlen as Hlen.
      rewrite session_cons. cbn [viewer_update viewer app map].
      destruct (rv_update_step self (frame_source f) (frame_keypoints f)
                  (frame_target_map f) (frame_pose f) [] [] key []
                  (map (fun k => [k]) keys ++ rest) w Hp Hb
                  (List.Forall_nil _) (List.Forall_nil _) Hkey
                  (List.Forall_nil _))
        as (w1 & Hu & Ht1 & Hp1 & Hb1 & Hn1).
      cbn [app] in Hu. rewrite Hu.
      assert (Hk1 : Forall (fun k => step_key w1 k = true) keys).
      { eapply Forall_impl; [exact Hk |]. intros k.
        now rewrite (step_key_table w w1 k Ht1). }
      destruct (IH keys rest w1 Hp1 Hb1 Hk1 Hlen) as (Hret & Hn & Hp' & Hb').
      rewrite Hret, Hn, Hp', Hb', Hn1. cbn [length]. repeat split; lia.
Qed.

(** Playing with the blocking flag set and only calm keys at the poll: one
    poll, and the flag is clear when [update] returns. *)
Lemma rv_update_calm_tick self src kps lmap pose keys rest w :
  play_crun (this w) = true -> block_vis (this w) = true ->
  Forall (fun k => calm_key w k = true) keys ->
  exists w',
    update self src kps lmap pose (keys :: rest) w = Ok rest w' /\
    key_callbacks (vis (this w')) = key_callbacks (vis (this w)) /\
    play_crun (this w') = true /\ block_vis (this w') = false /\
    polls (vis (this w')) = S (polls (vis (this w))).
Proof.
  intros Hp Hb Hkeys.
  destruct (update_geometries_playback src kps (point_cloud lmap) pose w)
    as (w1 & Hg & Ht1 & Hp1 & Hb1 & Hn1).
  rewrite (rv_update_eq _ _ _ _ _ _ _ _ Hg).
  rewrite rv_poll_loop_cons, Hb1, Hb.
  destruct (rv_poll_calm keys w1) as (w2 & -> & Ht2 & Hp2 & Hb2 & Hn2).
  { eapply Forall_impl; [exact Hkeys |]. intros k.
    now rewrite (calm_key_table w w1 k Ht1). }
  rewrite Hp2, Hp1, Hp. eexists. split; [reflexivity |].
  unfold set_this. cbn.
  rewrite Ht2, Ht1, Hp2, Hp1, Hp, Hb2, Hb1, Hb, Hn2, Hn1. now repeat split.
Qed.

Lemma rv_update_free_table self src kps lmap pose script w :
  play_crun (this w) = true -> block_vis (this w) = false ->
  exists w',
    update self src kps lmap pose script w = Ok script w' /\
    key_callbacks (vis (this w')) = key_callbacks (vis (this w)) /\
    play_crun (this w') = true /\ block_vis (this w') = true /\
    polls (vis (this w')) = polls (vis (this w)).
Proof.
  intros Hp Hb.
  destruct (rv_update_playing_free self src kps lmap pose script w Hp Hb)
    as (w' & Hu & Hn & Hp' & Hb').
  exists w'. destruct (rv_update_returns _ _ _ _ _ _ _ _ _ Hu) as (_ & _ & Ht & _).
  now repeat split.
Qed.

(** X16 (free running, open3d backend).  On a viewer that plays, with only
    calm keys pressed, [update] never waits, and it polls on every second
    call only: a session of N frames returns after [(N + 1) / 2] polls when
    the blocking flag is set at the start and after [N / 2] polls when it
    is clear, one entry of the script per poll. *)
Theorem open3d_polls_every_second_frame_when_playing self frames script w :
  play_crun (this w) = true ->
  Forall (Forall (fun k => calm_key w k = true)) script ->
  let k := (length frames + (if block_vis (this w) then 1 else 0)) / 2 in
  k <= length script ->
  let r := run self frames script w in
  returned r = Some (drop k script) /\
  polls (vis (this (world_of r))) = k + polls (vis (this w)) /\
  play_crun (this (world_of r)) = true.
Proof.
  unfold run. revert script w.
  induction frames as [|f frames IH]; intros script w Hp Hc Hk.
  - cbn [length] in *. cbn [session ret returned world_of].
    destruct (block_vis (this w)); cbn; rewrite drop_0; now repeat split.
  - rewrite session_cons. cbn [viewer_update viewer length] in *.
    destruct (block_vis (this w)) eqn:Hb.
    + assert (Hhalf : (S (length frames) + 1) / 2 = S ((length frames + 0) / 2)).
      { replace (S (length frames) + 1) with (length frames + 0 + 1 * 2) by lia.
        rewrite Nat.div_add by lia. lia. }
      rewrite Hhalf in *.
      destruct script as [|keys rest]; [cbn [length] in Hk; lia |].
      apply Forall_cons in Hc as [Hkeys Hc].
      destruct (rv_update_calm_tick self (frame_source f) (frame_keypoints f)
                  (frame_target_map f) (frame_pose f) keys rest w Hp Hb Hkeys)
        as (w1 & -> & Ht1 & Hp1 & Hb1 & Hn1).
      specialize (IH rest w1 Hp1 (calm_polls_table w w1 _ Ht1 Hc)).
      rewrite Hb1 in IH. cbn [length] in Hk.
      destruct (IH ltac:(lia)) as (Hret & Hn & Hp').
      rewrite Hret, Hn, Hp', Hn1. cbn [drop]. repeat split; lia.
    + destruct (rv_update_free_table self (frame_source f) (frame_keypoints f)
                  (frame_target_map f) (frame_pose f) script w Hp Hb)
        as (w1 & -> & Ht1 & Hp1 & Hb1 & Hn1).
      specialize (IH script w1 Hp1 (calm_polls_table w w1 _ Ht1 Hc)).
      rewrite Hb1 in IH.
      replace (S (length frames) + 0) with (length frames + 1) in * by lia.
      destruct (IH Hk) as (Hret & Hn & Hp').
      rewrite Hret, Hn, Hp', Hn1. now repeat split.
Qed.

End RegistrationStepSession.

Section SessionTriples.
Context `{Viewer Self W Ev}.

Lemma session_triple (I : W -> Prop) E self frames script :
  (forall src kps lmap pose script,
     triple I (viewer_update self src kps lmap pose script) (fun _ => I) E) ->
  triple I (session self frames script) (fun _ => I) E.
Proof.
  intros Hu. revert script.
  induction frames as [|f frames IH]; intros script; cbn [session].
  - now apply triple_ret.
  - apply inv_bind; [apply Hu | intros rest; apply IH].
Qed.

End SessionTriples.

Section RegistrationEndings.
Context `{NumPy} `{!RegistrationVisualizer.Open3D}.
Import RegistrationVisualizer.
Implicit Types (w : World) (cb : Callback) (script rest : list (list Z))
  (table : gmap Z Callback).

Lemma rv_poll_loop_triple (I : World -> Prop) E table script :
  (forall w, I w -> key_callbacks (vis (this w)) = table) ->
  (forall w n, I w -> I (set_vis (vis_with_polls n) w)) ->
  (forall w n, I w -> I (set_vis (vis_with_renders n) w)) ->
  (forall w, I w -> E Waits w) ->
  (forall cb, triple I (run_callback cb) (fun _ => I) E) ->
  triple I (poll_loop script) (fun _ => I) E.
Proof.
  intros Htable Hpolls Hrenders Hwait Hcb.
  induction script as [|keys rest IH]; intros w Hw.
  - rewrite rv_poll_loop_nil. destruct (block_vis (this w)); [now apply Hwait | exact Hw].
  - rewrite rv_poll_loop_cons. destruct (block_vis (this w)); [| exact Hw].
    pose proof (poll_keeps I E table (fun _ => True) keys Htable Hpolls
                  Hrenders (fun cb _ => Hcb cb)) as Hstep.
    specialize (Hstep ltac:(now apply Forall_forall) w Hw).
    destruct ((poll_events keys ;; update_renderer)%proc w) as [[] w1| | |];
      try exact Hstep.
    destruct (play_crun (this w1)); [exact Hstep | now apply IH].
Qed.

(** No callback but [_quit] touches the window. *)
Lemma run_callback_window win cb :
  cb <> quit_cb ->
  keeps (fun w => window (vis (this w)) = win) (run_callback cb).
Proof.
  destruct cb; try congruence; intros _; rv_blocks; rv_walk; rv_side.
Qed.

Lemma run_callback_endings table win cb :
  triple (fun w => key_callbacks (vis (this w)) = table /\
                   window (vis (this w)) = win)
    (run_callback cb)
    (fun _ w => key_callbacks (vis (this w)) = table /\
                window (vis (this w)) = win)
    (fun e w => e = Exits 0 /\ window (vis (this w)) = Destroyed).
Proof.
  destruct cb;
    [ intros [[? ? ? ? ? ? ? []] ?] _; cbn; now split | ..];
    (apply runs_triple; apply run_callback_runs; [discriminate |];
     apply keeps_conj; [apply run_callback_table | now apply run_callback_window]).
Qed.

Lemma rv_run_endings table win self frames script :
  triple (fun w => key_callbacks (vis (this w)) = table /\
                   window (vis (this w)) = win)
    (run self frames script)
    (fun _ w => key_callbacks (vis (this w)) = table /\
                window (vis (this w)) = win)
    (fun e w => (e = Exits 0 /\ window (vis (this w)) = Destroyed) \/
                (e = Waits /\ window (vis (this w)) = win)).
Proof.
  unfold run. apply session_triple. intros src kps lmap pose script'.
  cbn [viewer_update viewer]. unfold update. cbn zeta.
  apply inv_bind.
  { intros w [Ht Hw].
    destruct (update_geometries_eq src kps (point_cloud lmap) pose w)
      as (w' & Hg & _).
    rewrite Hg. rewrite <- Ht, <- Hw. clear Ht Hw.
    destruct w as [[bv pc rbb s k t fr [] rm rs rk gv rt st] out].
    destruct rs, rk, rm, gv, rt, rbb; cbn in Hg; injection Hg as <-;
      now split. }
  intros _. apply inv_bind.
  { apply (rv_poll_loop_triple _ _ table).
    - now intros w [Ht _].
    - now intros [[? ? ? ? ? ? ? []] ?] n.
    - now intros [[? ? ? ? ? ? ? []] ?] n.
    - intros w [_ Hw]. now right.
    - intros cb. eapply triple_conseq;
        [apply (run_callback_endings table win cb) | auto | auto |].
      intros e w He. now left. }
  intros rest. apply inv_bind; [| intros _; now apply triple_ret].
  apply triple_modify. now intros [[? ? ? ? ? ? ? []] ?].
Qed.

Lemma rv_init_window out :
  exists w,
    __init__ true out = Ok w (stdout w) /\
    window (vis (this w)) = Opened "RegistrationVisualizer" 1920 1080.
Proof. eexists. split; [reflexivity |]. now vm_compute. Qed.

(** X17 (how a session on the open3d viewer can end).  A new viewer has
    its window open, named after the class, 1920 by 1080.  Whatever the
    frames and whatever keys are pressed: when a session returns, or is
    still polling at the end of the script, the window is as it was; and
    when it ends the process, the status is 0 and the window is destroyed
    (a key bound to [_quit]). *)
Theorem open3d_session_endings :
  (forall out w,
     returned (__init__ true out) = Some w ->
     window (vis (this w)) = Opened "RegistrationVisualizer" 1920 1080) /\
  (forall self frames script w,
     (forall rest w',
        run self frames script w = Ok rest w' ->
        window (vis (this w')) = window (vis (this w))) /\
     (forall w',
        run self frames script w = Waiting w' ->
        window (vis (this w')) = window (vis (this w))) /\
     (forall code w',
        run self frames script w = Exit code w' ->
        code = 0%Z /\ window (vis (this w')) = Destroyed)).
Proof.
  split.
  - intros out w Hw. destruct (rv_init_window out) as (w0 & Hi & Hwin).
    rewrite Hi in Hw. now injection Hw as <-.
  - intros self frames script w.
    pose proof (rv_run_endings (key_callbacks (vis (this w)))
                  (window (vis (this w))) self frames script w
                  (conj eq_refl eq_refl)) as He.
    split; [| split].
    + intros rest w' Hr. rewrite Hr in He. now destruct He.
    + intros w' Hr. rewrite Hr in He.
      destruct He as [[Hc _] | [_ Hw]]; [discriminate | exact Hw].
    + intros code w' Hr. rewrite Hr in He.
      destruct He as [[Hc Hd] | [Hc _]]; [injection Hc as <- | discriminate].
      now split.
Qed.

(** No callback and no frame refreshes the cached [state]. *)
Lemma run_callback_state st cb :
  keeps (fun w => state (this w) = st) (run_callback cb).
Proof. destruct cb; rv_blocks; rv_walk; rv_side. Qed.

Lemma update_geometries_state st src kps tgt pose :
  keeps (fun w => state (this w) = st) (_update_geometries src kps tgt pose).
Proof.
  intros w Hw.
  destruct (update_geometries_eq src kps tgt pose w) as (w' & Hg & _).
  rewrite Hg. rewrite <- Hw. clear Hw.
  destruct w as [[bv pc rbb s k t fr [] rm rs rk gv rt st'] out].
  destruct rs, rk, rm, gv, rt, rbb; cbn in Hg; now injection Hg as <-.
Qed.

(** X18 (the cached state is never refreshed).  The constructor stores
    the triple (render_map, render_keypoints, render_source) in
    [self.state]: (true, false, true).  No frame and no key callback
    assigns it again: after any session, however it ends, [self.state] is
    still what it was, also when the visibility toggles have changed the
    three flags. *)
Theorem cached_state_is_never_refreshed :
  (forall out w,
     returned (__init__ true out) = Some w ->
     state (this w) = (true, false, true) /\
     state (this w) =
       (render_map (this w), render_keypoints (this w), render_source (this w))) /\
  (forall self frames script w,
     state (this (world_of (run self frames script w))) = state (this w)).
Proof.
  split.
  - intros out w Hw.
    assert (Hs : exists w0, __init__ true out = Ok w0 (stdout w0) /\
              state (this w0) = (true, false, true) /\
              state (this w0) =
                (render_map (this w0), render_keypoints (this w0),
                 render_source (this w0))).
    { eexists. split; [reflexivity |]. split; reflexivity. }
    destruct Hs as (w0 & Hi & Hs). rewrite Hi in Hw. now injection Hw as <-.
  - intros self frames script w.
    apply (triple_world_of _ _ _ w
             (rv_run_keeps (fun w' => state (this w') = state (this w))
                self frames script
                (update_geometries_state _) (run_callback_state _)
                ltac:(now intros [[? ? ? ? ? ? ? []] ?])
                ltac:(now intros [[? ? ? ? ? ? ? []] ?])
                ltac:(now intros [[? ? ? ? ? ? ? []] ?])) eq_refl).
Qed.

End RegistrationEndings.

Section RegistrationBackground.
Context `{NumPy} `{!RegistrationVisualizer.Open3D}.
Import RegistrationVisualizer.
Implicit Types (w : World) (cb : Callback) (script rest : list (list Z)).

(** Only the two background callbacks touch the render options. *)
Lemma run_callback_render_option bg ps cb :
  cb <> set_black_background_cb -> cb <> set_white_background_cb ->
  keeps (fun w => background_color (vis (this w)) = bg /\
                  point_size (vis (this w)) = ps)
    (run_callback cb).
Proof.
  destruct cb; try congruence; intros _ _; rv_blocks; rv_walk; rv_side.
Qed.

Lemma run_callback_black_or_white cb :
  keeps (fun w => (background_color (vis (this w)) = Some [0.0; 0.0; 0.0]%Q \/
                   background_color (vis (this w)) = Some [1.0; 1.0; 1.0]%Q) /\
                  point_size (vis (this w)) = Some 1%Z)
    (run_callback cb).
Proof.
  destruct cb.
  1-9: intros w [Hbg Hps];
    match goal with
    | |- context [run_callback ?cb] =>
        pose proof (run_callback_render_option
                      (background_color (vis (this w))) (Some 1%Z) cb
                      ltac:(discriminate) ltac:(discriminate) w
                      (conj eq_refl Hps)) as Hk;
        destruct (run_callback cb w) as [? w'|? w'|? w'|w'];
        destruct Hk as [-> Hps']; now split
    end.
  - intros [[? ? ? ? ? ? ? []] ?] [_ Hps]. cbn in *. split; [now left | exact Hps].
  - intros [[? ? ? ? ? ? ? []] ?] [_ Hps]. cbn in *. split; [now right | exact Hps].
Qed.

Lemma update_geometries_render_option src kps tgt pose :
  keeps (fun w => (background_color (vis (this w)) = Some [0.0; 0.0; 0.0]%Q \/
                   background_color (vis (this w)) = Some [1.0; 1.0; 1.0]%Q) /\
                  point_size (vis (this w)) = Some 1%Z)
    (_update_geometries src kps tgt pose).
Proof.
  intros w Hw.
  destruct (update_geometries_eq src kps tgt pose w) as (w' & Hg & _).
  rewrite Hg. revert Hw.
  destruct w as [[bv pc rbb s k t fr [] rm rs rk gv rt st] out].
  destruct rs, rk, rm, gv, rt, rbb; cbn in Hg; injection Hg as <-;
    cbn; tauto.
Qed.

Lemma rv_init_render_option out :
  exists w,
    __init__ true out = Ok w (stdout w) /\
    background_color (vis (this w)) = Some [0.0; 0.0; 0.0]%Q /\
    point_size (vis (this w)) = Some 1%Z.
Proof. eexists. split; [reflexivity |]. now vm_compute. Qed.

(** X20 (the render options).  A new viewer has a black background and
    points of size 1.  [_set_black_background] and [_set_white_background]
    set the background to black and to white, whatever it was; nothing else
    touches the render options, so after any session, however it ends, the
    background is black or white and the point size is 1. *)
Theorem background_is_black_or_white :
  (forall out w,
     returned (__init__ true out) = Some w ->
     background_color (vis (this w)) = Some [0.0; 0.0; 0.0]%Q /\
     point_size (vis (this w)) = Some 1%Z) /\
  (forall w,
     background_color
       (vis (this (world_of (run_callback set_black_background_cb w)))) =
       Some [0.0; 0.0; 0.0]%Q /\
     background_color
       (vis (this (world_of (run_callback set_white_background_cb w)))) =
       Some [1.0; 1.0; 1.0]%Q) /\
  (forall self frames script w,
     (background_color (vis (this w)) = Some [0.0; 0.0; 0.0]%Q \/
      background_color (vis (this w)) = Some [1.0; 1.0; 1.0]%Q) ->
     point_size (vis (this w)) = Some 1%Z ->
     let w' := world_of (run self frames script w) in
     (background_color (vis (this w')) = Some [0.0; 0.0; 0.0]%Q \/
      background_color (vis (this w')) = Some [1.0; 1.0; 1.0]%Q) /\
     point_size (vis (this w')) = Some 1%Z).
Proof.
  split; [| split].
  - intros out w Hw. destruct (rv_init_render_option out) as (w0 & Hi & Hro).
    rewrite Hi in Hw. now injection Hw as <-.
  - now intros [[? ? ? ? ? ? ? []] ?].
  - intros self frames script w Hbg Hps w'. subst w'.
    apply (triple_world_of _ _ _ w
             (rv_run_keeps _ self frames script
                update_geometries_render_option run_callback_black_or_white
                ltac:(now intros [[? ? ? ? ? ? ? []] ?])
                ltac:(now intros [[? ? ? ? ? ? ? []] ?])
                ltac:(now intros [[? ? ? ? ? ? ? []] ?])) (conj Hbg Hps)).
Qed.

End RegistrationBackground.

(** Witness of X20: the render options of a new viewer. *)
Lemma background_is_black_or_white_witness :
  returned (@RegistrationVisualizer.__init__ numpy_Z true []) =
    Some registration_viewer /\
  RegistrationVisualizer.background_color
    (RegistrationVisualizer.vis
       (RegistrationVisualizer.this registration_viewer)) =
    Some [0.0; 0.0; 0.0]%Q.
Proof.
  assert (Hinit :
    returned (@RegistrationVisualizer.__init__ numpy_Z true []) =
      Some registration_viewer) by reflexivity.
  split; [exact Hinit |].
  destruct (@background_is_black_or_white numpy_Z open3d_Z) as [H0 _].
  exact (proj1 (H0 [] registration_viewer Hinit)).
Defined.

(** Witness of X4: the two frames of the scenario, NEXT FRAME at each. *)
Lemma next_frame_steps_one_frame_witness :
  Kissualizer.ready kiss_viewer = true /\
  Kissualizer.play_mode (Kissualizer.cls kiss_viewer) = false /\
  Kissualizer.block_execution (Kissualizer.cls kiss_viewer) = true /\
  steps click_next = true /\
  returned
    (@Kissualizer.run numpy_Z persistent_values (Kissualizer.instance_at 0)
       [frame_1; frame_2] [click_next; click_next] kiss_viewer) = Some [] /\
  Kissualizer.ticks
    (world_of
       (@Kissualizer.run numpy_Z persistent_values (Kissualizer.instance_at 0)
          [frame_1; frame_2] [click_next; click_next] kiss_viewer)) =
    2 + Kissualizer.ticks kiss_viewer.
Proof.
  do 4 (split; [reflexivity |]).
  destruct (@next_frame_steps_one_frame numpy_Z persistent_values) as [_ HS].
  destruct (HS (Kissualizer.instance_at 0) [frame_1; frame_2]
              [click_next; click_next] [] kiss_viewer eq_refl eq_refl eq_refl
              ltac:(repeat constructor) eq_refl) as (Hr & Hn & _).
  split; [exact Hr | exact Hn].
Defined.

(** Witness of X5: a viewer started with START/PAUSE during a first frame,
    then two frames with an idle user. *)
Lemma free_running_polls_every_second_frame_witness :
  let playing :=
    world_of
      (@Kissualizer.update numpy_Z persistent_values
         (Kissualizer.instance_at 0) three_points [] small_map
         (@eye4 numpy_Z) [click_start] kiss_viewer) in
  Kissualizer.ready playing = true /\
  Kissualizer.play_mode (Kissualizer.cls playing) = true /\
  returned
    (@Kissualizer.run numpy_Z persistent_values (Kissualizer.instance_at 0)
       [frame_1; frame_2] [Kissualizer.idle; Kissualizer.idle] playing) =
    Some [Kissualizer.idle].
Proof.
  cbv zeta.
  assert (Hr : Kissualizer.ready
                 (world_of
                    (@Kissualizer.update numpy_Z persistent_values
                       (Kissualizer.instance_at 0) three_points [] small_map
                       (@eye4 numpy_Z) [click_start] kiss_viewer)) = true)
    by (vm_compute; reflexivity).
  assert (Hp : Kissualizer.play_mode
                 (Kissualizer.cls
                    (world_of
                       (@Kissualizer.update numpy_Z persistent_values
                          (Kissualizer.instance_at 0) three_points [] small_map
                          (@eye4 numpy_Z) [click_start] kiss_viewer))) = true)
    by (vm_compute; reflexivity).
  split; [exact Hr |]. split; [exact Hp |].
  pose proof (@free_running_polls_every_second_frame numpy_Z persistent_values
                (Kissualizer.instance_at 0) [frame_1; frame_2]
                [Kissualizer.idle; Kissualizer.idle] _ Hr Hp
                ltac:(repeat constructor)) as HF.
  cbv zeta in HF.
  assert (Hb : Kissualizer.block_execution
                 (Kissualizer.cls
                    (world_of
                       (@Kissualizer.update numpy_Z persistent_values
                          (Kissualizer.instance_at 0) three_points [] small_map
                          (@eye4 numpy_Z) [click_start] kiss_viewer))) = false)
    by (vm_compute; reflexivity).
  rewrite Hb in HF. destruct (HF ltac:(cbn; lia)) as (Hret & _).
  exact Hret.
Defined.

(** Witness of X6: GLOBAL VIEW clicked after the first frame. *)
Lemma camera_follows_the_panel_witness :
  let scene :=
    world_of
      (@Kissualizer.update_scene numpy_Z persistent_values three_points
         [(1, 0, 0)%Z] small_map (translate 1 0 0) kiss_viewer) in
  Kissualizer.scene_ready scene = true /\
  camera_of scene = Some Kissualizer.StartView /\
  camera_of (world_of (Kissualizer._gui_callback click_view scene)) =
    Some Kissualizer.HomeView.
Proof.
  cbv zeta.
  assert (Hw : Kissualizer.scene_ready
                 (world_of
                    (@Kissualizer.update_scene numpy_Z persistent_values
                       three_points [(1, 0, 0)%Z] small_map (translate 1 0 0)
                       kiss_viewer)) = true) by (vm_compute; reflexivity).
  assert (Hc : camera_of
                 (world_of
                    (@Kissualizer.update_scene numpy_Z persistent_values
                       three_points [(1, 0, 0)%Z] small_map (translate 1 0 0)
                       kiss_viewer)) = Some Kissualizer.StartView)
    by (vm_compute; reflexivity).
  split; [exact Hw |]. split; [exact Hc |].
  destruct (@camera_follows_the_panel numpy_Z persistent_values) as [HP _].
  rewrite (HP click_view _ _ Hw Hc).
  vm_compute. reflexivity.
Defined.

(** Witness of X7: white picked in the colour editor after the first
    frame. *)
Lemma background_colour_of_the_scene_witness :
  let scene :=
    world_of
      (@Kissualizer.update_scene numpy_Z persistent_values three_points
         [(1, 0, 0)%Z] small_map (translate 1 0 0) kiss_viewer) in
  let pick_white :=
    {| Kissualizer.click_start_pause := false;
       Kissualizer.click_next_frame := false;
       Kissualizer.click_center_viewpoint := false;
       Kissualizer.click_frame_cloud := false;
       Kissualizer.click_keypoints := false;
       Kissualizer.click_local_map := false;
       Kissualizer.edit_background_color := Some [1.0; 1.0; 1.0]%Q;
       Kissualizer.click_global_view := false;
       Kissualizer.click_quit := false |} in
  Kissualizer.scene_ready scene = true /\
  background_of (world_of (Kissualizer._gui_callback pick_white scene)) =
    Some [1.0; 1.0; 1.0]%Q.
Proof.
  cbv zeta.
  assert (Hw : Kissualizer.scene_ready
                 (world_of
                    (@Kissualizer.update_scene numpy_Z persistent_values
                       three_points [(1, 0, 0)%Z] small_map (translate 1 0 0)
                       kiss_viewer)) = true) by (vm_compute; reflexivity).
  split; [exact Hw |].
  destruct (@background_colour_of_the_scene numpy_Z persistent_values)
    as [HP _].
  exact (proj2 (HP _ _ Hw)).
Defined.

(** Witness of X11: the trajectory key after a first frame during which the
    user went to global view. *)
Lemma trajectory_key_only_in_global_view_witness :
  let global :=
    world_of
      (@RegistrationVisualizer.update numpy_Z open3d_Z tt three_points []
         small_map (translate 1 0 0) [[KEY_V; KEY_N]] registration_viewer) in
  RegistrationVisualizer.global_view (RegistrationVisualizer.this global) =
    true /\
  RegistrationVisualizer.markers_shown global /\
  RegistrationVisualizer.markers
    (RegistrationVisualizer.vis (RegistrationVisualizer.this global)) = [0] /\
  RegistrationVisualizer.markers
    (RegistrationVisualizer.vis
       (RegistrationVisualizer.this
          (world_of (RegistrationVisualizer._toggle_trajectory global)))) = [] /\
  RegistrationVisualizer._toggle_trajectory registration_viewer =
    Ok tt registration_viewer.
Proof.
  cbv zeta.
  assert (Hg : RegistrationVisualizer.global_view
                 (RegistrationVisualizer.this
                    (world_of
                       (@RegistrationVisualizer.update numpy_Z open3d_Z tt
                          three_points [] small_map (translate 1 0 0)
                          [[KEY_V; KEY_N]] registration_viewer))) = true)
    by (vm_compute; reflexivity).
  assert (Hm : RegistrationVisualizer.markers_shown
                 (world_of
                    (@RegistrationVisualizer.update numpy_Z open3d_Z tt
                       three_points [] small_map (translate 1 0 0)
                       [[KEY_V; KEY_N]] registration_viewer)))
    by (vm_compute; reflexivity).
  split; [exact Hg |]. split; [exact Hm |].
  split; [vm_compute; reflexivity |].
  destruct (@trajectory_key_only_in_global_view numpy_Z) as [HE HG].
  split.
  - destruct (HG _ Hg Hm) as (_ & _ & -> & _). vm_compute. reflexivity.
  - apply HE. reflexivity.
Defined.

(** Witness of X12: the view key twice on the same viewer. *)
Lemma view_key_twice_restores_the_state_witness :
  let global :=
    world_of
      (@RegistrationVisualizer.update numpy_Z open3d_Z tt three_points []
         small_map (translate 1 0 0) [[KEY_V; KEY_N]] registration_viewer) in
  RegistrationVisualizer.markers_shown global /\
  (RegistrationVisualizer._toggle_view ;;
   RegistrationVisualizer._toggle_view)%proc global = Ok tt global.
Proof.
  cbv zeta.
  assert (Hm : RegistrationVisualizer.markers_shown
                 (world_of
                    (@RegistrationVisualizer.update numpy_Z open3d_Z tt
                       three_points [] small_map (translate 1 0 0)
                       [[KEY_V; KEY_N]] registration_viewer)))
    by (vm_compute; reflexivity).
  split; [exact Hm |].
  exact (@view_key_twice_restores_the_state numpy_Z _ Hm).
Defined.

(** Witness of X14: a second frame during which the user changes the view
    and steps. *)
Lemma view_point_reset_on_the_first_frame_only_witness :
  let after_first :=
    world_of
      (@RegistrationVisualizer.update numpy_Z open3d_Z tt three_points []
         small_map (translate 1 0 0) [[KEY_N]] registration_viewer) in
  RegistrationVisualizer.reset_bounding_box
    (RegistrationVisualizer.this after_first) = false /\
  RegistrationVisualizer.view_resets
    (RegistrationVisualizer.vis (RegistrationVisualizer.this after_first)) = 1 /\
  RegistrationVisualizer.view_resets
    (RegistrationVisualizer.vis
       (RegistrationVisualizer.this
          (world_of
             (@RegistrationVisualizer.run numpy_Z open3d_Z tt [frame_2]
                [[KEY_V; KEY_N]] after_first)))) = 1.
Proof.
  cbv zeta.
  assert (Hb : RegistrationVisualizer.reset_bounding_box
                 (RegistrationVisualizer.this
                    (world_of
                       (@RegistrationVisualizer.update numpy_Z open3d_Z tt
                          three_points [] small_map (translate 1 0 0)
                          [[KEY_N]] registration_viewer))) = false)
    by (vm_compute; reflexivity).
  assert (Hn : RegistrationVisualizer.view_resets
                 (RegistrationVisualizer.vis
                    (RegistrationVisualizer.this
                       (world_of
                          (@RegistrationVisualizer.update numpy_Z open3d_Z tt
                             three_points [] small_map (translate 1 0 0)
                             [[KEY_N]] registration_viewer)))) = 1)
    by (vm_compute; reflexivity).
  split; [exact Hb |]. split; [exact Hn |].
  destruct (@view_point_reset_on_the_first_frame_only numpy_Z open3d_Z)
    as (_ & _ & HS).
  destruct (HS tt [frame_2] [[KEY_V; KEY_N]] _ Hb) as (_ & ->).
  - repeat (constructor; try (vm_compute; reflexivity)).
  - exact Hn.
Defined.

(** Witness of X15: the two frames of the scenario, [N] at each. *)
Lemma step_key_steps_one_frame_witness :
  RegistrationVisualizer.play_crun
    (RegistrationVisualizer.this registration_viewer) = false /\
  RegistrationVisualizer.block_vis
    (RegistrationVisualizer.this registration_viewer) = true /\
  step_key registration_viewer KEY_N = true /\
  returned
    (@RegistrationVisualizer.run numpy_Z open3d_Z tt [frame_1; frame_2]
       [[KEY_N]; [KEY_N]] registration_viewer) = Some [].
Proof.
  do 3 (split; [reflexivity |]).
  destruct (@step_key_steps_one_frame numpy_Z open3d_Z) as [_ HS].
  exact (proj1 (HS tt [frame_1; frame_2] [KEY_N; KEY_N] [] registration_viewer
                  eq_refl eq_refl ltac:(repeat constructor) eq_refl)).
Defined.

(** Witness of X16: a viewer started with [SPACE] during a first frame,
    then two frames with keys that change the view only. *)
Lemma open3d_polls_every_second_frame_when_playing_witness :
  let playing :=
    world_of
      (@RegistrationVisualizer.update numpy_Z open3d_Z tt three_points []
         small_map (translate 1 0 0) [[KEY_SPACE]] registration_viewer) in
  RegistrationVisualizer.play_crun (RegistrationVisualizer.this playing) =
    true /\
  calm_key playing KEY_V = true /\ calm_key playing KEY_T = true /\
  returned
    (@RegistrationVisualizer.run numpy_Z open3d_Z tt [frame_1; frame_2]
       [[KEY_V]; [KEY_T]] playing) = Some [[KEY_T]].
Proof.
  cbv zeta.
  assert (Hp : RegistrationVisualizer.play_crun
                 (RegistrationVisualizer.this
                    (world_of
                       (@RegistrationVisualizer.update numpy_Z open3d_Z tt
                          three_points [] small_map (translate 1 0 0)
                          [[KEY_SPACE]] registration_viewer))) = true)
    by (vm_compute; reflexivity).
  assert (Hb : RegistrationVisualizer.block_vis
                 (RegistrationVisualizer.this
                    (world_of
                       (@RegistrationVisualizer.update numpy_Z open3d_Z tt
                          three_points [] small_map (translate 1 0 0)
                          [[KEY_SPACE]] registration_viewer))) = false)
    by (vm_compute; reflexivity).
  assert (HV : calm_key
                 (world_of
                    (@RegistrationVisualizer.update numpy_Z open3d_Z tt
                       three_points [] small_map (translate 1 0 0)
                       [[KEY_SPACE]] registration_viewer)) KEY_V = true)
    by (vm_compute; reflexivity).
  assert (HT : calm_key
                 (world_of
                    (@RegistrationVisualizer.update numpy_Z open3d_Z tt
                       three_points [] small_map (translate 1 0 0)
                       [[KEY_SPACE]] registration_viewer)) KEY_T = true)
    by (vm_compute; reflexivity).
  split; [exact Hp |]. split; [exact HV |]. split; [exact HT |].
  pose proof (@open3d_polls_every_second_frame_when_playing numpy_Z open3d_Z
                tt [frame_1; frame_2] [[KEY_V]; [KEY_T]] _ Hp) as HF.
  cbv zeta in HF. rewrite Hb in HF.
  destruct HF as (Hret & _).
  - repeat constructor; assumption.
  - cbn. lia.
  - exact Hret.
Defined.

(** Witness of X17: the window of a new viewer, and a session of two
    frames in which the user steps once and then presses the escape key. *)
Lemma open3d_session_endings_witness :
  let session :=
    @RegistrationVisualizer.run numpy_Z open3d_Z tt [frame_1; frame_2]
      [[KEY_N]; [KEY_ESCAPE]] registration_viewer in
  returned (@RegistrationVisualizer.__init__ numpy_Z true []) =
    Some registration_viewer /\
  RegistrationVisualizer.window
    (RegistrationVisualizer.vis
       (RegistrationVisualizer.this registration_viewer)) =
    RegistrationVisualizer.Opened "RegistrationVisualizer" 1920 1080 /\
  exit_status session = Some 0%Z /\
  RegistrationVisualizer.window
    (RegistrationVisualizer.vis
       (RegistrationVisualizer.this (world_of session))) =
    RegistrationVisualizer.Destroyed.
Proof.
  cbv zeta.
  assert (Hinit :
    returned (@RegistrationVisualizer.__init__ numpy_Z true []) =
      Some registration_viewer) by reflexivity.
  assert (Hexit :
    exit_status
      (@RegistrationVisualizer.run numpy_Z open3d_Z tt [frame_1; frame_2]
         [[KEY_N]; [KEY_ESCAPE]] registration_viewer) = Some 0%Z)
    by (vm_compute; reflexivity).
  destruct (@open3d_session_endings numpy_Z open3d_Z) as [H0 HS].
  split; [exact Hinit |]. split; [exact (H0 [] registration_viewer Hinit) |].
  split; [exact Hexit |].
  destruct (HS tt [frame_1; frame_2] [[KEY_N]; [KEY_ESCAPE]]
              registration_viewer) as (_ & _ & HE).
  exact (proj2 (HE _ _ (exit_world_of _ _ Hexit))).
Defined.

(** Witness of X18: the cached state of a new viewer. *)
Lemma cached_state_is_never_refreshed_witness :
  returned (@RegistrationVisualizer.__init__ numpy_Z true []) =
    Some registration_viewer /\
  RegistrationVisualizer.state
    (RegistrationVisualizer.this registration_viewer) = (true, false, true).
Proof.
  assert (Hinit :
    returned (@RegistrationVisualizer.__init__ numpy_Z true []) =
      Some registration_viewer) by reflexivity.
  split; [exact Hinit |].
  destruct (@cached_state_is_never_refreshed numpy_Z open3d_Z) as [H0 _].
  exact (proj1 (H0 [] registration_viewer Hinit)).
Defined.

(** ** Blocking and free running *)

Section KissualizerPlayingPoll.
Context `{NumPy} `{!Kissualizer.Registration}.
Import Kissualizer.
Implicit Types (w : World) (i : GuiInput) (script rest : list GuiInput).

(** Playing, and both START/PAUSE and NEXT FRAME are clicked at the poll:
    the viewer is paused, the blocking flag is cleared and the loop
    returns. *)
Lemma poll_loop_pause_step i rest w :
  scene_ready w = true ->
  play_mode (cls w) = true -> block_execution (cls w) = true ->
  click_start_pause i = true -> click_next_frame i = true ->
  click_quit i = false ->
  exists w1,
    poll_loop (i :: rest) w = Ok rest w1 /\ scene_ready w1 = true /\
    ticks w1 = S (ticks w) /\
    play_mode (cls w1) = false /\ block_execution (cls w1) = false.
Proof.
  intros Hw Hp Hb Hs Hn Hq. rewrite poll_loop_cons, Hb.
  pose proof (frame_tick_scene (trajectory (cls w)) (last_pose (cls w))
                (ticks w) true true i w) as Ht.
  cbn zeta in Ht. rewrite Hs, Hn in Ht. cbn in Ht.
  specialize (Ht (conj Hw (conj eq_refl (conj eq_refl
    (conj eq_refl (conj Hp Hb)))))).
  destruct (frame_tick i w) as [[] w1| | |]; try (exfalso; intuition congruence).
  destruct Ht as (Hw1 & _ & Ht1 & Hl1 & Hn1 & Hp1 & Hb1).
  rewrite Hp1, (poll_loop_free rest w1 Hb1). now exists w1.
Qed.

(** [update] on a viewer that plays with the blocking flag set, when
    START/PAUSE is clicked at its poll: without NEXT FRAME it goes on
    polling as a paused viewer does, with NEXT FRAME it returns paused. *)
Lemma update_playing_pause self src kps lmap pose i rest w :
  ready w = true ->
  play_mode (cls w) = true -> block_execution (cls w) = true ->
  click_start_pause i = true -> click_next_frame i = false ->
  click_quit i = false ->
  Forall (fun j => advance j = false) rest ->
  returned (update self src kps lmap pose (i :: rest) w) = None.
Proof.
  intros Hr Hp Hb Hs Hn Hq Hrest.
  destruct (update_scene_eq src kps lmap pose w Hr)
    as (w1 & Hsc & Hw1 & Hcls & Hn1 & _).
  assert (Hp1 : play_mode (cls w1) = true) by (now rewrite Hcls).
  assert (Hb1 : block_execution (cls w1) = true) by (now rewrite Hcls).
  destruct (poll_loop_pause i rest w1 Hw1 Hp1 Hb1 Hs Hn Hq)
    as (w2 & Hl & Hw2 & Hn2 & Hp2 & Hb2).
  rewrite (update_eq _ _ _ _ _ _ _ _ Hsc), Hl.
  pose proof (poll_loop_paused rest Hrest w2 (conj Hp2 Hb2)) as Hpoll.
  now destruct (poll_loop rest w2).
Qed.

Lemma update_playing_pause_step self src kps lmap pose i rest w :
  ready w = true ->
  play_mode (cls w) = true -> block_execution (cls w) = true ->
  click_start_pause i = true -> click_next_frame i = true ->
  click_quit i = false ->
  exists w',
    update self src kps lmap pose (i :: rest) w = Ok rest w' /\
    ticks w' = S (ticks w) /\
    play_mode (cls w') = false /\ block_execution (cls w') = true.
Proof.
  intros Hr Hp Hb Hs Hn Hq.
  destruct (update_scene_eq src kps lmap pose w Hr)
    as (w1 & Hsc & Hw1 & Hcls & Hn1 & _).
  assert (Hp1 : play_mode (cls w1) = true) by (now rewrite Hcls).
  assert (Hb1 : block_execution (cls w1) = true) by (now rewrite Hcls).
  destruct (poll_loop_pause_step i rest w1 Hw1 Hp1 Hb1 Hs Hn Hq)
    as (w2 & Hl & Hw2 & Hn2 & Hp2 & Hb2).
  rewrite (update_eq _ _ _ _ _ _ _ _ Hsc), Hl.
  eexists. split; [reflexivity |]. obs. cbn.
  rewrite Hp2, Hb2, Hn2, Hn1. now repeat split.
Qed.

End KissualizerPlayingPoll.

Section RegistrationPlayingPoll.
Context `{NumPy} `{!RegistrationVisualizer.Open3D}.
Import RegistrationVisualizer.
Implicit Types (w : World) (cb : Callback) (script rest : list (list Z))
  (table : gmap Z Callback).

(** The keys of one poll, none of them bound to [_quit]: their callbacks
    return, each press of a key bound to [_start_stop] negates the play
    flag and each press of a key bound to [_next_frame] the blocking
    flag. *)
Lemma for_each_press_flips w0 keys :
  Forall (fun key => quits w0 key = false) keys ->
  forall w,
    key_callbacks (vis (this w)) = key_callbacks (vis (this w0)) ->
    exists w1,
      for_each keys press w = Ok tt w1 /\
      key_callbacks (vis (this w1)) = key_callbacks (vis (this w0)) /\
      play_crun (this w1) =
        xorb (play_crun (this w)) (flipped (pauses w0) keys) /\
      block_vis (this w1) =
        xorb (block_vis (this w)) (flipped (step_key w0) keys) /\
      polls (vis (this w1)) = polls (vis (this w)).
Proof.
  induction 1 as [|key keys Hkey _ IH]; intros w Ht; cbn [for_each flipped].
  - exists w. rewrite !xorb_false_r. now repeat split.
  - unfold bind at 1. unfold press at 1. unfold bind at 1. cbn [gets].
    rewrite Ht.
    assert (Hpk : pauses w0 key =
              match key_callbacks (vis (this w0)) !! key with
              | Some start_stop_cb => true
              | _ => false
              end) by reflexivity.
    assert (Hsk : step_key w0 key =
              match key_callbacks (vis (this w0)) !! key with
              | Some next_frame_cb => true
              | _ => false
              end) by reflexivity.
    rewrite Hpk, Hsk. clear Hpk Hsk. unfold quits, bound_to in Hkey.
    destruct (key_callbacks (vis (this w0)) !! key) as [cb|] eqn:Hcb.
    + assert (Hcases : cb = start_stop_cb \/ cb = next_frame_cb \/
                (cb <> start_stop_cb /\ cb <> next_frame_cb /\ cb <> quit_cb))
        by (destruct cb; try discriminate; auto;
            right; right; repeat split; discriminate).
      destruct Hcases as [-> | [-> | (Hs & Hn & Hq)]].
      * cbn [run_callback _start_stop modify].
        destruct (IH (set_this (fun s => with_play_crun (negb (play_crun s)) s) w))
          as (w1 & -> & Ht1 & Hp1 & Hb1 & Hn1).
        { now destruct w as [[] ?]. }
        exists w1. rewrite Hp1, Hb1, Hn1.
        destruct w as [[? ? ? ? ? ? ? []] ?]. cbn.
        repeat split; auto; now destruct play_crun0, (flipped (pauses w0) keys).
      * cbn [run_callback _next_frame modify].
        destruct (IH (set_this (fun s => with_block_vis (negb (block_vis s)) s) w))
          as (w1 & -> & Ht1 & Hp1 & Hb1 & Hn1).
        { now destruct w as [[] ?]. }
        exists w1. rewrite Hp1, Hb1, Hn1.
        destruct w as [[? ? ? ? ? ? ? []] ?]. cbn.
        repeat split; auto; now destruct block_vis0, (flipped (step_key w0) keys).
      * pose proof (run_callback_runs
          (fun w' => key_callbacks (vis (this w')) = key_callbacks (vis (this w0)) /\
                     (play_crun (this w') = play_crun (this w) /\
                      block_vis (this w') = block_vis (this w)) /\
                     polls (vis (this w')) = polls (vis (this w)))
          cb Hq) as Hrun.
        specialize (Hrun ltac:(apply keeps_conj; [apply run_callback_table |];
          apply keeps_conj;
            [now apply run_callback_playback | apply run_callback_polls])
          w ltac:(now repeat split)).
        destruct (run_callback cb w) as [[] w'| | |]; try contradiction.
        destruct Hrun as (Ht' & (Hp' & Hb') & Hn').
        destruct (IH w' Ht') as (w1 & -> & Ht1 & Hp1 & Hb1 & Hn1).
        exists w1. rewrite Hp1, Hb1, Hn1, Hp', Hb', Hn'.
        repeat split; auto; destruct cb; congruence || reflexivity.
    + cbn [ret]. destruct (IH w Ht) as (w1 & -> & Ht1 & Hp1 & Hb1 & Hn1).
      exists w1. now repeat split.
Qed.

(** One poll without a key bound to [_quit]. *)
Lemma rv_poll_flips keys w :
  Forall (fun key => quits w key = false) keys ->
  exists w1,
    (poll_events keys ;; update_renderer)%proc w = Ok tt w1 /\
    key_callbacks (vis (this w1)) = key_callbacks (vis (this w)) /\
    play_crun (this w1) = xorb (play_crun (this w)) (flipped (pauses w) keys) /\
    block_vis (this w1) = xorb (block_vis (this w)) (flipped (step_key w) keys) /\
    polls (vis (this w1)) = S (polls (vis (this w))).
Proof.
  intros Hkeys.
  set (w0 := set_vis (fun v => vis_with_polls (S (polls v)) v) w).
  destruct (for_each_press_flips w keys Hkeys w0) as (w1 & Hf & Ht & Hp & Hb & Hn).
  { subst w0. now destruct w as [[? ? ? ? ? ? ? []] ?]. }
  unfold bind at 1. unfold poll_events. unfold bind at 1. cbn [modify].
  fold w0. rewrite Hf. cbn [update_renderer modify]. eexists.
  split; [reflexivity |].
  subst w0. destruct w as [[? ? ? ? ? ? ? []] ?].
  destruct w1 as [[? ? ? ? ? ? ? []] ?]. cbn in *. now repeat split.
Qed.

Lemma quits_table w w' key :
  key_callbacks (vis (this w')) = key_callbacks (vis (this w)) ->
  quits w' key = quits w key.
Proof. unfold quits, bound_to. now intros ->. Qed.

Lemma flipped_ext hit hit' keys :
  (forall key, hit key = hit' key) -> flipped hit keys = flipped hit' keys.
Proof. intros Hh. induction keys as [|k keys IH]; cbn; [| rewrite Hh, IH]; auto. Qed.

Lemma flipped_pauses_table w w' keys :
  key_callbacks (vis (this w')) = key_callbacks (vis (this w)) ->
  flipped (pauses w') keys = flipped (pauses w) keys.
Proof.
  intros Ht. apply flipped_ext. intros k. unfold pauses, bound_to. now rewrite Ht.
Qed.

Lemma flipped_step_table w w' keys :
  key_callbacks (vis (this w')) = key_callbacks (vis (this w)) ->
  flipped (step_key w') keys = flipped (step_key w) keys.
Proof.
  intros Ht. apply flipped_ext. intros k. now apply step_key_table.
Qed.

(** [update] on a viewer that plays with the blocking flag set: the state
    after the poll of the keys, none of them bound to [_quit], and the rest
    of the loop. *)
Lemma rv_update_playing_poll self src kps lmap pose keys rest w :
  play_crun (this w) = true -> block_vis (this w) = true ->
  Forall (fun key => quits w key = false) keys ->
  exists w1,
    key_callbacks (vis (this w1)) = key_callbacks (vis (this w)) /\
    play_crun (this w1) = negb (flipped (pauses w) keys) /\
    block_vis (this w1) = negb (flipped (step_key w) keys) /\
    polls (vis (this w1)) = S (polls (vis (this w))) /\
    update self src kps lmap pose (keys :: rest) w =
      match
        (if play_crun (this w1) then Ok rest w1 else poll_loop rest w1)
      with
      | Ok rest' w2 =>
          Ok rest' (set_this (fun s => with_block_vis (negb (block_vis s)) s) w2)
      | Exit code w2 => Exit code w2
      | Raise e w2 => Raise e w2
      | Waiting w2 => Waiting w2
      end.
Proof.
  intros Hp Hb Hkeys.
  destruct (update_geometries_playback src kps (point_cloud lmap) pose w)
    as (w0 & Hg & Ht0 & Hp0 & Hb0 & Hn0).
  rewrite (rv_update_eq _ _ _ _ _ _ _ _ Hg).
  rewrite rv_poll_loop_cons, Hb0, Hb.
  destruct (rv_poll_flips keys w0) as (w1 & -> & Ht1 & Hp1 & Hb1 & Hn1).
  { eapply Forall_impl; [exact Hkeys |]. intros k.
    now rewrite (quits_table w w0 k Ht0). }
  exists w1.
  rewrite (flipped_pauses_table w w0 keys Ht0) in Hp1.
  rewrite (flipped_step_table w w0 keys Ht0) in Hb1.
  rewrite Hp0, Hp in Hp1. rewrite Hb0, Hb in Hb1.
  rewrite Ht1, Ht0, Hn1, Hn0.
  repeat split; auto.
Qed.

End RegistrationPlayingPoll.

Section BlockingAndFreeRunning.
Context `{NumPy} `{!Kissualizer.Registration}
  `{!RegistrationVisualizer.Open3D}.

(** C3, amended (blocking and free running).  Between two calls of
    [update] the viewer is armed: the blocking flag is set or it plays.
    Paused at entry, [update] does not return while the script holds no Play
    or Step signal.  Playing at entry with the blocking flag clear, [update]
    returns without a poll and sets the flag.  Playing at entry with the
    flag set, [update] polls once, and what follows depends on that poll
    (which is taken not to quit).

    Polyscope backend, where NEXT FRAME is offered to a paused viewer only:
    without a click on START/PAUSE [update] returns after this one poll,
    still playing and with the flag clear; with a click on START/PAUSE and
    none on NEXT FRAME it does not return while the rest of the script holds
    no Play or Step signal; with a click on both it returns after this one
    poll, paused and with the flag set.

    Open3d backend, where every press of a key bound to [_start_stop]
    negates the play flag and every press of a key bound to [_next_frame]
    the blocking flag, playing or not: when the keys bound to [_start_stop]
    are pressed an even number of times at the poll, [update] returns after
    this one poll, still playing, and the flag is then set exactly when the
    keys bound to [_next_frame] were pressed an odd number of times; when
    they are pressed an odd number of times, [update] returns after this one
    poll, paused and with the flag set, if the keys bound to [_next_frame]
    were pressed an odd number of times too, and otherwise it does not
    return while the rest of the script holds no Play or Step signal. *)
Theorem blocking_play_invariant :
  (forall site, Kissualizer.armed (Kissualizer.boot site) = true) /\
  (forall self src kps lmap pose script (w : Kissualizer.World),
     Kissualizer.ready w = true ->
     (forall rest w',
        Kissualizer.update self src kps lmap pose script w = Ok rest w' ->
        Kissualizer.armed w' = true) /\
     (Kissualizer.armed w = true ->
      Kissualizer.play_mode (Kissualizer.cls w) = false ->
      Forall (fun i => Kissualizer.advance i = false) script ->
      returned (Kissualizer.update self src kps lmap pose script w) = None) /\
     (Kissualizer.play_mode (Kissualizer.cls w) = true ->
      Kissualizer.block_execution (Kissualizer.cls w) = false ->
      exists w',
        Kissualizer.update self src kps lmap pose script w = Ok script w' /\
        Kissualizer.ticks w' = Kissualizer.ticks w /\
        Kissualizer.play_mode (Kissualizer.cls w') = true /\
        Kissualizer.block_execution (Kissualizer.cls w') = true) /\
     (Kissualizer.play_mode (Kissualizer.cls w) = true ->
      Kissualizer.block_execution (Kissualizer.cls w) = true ->
      forall i rest,
        script = i :: rest ->
        Kissualizer.click_quit i = false ->
        (Kissualizer.click_start_pause i = false ->
         exists w',
           Kissualizer.update self src kps lmap pose script w = Ok rest w' /\
           Kissualizer.ticks w' = S (Kissualizer.ticks w) /\
           Kissualizer.play_mode (Kissualizer.cls w') = true /\
           Kissualizer.block_execution (Kissualizer.cls w') = false) /\
        (Kissualizer.click_start_pause i = true ->
         Kissualizer.click_next_frame i = false ->
         Forall (fun j => Kissualizer.advance j = false) rest ->
         returned (Kissualizer.update self src kps lmap pose script w) =
           None) /\
        (Kissualizer.click_start_pause i = true ->
         Kissualizer.click_next_frame i = true ->
         exists w',
           Kissualizer.update self src kps lmap pose script w = Ok rest w' /\
           Kissualizer.ticks w' = S (Kissualizer.ticks w) /\
           Kissualizer.play_mode (Kissualizer.cls w') = false /\
           Kissualizer.block_execution (Kissualizer.cls w') = true))) /\
  (forall self src kps lmap pose script (w : RegistrationVisualizer.World),
     (forall rest w',
        RegistrationVisualizer.update self src kps lmap pose script w =
          Ok rest w' ->
        RegistrationVisualizer.armed w' = true) /\
     (RegistrationVisualizer.armed w = true ->
      RegistrationVisualizer.play_crun (RegistrationVisualizer.this w) = false ->
      Forall (Forall (fun key => RegistrationVisualizer.advance w key = false))
        script ->
      returned (RegistrationVisualizer.update self src kps lmap pose script w) =
        None) /\
     (RegistrationVisualizer.play_crun (RegistrationVisualizer.this w) = true ->
      RegistrationVisualizer.block_vis (RegistrationVisualizer.this w) = false ->
      exists w',
        RegistrationVisualizer.update self src kps lmap pose script w =
          Ok script w' /\
        RegistrationVisualizer.polls
          (RegistrationVisualizer.vis (RegistrationVisualizer.this w')) =
          RegistrationVisualizer.polls
            (RegistrationVisualizer.vis (RegistrationVisualizer.this w)) /\
        RegistrationVisualizer.play_crun (RegistrationVisualizer.this w') =
          true /\
        RegistrationVisualizer.block_vis (RegistrationVisualizer.this w') =
          true) /\
     (RegistrationVisualizer.play_crun (RegistrationVisualizer.this w) = true ->
      RegistrationVisualizer.block_vis (RegistrationVisualizer.this w) = true ->
      forall keys rest,
        script = keys :: rest ->
        Forall (fun key => RegistrationVisualizer.quits w key = false) keys ->
        (flipped (RegistrationVisualizer.pauses w) keys = false ->
         exists w',
           RegistrationVisualizer.update self src kps lmap pose script w =
             Ok rest w' /\
           RegistrationVisualizer.polls
             (RegistrationVisualizer.vis (RegistrationVisualizer.this w')) =
             S (RegistrationVisualizer.polls
                  (RegistrationVisualizer.vis (RegistrationVisualizer.this w))) /\
           RegistrationVisualizer.play_crun (RegistrationVisualizer.this w') =
             true /\
           RegistrationVisualizer.block_vis (RegistrationVisualizer.this w') =
             flipped (step_key w) keys) /\
        (flipped (RegistrationVisualizer.pauses w) keys = true ->
         flipped (step_key w) keys = false ->
         Forall (Forall (fun key =>
                   RegistrationVisualizer.advance w key = false)) rest ->
         returned
           (RegistrationVisualizer.update self src kps lmap pose script w) =
           None) /\
        (flipped (RegistrationVisualizer.pauses w) keys = true ->
         flipped (step_key w) keys = true ->
         exists w',
           RegistrationVisualizer.update self src kps lmap pose script w =
             Ok rest w' /\
           RegistrationVisualizer.polls
             (RegistrationVisualizer.vis (RegistrationVisualizer.this w')) =
             S (RegistrationVisualizer.polls
                  (RegistrationVisualizer.vis (RegistrationVisualizer.this w))) /\
           RegistrationVisualizer.play_crun (RegistrationVisualizer.this w') =
             false /\
           RegistrationVisualizer.block_vis (RegistrationVisualizer.this w') =
             true))).
Proof.
  split; [reflexivity |]. split.
  - intros self src kps lmap pose script w Hr.
    split; [| split; [| split]].
    + intros rest w' Hu. now apply update_returns in Hu as (_ & Ha & _).
    + intros Ha Hp Hscript. unfold Kissualizer.armed in Ha.
      rewrite Hp, orb_false_r in Ha.
      pose proof (update_paused self src kps lmap pose script w Hr Hp Ha Hscript)
        as Hu.
      destruct (Kissualizer.update self src kps lmap pose script w) as [rest w'| | |];
        [now destruct (Hu rest w') | reflexivity ..].
    + intros Hp Hb.
      destruct (update_playing_free self src kps lmap pose script w Hr Hp Hb)
        as (w' & Hu & _ & Hn & Hp' & Hb').
      now exists w'.
    + intros Hp Hb i rest -> Hq. split; [| split].
      * intros Hi.
        destruct (update_playing_tick self src kps lmap pose i rest w Hr Hp Hb Hi Hq)
          as (w' & Hu & _ & Hn & Hp' & Hb').
        now exists w'.
      * intros Hi Hn Hrest.
        now apply update_playing_pause.
      * intros Hi Hn.
        now apply update_playing_pause_step.
  - intros self src kps lmap pose script w.
    split; [| split; [| split]].
    + intros rest w' Hu. now apply rv_update_returns in Hu as (_ & Ha & _).
    + intros Ha Hp Hscript. unfold RegistrationVisualizer.armed in Ha.
      rewrite Hp, orb_false_r in Ha.
      pose proof (rv_update_paused self src kps lmap pose script w Hp Ha Hscript)
        as Hu.
      destruct (RegistrationVisualizer.update self src kps lmap pose script w)
        as [rest w'| | |]; [now destruct (Hu rest w') | reflexivity ..].
    + intros Hp Hb.
      destruct (rv_update_playing_free self src kps lmap pose script w Hp Hb)
        as (w' & Hu & Hn & Hp' & Hb').
      now exists w'.
    + intros Hp Hb keys rest -> Hkeys.
      destruct (rv_update_playing_poll self src kps lmap pose keys rest w
                  Hp Hb Hkeys) as (w1 & Ht1 & Hp1 & Hb1 & Hn1 & ->).
      split; [| split].
      * intros Hpause. rewrite Hpause in Hp1. cbn in Hp1. rewrite Hp1.
        eexists. split; [reflexivity |].
        destruct w1 as [[? ? ? ? ? ? ? []] ?]. cbn in *. subst.
        repeat split; auto. now rewrite negb_involutive.
      * intros Hpause Hstep Hrest.
        rewrite Hpause in Hp1. rewrite Hstep in Hb1. cbn in Hp1, Hb1.
        rewrite Hp1.
        pose proof (rv_poll_loop_paused
                      (RegistrationVisualizer.key_callbacks
                         (RegistrationVisualizer.vis
                            (RegistrationVisualizer.this w))) rest) as Hl.
        assert (Hgood : Forall (Forall (fun key =>
          forall cb,
            RegistrationVisualizer.key_callbacks
              (RegistrationVisualizer.vis (RegistrationVisualizer.this w))
              !! key = Some cb ->
            cb <> RegistrationVisualizer.start_stop_cb /\
            cb <> RegistrationVisualizer.next_frame_cb)) rest).
        { eapply Forall_impl; [exact Hrest |]. cbn beta. intros ks Hk.
          eapply Forall_impl; [exact Hk |]. cbn beta. intros key.
          apply rv_advance_false. }
        specialize (Hl Hgood w1 (conj Ht1 (conj Hp1 Hb1))).
        now destruct (RegistrationVisualizer.poll_loop rest w1).
      * intros Hpause Hstep.
        rewrite Hpause in Hp1. rewrite Hstep in Hb1. cbn in Hp1, Hb1.
        rewrite Hp1, (rv_poll_loop_free rest w1 Hb1).
        eexists. split; [reflexivity |].
        destruct w1 as [[? ? ? ? ? ? ? []] ?]. cbn in *. subst.
        now repeat split.
Qed.

End BlockingAndFreeRunning.

(** Witness of C3.  A new polyscope viewer is paused and armed, and with an
    idle user [update] does not return; once it plays with the blocking
    flag set, a click on START/PAUSE at the poll makes [update] wait.  An
    open3d viewer that plays with the blocking flag set returns after the
    poll in which the Step key is pressed, with the flag set again. *)
Lemma blocking_play_invariant_witness :
  let playing :=
    world_of
      (@Kissualizer.run numpy_Z persistent_values (Kissualizer.instance_at 0)
         [frame_1; frame_2] [click_start] kiss_viewer) in
  let playing_open3d :=
    world_of
      (@RegistrationVisualizer.run numpy_Z open3d_Z tt [frame_1; frame_2]
         [[KEY_SPACE]] registration_viewer) in
  (Kissualizer.ready kiss_viewer = true /\
   Kissualizer.armed kiss_viewer = true /\
   Kissualizer.play_mode (Kissualizer.cls kiss_viewer) = false /\
   returned
     (@Kissualizer.update numpy_Z persistent_values (Kissualizer.instance_at 0)
        three_points [] small_map (@eye4 numpy_Z)
        [Kissualizer.idle; Kissualizer.idle] kiss_viewer) = None) /\
  (Kissualizer.ready playing = true /\
   Kissualizer.play_mode (Kissualizer.cls playing) = true /\
   Kissualizer.block_execution (Kissualizer.cls playing) = true /\
   returned
     (@Kissualizer.update numpy_Z persistent_values (Kissualizer.instance_at 0)
        three_points [] small_map (translate 1 0 0)
        [click_start; Kissualizer.idle] playing) = None) /\
  (RegistrationVisualizer.play_crun
     (RegistrationVisualizer.this playing_open3d) = true /\
   RegistrationVisualizer.block_vis
     (RegistrationVisualizer.this playing_open3d) = true /\
   flipped (RegistrationVisualizer.pauses playing_open3d) [KEY_N] = false /\
   flipped (step_key playing_open3d) [KEY_N] = true /\
   returned
     (@RegistrationVisualizer.update numpy_Z open3d_Z tt three_points []
        small_map (translate 1 0 0) [[KEY_N]] playing_open3d) = Some []).
Proof.
  cbv zeta.
  destruct (@blocking_play_invariant numpy_Z persistent_values open3d_Z)
    as (_ & HK & HR).
  split; [| split].
  - split; [reflexivity |]. split; [reflexivity |]. split; [reflexivity |].
    destruct (HK (Kissualizer.instance_at 0) three_points [] small_map
                (@eye4 numpy_Z) [Kissualizer.idle; Kissualizer.idle] kiss_viewer
                eq_refl) as (_ & Hp & _).
    apply Hp; [reflexivity | reflexivity |].
    repeat constructor.
  - assert (Hr : Kissualizer.ready
                   (world_of
                      (@Kissualizer.run numpy_Z persistent_values
                         (Kissualizer.instance_at 0) [frame_1; frame_2]
                         [click_start] kiss_viewer)) = true)
      by (vm_compute; reflexivity).
    assert (Hp : Kissualizer.play_mode
                   (Kissualizer.cls
                      (world_of
                         (@Kissualizer.run numpy_Z persistent_values
                            (Kissualizer.instance_at 0) [frame_1; frame_2]
                            [click_start] kiss_viewer))) = true)
      by (vm_compute; reflexivity).
    assert (Hb : Kissualizer.block_execution
                   (Kissualizer.cls
                      (world_of
                         (@Kissualizer.run numpy_Z persistent_values
                            (Kissualizer.instance_at 0) [frame_1; frame_2]
                            [click_start] kiss_viewer))) = true)
      by (vm_compute; reflexivity).
    split; [exact Hr |]. split; [exact Hp |]. split; [exact Hb |].
    destruct (HK (Kissualizer.instance_at 0) three_points [] small_map
                (translate 1 0 0) [click_start; Kissualizer.idle] _ Hr)
      as (_ & _ & _ & Hplay).
    destruct (Hplay Hp Hb click_start [Kissualizer.idle] eq_refl eq_refl)
      as (_ & Hpause & _).
    apply Hpause; [reflexivity | reflexivity |].
    repeat constructor.
  - assert (Hp : RegistrationVisualizer.play_crun
                   (RegistrationVisualizer.this
                      (world_of
                         (@RegistrationVisualizer.run numpy_Z open3d_Z tt
                            [frame_1; frame_2] [[KEY_SPACE]]
                            registration_viewer))) = true)
      by (vm_compute; reflexivity).
    assert (Hb : RegistrationVisualizer.block_vis
                   (RegistrationVisualizer.this
                      (world_of
                         (@RegistrationVisualizer.run numpy_Z open3d_Z tt
                            [frame_1; frame_2] [[KEY_SPACE]]
                            registration_viewer))) = true)
      by (vm_compute; reflexivity).
    assert (Hpause : flipped
                       (RegistrationVisualizer.pauses
                          (world_of
                             (@RegistrationVisualizer.run numpy_Z open3d_Z tt
                                [frame_1; frame_2] [[KEY_SPACE]]
                                registration_viewer))) [KEY_N] = false)
      by (vm_compute; reflexivity).
    assert (Hstep : flipped
                      (step_key
                         (world_of
                            (@RegistrationVisualizer.run numpy_Z open3d_Z tt
                               [frame_1; frame_2] [[KEY_SPACE]]
                               registration_viewer))) [KEY_N] = true)
      by (vm_compute; reflexivity).
    assert (Hquit : RegistrationVisualizer.quits
                      (world_of
                         (@RegistrationVisualizer.run numpy_Z open3d_Z tt
                            [frame_1; frame_2] [[KEY_SPACE]]
                            registration_viewer)) KEY_N = false)
      by (vm_compute; reflexivity).
    split; [exact Hp |]. split; [exact Hb |]. split; [exact Hpause |].
    split; [exact Hstep |].
    destruct (HR tt three_points [] small_map (translate 1 0 0) [[KEY_N]]
                (world_of
                   (@RegistrationVisualizer.run numpy_Z open3d_Z tt
                      [frame_1; frame_2] [[KEY_SPACE]] registration_viewer)))
      as (_ & _ & _ & Hplay).
    destruct (Hplay Hp Hb [KEY_N] [] eq_refl) as (Hret & _).
    { constructor; [exact Hquit | constructor]. }
    destruct (Hret Hpause) as (w' & Hu & _).
    now rewrite Hu.
Defined.

(** ** Construction without the backend *)

Section RegistrationRaises.
Context `{NumPy} `{!RegistrationVisualizer.Open3D}.
Import RegistrationVisualizer.
Implicit Types (w : World) (script rest : list (list Z)).

(** [update] on the open3d viewer returns, keeps waiting, or ends the
    process with status 0: no step of it raises in the model. *)
Lemma rv_update_endings self src kps lmap pose script w :
  match update self src kps lmap pose script w with
  | Raise _ _ => False
  | _ => True
  end.
Proof.
  destruct (update_geometries_eq src kps (point_cloud lmap) pose w)
    as (w1 & Hg & _).
  rewrite (rv_update_eq _ _ _ _ _ _ _ _ Hg).
  pose proof (rv_poll_loop_triple
                (fun w' => key_callbacks (vis (this w')) =
                           key_callbacks (vis (this w1)))
                (fun e _ => forall x, e <> Raises x)
                (key_callbacks (vis (this w1))) script) as Hl.
  cbn beta in Hl.
  specialize (Hl ltac:(auto)
                 ltac:(now intros [[? ? ? ? ? ? ? []] ?] n)
                 ltac:(now intros [[? ? ? ? ? ? ? []] ?] n)
                 ltac:(discriminate)).
  assert (Hcb : forall cb,
    triple (fun w' => key_callbacks (vis (this w')) =
                      key_callbacks (vis (this w1)))
      (run_callback cb)
      (fun _ w' => key_callbacks (vis (this w')) =
                   key_callbacks (vis (this w1)))
      (fun e _ => forall x, e <> Raises x)).
  { intros cb w' Hw'.
    pose proof (run_callback_endings (key_callbacks (vis (this w1)))
                  (window (vis (this w'))) cb w' (conj Hw' eq_refl)) as He.
    destruct (run_callback cb w'); try tauto; destruct He as [He _];
      rewrite He; discriminate. }
  specialize (Hl Hcb w1 eq_refl).
  destruct (poll_loop script w1); try exact I.
  now apply (Hl e).
Qed.

Lemma rv_init_not_found name out :
  __init__ (import_raises (ModuleNotFoundError name)) out =
  Exit 1 (out ++ [install_hint "open3d"]).
Proof. reflexivity. Qed.

Lemma rv_init_raises e out :
  (forall name, e <> ModuleNotFoundError name) ->
  __init__ (import_raises e) out = Raise e out.
Proof. intros He. destruct e; try reflexivity. now destruct (He name). Qed.

Lemma rv_init_imported out :
  exists w, __init__ imported out = Ok w (stdout w).
Proof. destruct (rv_init_present out) as (w & Hw & _). now exists w. Qed.

End RegistrationRaises.

Section FatalConstruction.
Context `{NumPy} `{!Kissualizer.Registration}
  `{!RegistrationVisualizer.Open3D}.

(** C7, amended (fatal construction on a missing backend).  When the import
    of the backend module raises [ModuleNotFoundError], the constructor
    prints [<module> is not installed on your system, run "pip install
    <module>"] and ends the process with status 1, at construction and
    without any other effect; it does not return.  An import that raises
    any other exception is not caught: the constructor raises that
    exception, prints nothing and does not end the process.  When the
    module is imported the constructor returns a viewer, which in the
    polyscope backend is ready and has printed nothing, and [update] on a
    constructed viewer never raises an [AttributeError]: the missing backend
    is not met again at [update]. *)
Theorem fatal_construction_on_missing_backend :
  (forall self (w : Kissualizer.World),
     Kissualizer.site_polyscope w = None ->
     (forall name,
        Kissualizer.import_error w = ModuleNotFoundError name ->
        Kissualizer.__init__ self w =
          Exit 1
            {| Kissualizer.site_polyscope := None;
               Kissualizer.cls := Kissualizer.cls w;
               Kissualizer.stdout :=
                 Kissualizer.stdout w ++
                 ["polyscope is not installed on your system, run " +:+
                  String (Ascii.ascii_of_nat 34) "pip install polyscope" +:+
                  String (Ascii.ascii_of_nat 34) EmptyString];
               Kissualizer.import_error := Kissualizer.import_error w |}) /\
     ((forall name, Kissualizer.import_error w <> ModuleNotFoundError name) ->
      Kissualizer.__init__ self w = Raise (Kissualizer.import_error w) w)) /\
  (forall self (w : Kissualizer.World) p,
     Kissualizer.site_polyscope w = Some p ->
     exists w',
       Kissualizer.__init__ self w = Ok tt w' /\
       Kissualizer.ready w' = true /\
       Kissualizer.stdout w' = Kissualizer.stdout w) /\
  (forall self src kps lmap pose script (w : Kissualizer.World) msg w',
     Kissualizer.ready w = true ->
     Kissualizer.update self src kps lmap pose script w <>
       Raise (AttributeError msg) w') /\
  (forall name out,
     RegistrationVisualizer.__init__
       (import_raises (ModuleNotFoundError name)) out =
       Exit 1
         (out ++
          ["open3d is not installed on your system, run " +:+
           String (Ascii.ascii_of_nat 34) "pip install open3d" +:+
           String (Ascii.ascii_of_nat 34) EmptyString])) /\
  (forall e out,
     (forall name, e <> ModuleNotFoundError name) ->
     RegistrationVisualizer.__init__ (import_raises e) out = Raise e out) /\
  (forall out,
     exists w, RegistrationVisualizer.__init__ imported out =
               Ok w (RegistrationVisualizer.stdout w)) /\
  (forall self src kps lmap pose script (w : RegistrationVisualizer.World)
          msg w',
     RegistrationVisualizer.update self src kps lmap pose script w <>
       Raise (AttributeError msg) w').
Proof.
  split; [| split; [| split; [| split; [| split; [| split]]]]].
  - intros self w Hs. split.
    + intros name He. now rewrite (init_missing self w name Hs He).
    + intros He. now apply init_raises.
  - intros self w p Hs.
    destruct (init_present self w p Hs) as (w' & Hi & Hr & _ & Ho & _).
    now exists w'.
  - intros self src kps lmap pose script w msg w' Hr Hu.
    pose proof (update_endings self src kps lmap pose script w Hr) as He.
    now rewrite Hu in He.
  - intros name out. now rewrite rv_init_not_found.
  - intros e out He. now apply rv_init_raises.
  - intros out. apply rv_init_imported.
  - intros self src kps lmap pose script w msg w' Hu.
    pose proof (rv_update_endings self src kps lmap pose script w) as He.
    now rewrite Hu in He.
Qed.

End FatalConstruction.

(** The claim C7 as stated fails: an import of the backend module that
    fails with another exception than [ModuleNotFoundError] (an
    [ImportError], say, of a backend that is installed but does not load)
    is not caught.  The constructor then raises that exception to its
    caller: no hint is printed and the process is not ended. *)
Lemma import_error_counterexample :
  let failure := ImportError "DLL load failed" in
  let w :=
    {| Kissualizer.site_polyscope := None;
       Kissualizer.cls := @Kissualizer.class_attrs numpy_Z;
       Kissualizer.stdout := [];
       Kissualizer.import_error := failure |} in
  let r := @Kissualizer.__init__ numpy_Z (Kissualizer.instance_at 0) w in
  let r' := @RegistrationVisualizer.__init__ numpy_Z (import_raises failure) [] in
  (raised r = Some failure /\ exit_status r = None /\
   Kissualizer.stdout (world_of r) = []) /\
  (raised r' = Some failure /\ exit_status r' = None /\ world_of r' = []).
Proof.
  vm_compute. repeat split.
Defined.

(** Witness of C7: a process in which polyscope is not installed. *)
Lemma fatal_construction_on_missing_backend_witness :
  Kissualizer.site_polyscope (@Kissualizer.boot numpy_Z None) = None /\
  Kissualizer.import_error (@Kissualizer.boot numpy_Z None) =
    ModuleNotFoundError "polyscope" /\
  exit_status
    (@Kissualizer.__init__ numpy_Z (Kissualizer.instance_at 0)
       (Kissualizer.boot None)) = Some 1%Z /\
  Kissualizer.stdout
    (world_of
       (@Kissualizer.__init__ numpy_Z (Kissualizer.instance_at 0)
          (Kissualizer.boot None))) =
    ["polyscope is not installed on your system, run " +:+
     String (Ascii.ascii_of_nat 34) "pip install polyscope" +:+
     String (Ascii.ascii_of_nat 34) EmptyString].
Proof.
  split; [reflexivity |]. split; [reflexivity |].
  destruct (@fatal_construction_on_missing_backend numpy_Z persistent_values
              open3d_Z) as [HK _].
  destruct (HK (Kissualizer.instance_at 0) (Kissualizer.boot None) eq_refl)
    as [Hm _].
  rewrite (Hm "polyscope" eq_refl).
  split; reflexivity.
Defined.
